(** * libmodbus, TCP transport (src/modbus-tcp.c): a shallow embedding

    The C functions of [modbus-tcp.c] are written as Rocq functions.
    - [int] values are [Z]; the bytes of a message buffer ([uint8_t]) are
      [Z] values stored through [to_uint8], the 16-bit transaction id
      through [to_uint16].
    - A message buffer ([uint8_t *]) is a [list Z] updated in place with
      stdpp's list insert.  A store outside the list does nothing in the
      model (in C it is undefined behaviour), so theorems that speak about
      a stored byte ask the buffer to be long enough.
    - A function that returns [-1] and sets [errno] returns [Fail e]; a
      function that returns the integer [v] returns [Ret v].
    - The transport parameter block ([ctx->backend_data]) lives in a heap
      and the context holds a pointer to it.  The context structure itself
      is passed by value: a function that writes through [ctx] returns the
      updated structure.
    - Diagnostic output ([printf], [fprintf], [_error_print]) is left out. *)

From stdpp Require Import gmap strings list.
From Stdlib Require Import ZArith Lia.

Local Open Scope Z_scope.

(** ** Integers of fixed width *)

Definition UINT16_MAX : Z := 65535.

Definition to_uint8 (x : Z) : Z := x mod 256.
Definition to_uint16 (x : Z) : Z := x mod 65536.

(** ** errno and C return values *)

(** The error codes the file tests or sets, and [Eother] for every other
    code the system can report. *)
Inductive errno_t : Type :=
| EINTR
| EBADF
| EINVAL
| ETIMEDOUT
| ECONNRESET
| ECONNREFUSED
| EMBBADDATA
| Eother (code : Z).

#[global] Instance errno_eq_dec : EqDecision errno_t.
Proof. solve_decision. Defined.

(** The result of a C function that reports failure as [-1] with [errno]. *)
Inductive cret : Type :=
| Ret (v : Z)
| Fail (e : errno_t).

(** The integer the caller sees. *)
Definition rc_of (r : cret) : Z :=
  match r with
  | Ret v => v
  | Fail _ => -1
  end.

(** ** The connection context *)

Record timeval : Type := { tv_sec : Z; tv_usec : Z }.

(** The two backend tables differ only in their connect function. *)
Inductive connect_fn : Type :=
| tcp_connect
| tcp_pi_connect.

(** The numeric entries of [modbus_backend_t]; of the function pointers only
    [connect] is kept, the other entries are the same function in both
    tables and are called by name. *)
Record modbus_backend_t : Type := {
  header_length : Z;
  checksum_length : Z;
  max_adu_length : Z;
  backend_connect : connect_fn
}.

(** A pointer to a transport parameter block. *)
Abbreviation loc := positive.

(** The fields of [modbus_t] the file reads or writes.  [traceCallback] is
    [true] when the callback pointer is set. *)
Record modbus_t : Type := {
  slave : Z;
  s : Z;
  debug : bool;
  error_recovery : Z;
  response_timeout : timeval;
  byte_timeout : timeval;
  backend : modbus_backend_t;
  backend_data : loc;
  traceCallback : bool
}.

Definition set_slave (v : Z) (ctx : modbus_t) : modbus_t :=
  {| slave := v; s := s ctx; debug := debug ctx;
     error_recovery := error_recovery ctx;
     response_timeout := response_timeout ctx;
     byte_timeout := byte_timeout ctx;
     backend := backend ctx; backend_data := backend_data ctx;
     traceCallback := traceCallback ctx |}.

Definition set_s (v : Z) (ctx : modbus_t) : modbus_t :=
  {| slave := slave ctx; s := v; debug := debug ctx;
     error_recovery := error_recovery ctx;
     response_timeout := response_timeout ctx;
     byte_timeout := byte_timeout ctx;
     backend := backend ctx; backend_data := backend_data ctx;
     traceCallback := traceCallback ctx |}.

Definition set_backend (b : modbus_backend_t) (ctx : modbus_t) : modbus_t :=
  {| slave := slave ctx; s := s ctx; debug := debug ctx;
     error_recovery := error_recovery ctx;
     response_timeout := response_timeout ctx;
     byte_timeout := byte_timeout ctx;
     backend := b; backend_data := backend_data ctx;
     traceCallback := traceCallback ctx |}.

Definition set_backend_data (p : loc) (ctx : modbus_t) : modbus_t :=
  {| slave := slave ctx; s := s ctx; debug := debug ctx;
     error_recovery := error_recovery ctx;
     response_timeout := response_timeout ctx;
     byte_timeout := byte_timeout ctx;
     backend := backend ctx; backend_data := p;
     traceCallback := traceCallback ctx |}.

(** Modelled from the spec: the macro [MODBUS_TCP_SLAVE] of modbus-tcp.h,
    the "unset" unit id of the TCP transport, 0xFF (the comment in
    [_modbus_set_slave] gives the same value). *)
Definition MODBUS_TCP_SLAVE : Z := 255.

(** ** Unit identifier *)

(** [_modbus_set_slave], lines 82-97. *)
Definition _modbus_set_slave (ctx : modbus_t) (slave : Z) : modbus_t * cret :=
  if (0 <=? slave) && (slave <=? 247) then
    (set_slave slave ctx, Ret 0)
  else if slave =? MODBUS_TCP_SLAVE then
    (set_slave slave ctx, Ret 0)
  else
    (ctx, Fail EINVAL).

(** ** Request and response headers *)

(** [req[i]] read from a buffer. *)
Definition byte_at (msg : list Z) (i : nat) : Z := msg !!! i.

(** [_modbus_tcp_prepare_response_tid], lines 180-183. *)
Definition _modbus_tcp_prepare_response_tid (req : list Z) : Z :=
  Z.shiftl (byte_at req 0) 8 + byte_at req 1.

(** [_modbus_tcp_send_msg_pre], lines 185-194. *)
Definition _modbus_tcp_send_msg_pre (req : list Z) (req_length : Z)
  : list Z * Z :=
  let mbap_length := req_length - 6 in
  let req := <[4%nat := to_uint8 (Z.shiftr mbap_length 8)]> req in
  let req := <[5%nat := to_uint8 (Z.land mbap_length 255)]> req in
  (req, req_length).

(** The pre-send patch applied [n] times to the same message. *)
Fixpoint send_msg_pre_iter (n : nat) (req : list Z) (req_length : Z)
  : list Z :=
  match n with
  | O => req
  | S n' => send_msg_pre_iter n' (fst (_modbus_tcp_send_msg_pre req req_length))
                              req_length
  end.

(** [_modbus_tcp_check_integrity], lines 352-355. *)
Definition _modbus_tcp_check_integrity (ctx : modbus_t) (msg : list Z)
  (msg_length : Z) : Z := msg_length.

(** [_modbus_tcp_pre_check_confirmation], lines 357-371. *)
Definition _modbus_tcp_pre_check_confirmation (ctx : modbus_t)
  (req rsp : list Z) (rsp_length : Z) : cret :=
  if negb (byte_at req 0 =? byte_at rsp 0) || negb (byte_at req 1 =? byte_at rsp 1)
  then Fail EMBBADDATA
  else Ret 0.

(** ** Transport parameter blocks and the heap *)

(** [modbus_tcp_t] and [modbus_tcp_pi_t] with the fields the file uses. *)
Record modbus_tcp_t : Type := { t_id : Z; port : Z; ip : string }.
Record modbus_tcp_pi_t : Type := { pi_t_id : Z; node : string; service : string }.

(** What a parameter block holds.  [tcp_pi_head] is a block of
    [sizeof(modbus_tcp_t)] bytes filled from the start of a
    [modbus_tcp_pi_t] block, the only way the file makes a block that is
    neither of the two structures: it holds the counter and the characters
    of [node] that lie in that range, and no service. *)
Inductive backend_data_t : Type :=
| tcp_data (d : modbus_tcp_t)
| tcp_pi_data (d : modbus_tcp_pi_t)
| tcp_pi_head (t : Z) (node_head : string).

(** [ctx_tcp->t_id]: the counter is the first
    member of both structures, and the file reads it through a
    [modbus_tcp_t] pointer for both transports. *)
Definition get_t_id (b : backend_data_t) : Z :=
  match b with
  | tcp_data d => t_id d
  | tcp_pi_data d => pi_t_id d
  | tcp_pi_head t _ => t
  end.

Definition put_t_id (v : Z) (b : backend_data_t) : backend_data_t :=
  match b with
  | tcp_data d => tcp_data {| t_id := v; port := port d; ip := ip d |}
  | tcp_pi_data d =>
      tcp_pi_data {| pi_t_id := v; node := node d; service := service d |}
  | tcp_pi_head _ node_head => tcp_pi_head v node_head
  end.

(** [malloc]: the first address not in use. *)
Definition malloc (h : gmap loc backend_data_t) : loc := fresh (dom h).

(** [strlcpy dst src size]: the bytes stored in [dst] (at most [size - 1],
    then the terminator) and the returned length of [src]. *)
Definition strlcpy (src : string) (size : nat) : string * nat :=
  (String.substring 0 (size - 1)%nat src, String.length src).

Section Transport.

(** The constants of modbus-tcp-private.h and modbus-tcp.h, and the context
    as [_modbus_init_common] of modbus.c leaves it, are parameters: the
    functions below are the same for every value of them. *)
Variable _MODBUS_TCP_HEADER_LENGTH : Z.
Variable _MODBUS_TCP_CHECKSUM_LENGTH : Z.
Variable MODBUS_TCP_MAX_ADU_LENGTH : Z.
Variable _MODBUS_TCP_PRESET_REQ_LENGTH : Z.
Variable _MODBUS_TCP_PI_NODE_LENGTH : nat.
Variable _MODBUS_TCP_PI_SERVICE_LENGTH : nat.
Variable _modbus_init_common : modbus_t.

(** The layout of the two structures is in modbus-tcp-private.h as well:
    [sizeof(modbus_tcp_t) - offsetof(modbus_tcp_pi_t, node)], the number of
    characters of [node] within the first [sizeof(modbus_tcp_t)] bytes of a
    [modbus_tcp_pi_t] block (24 - 2 = 22 where [int] has four bytes; the
    service field starts far behind that range). *)
Variable NODE_BYTES_IN_TCP_T : nat.

(** [_modbus_tcp_build_request_basis], lines 125-154.  [None] when
    [ctx->backend_data] points to no block. *)
Definition _modbus_tcp_build_request_basis (h : gmap loc backend_data_t)
  (ctx : modbus_t) (function addr nb : Z) (req : list Z)
  : option (gmap loc backend_data_t * list Z * Z) :=
  match h !! backend_data ctx with
  | None => None
  | Some ctx_tcp =>
      let t := if get_t_id ctx_tcp <? UINT16_MAX
               then to_uint16 (get_t_id ctx_tcp + 1)
               else 0 in
      let h := <[backend_data ctx := put_t_id t ctx_tcp]> h in
      let req := <[0%nat := to_uint8 (Z.shiftr t 8)]> req in
      let req := <[1%nat := to_uint8 (Z.land t 255)]> req in
      let req := <[2%nat := 0]> req in
      let req := <[3%nat := 0]> req in
      let req := <[6%nat := to_uint8 (slave ctx)]> req in
      let req := <[7%nat := to_uint8 function]> req in
      let req := <[8%nat := to_uint8 (Z.shiftr addr 8)]> req in
      let req := <[9%nat := to_uint8 (Z.land addr 255)]> req in
      let req := <[10%nat := to_uint8 (Z.shiftr nb 8)]> req in
      let req := <[11%nat := to_uint8 (Z.land nb 255)]> req in
      Some (h, req, _MODBUS_TCP_PRESET_REQ_LENGTH)
  end.

(** [memcpy(dst, src, sizeof(modbus_tcp_t))] into a block of that size:
    the whole of a [modbus_tcp_t] block, and of a [modbus_tcp_pi_t] block
    the counter and the first characters of [node]. *)
Definition memcpy_sizeof_tcp_t (src : backend_data_t) : backend_data_t :=
  match src with
  | tcp_data d => tcp_data d
  | tcp_pi_data d =>
      tcp_pi_head (pi_t_id d)
                  (String.substring 0 NODE_BYTES_IN_TCP_T (node d))
  | tcp_pi_head t node_head => tcp_pi_head t node_head
  end.

(** [modbus_clone_tcp], lines 836-843: the context is copied whole, the
    parameter block over [sizeof(modbus_tcp_t)] bytes whatever the
    transport of the context is.  [None] when the pointer is dangling. *)
Definition modbus_clone_tcp (h : gmap loc backend_data_t) (ctx : modbus_t)
  : option (gmap loc backend_data_t * modbus_t) :=
  match h !! backend_data ctx with
  | Some ctx_backend_data =>
      let new_ctx := ctx in
      let p := malloc h in
      Some (<[p := memcpy_sizeof_tcp_t ctx_backend_data]> h,
            set_backend_data p new_ctx)
  | None => None
  end.

(** The two backend tables, lines 898-941. *)
Definition _modbus_tcp_backend : modbus_backend_t :=
  {| header_length := _MODBUS_TCP_HEADER_LENGTH;
     checksum_length := _MODBUS_TCP_CHECKSUM_LENGTH;
     max_adu_length := MODBUS_TCP_MAX_ADU_LENGTH;
     backend_connect := tcp_connect |}.

Definition _modbus_tcp_pi_backend : modbus_backend_t :=
  {| header_length := _MODBUS_TCP_HEADER_LENGTH;
     checksum_length := _MODBUS_TCP_CHECKSUM_LENGTH;
     max_adu_length := MODBUS_TCP_MAX_ADU_LENGTH;
     backend_connect := tcp_pi_connect |}.

(** [modbus_new_tcp], lines 943-994 (without the [OS_BSD] signal handler).
    [inr e] is the [NULL] result with [errno = e]; [modbus_free] on the
    failure paths releases the block again, which leaves the heap as it
    was. *)
Definition modbus_new_tcp (h : gmap loc backend_data_t) (ip : string)
  (port : Z) : gmap loc backend_data_t * (modbus_t + errno_t) :=
  let ctx := _modbus_init_common in
  let ctx := set_slave MODBUS_TCP_SLAVE ctx in
  let ctx := set_backend _modbus_tcp_backend ctx in
  let ctx := set_backend_data (malloc h) ctx in
  let dest_size := 16%nat in
  let '(ip_copy, ret_size) := strlcpy ip dest_size in
  if Nat.eqb ret_size 0 then (h, inr EINVAL)
  else if Nat.leb dest_size ret_size then (h, inr EINVAL)
  else
    let ctx_tcp := {| t_id := 0; port := port; ip := ip_copy |} in
    (<[backend_data ctx := tcp_data ctx_tcp]> h, inl ctx).

(** [modbus_new_tcp_pi], lines 997-1049. *)
Definition modbus_new_tcp_pi (h : gmap loc backend_data_t)
  (node service : string) : gmap loc backend_data_t * (modbus_t + errno_t) :=
  let ctx := _modbus_init_common in
  let ctx := set_slave MODBUS_TCP_SLAVE ctx in
  let ctx := set_backend _modbus_tcp_pi_backend ctx in
  let ctx := set_backend_data (malloc h) ctx in
  let dest_size := _MODBUS_TCP_PI_NODE_LENGTH in
  let '(node_copy, ret_size) := strlcpy node dest_size in
  if Nat.eqb ret_size 0 then (h, inr EINVAL)
  else if Nat.leb dest_size ret_size then (h, inr EINVAL)
  else
    let dest_size := _MODBUS_TCP_PI_SERVICE_LENGTH in
    let '(service_copy, ret_size) := strlcpy service dest_size in
    if Nat.eqb ret_size 0 then (h, inr EINVAL)
    else if Nat.leb dest_size ret_size then (h, inr EINVAL)
    else
      let ctx_tcp_pi :=
        {| pi_t_id := 0; node := node_copy; service := service_copy |} in
      (<[backend_data ctx := tcp_pi_data ctx_tcp_pi]> h, inl ctx).

(** [n] successive requests built on one context: the heap afterwards and
    the transaction ids read back from the first two bytes of each
    request. *)
Fixpoint build_requests (n : nat) (h : gmap loc backend_data_t)
  (ctx : modbus_t) (function addr nb : Z) (req : list Z)
  : option (gmap loc backend_data_t * list Z) :=
  match n with
  | O => Some (h, [])
  | S n' =>
      match _modbus_tcp_build_request_basis h ctx function addr nb req with
      | None => None
      | Some (h1, req1, _) =>
          match build_requests n' h1 ctx function addr nb req1 with
          | None => None
          | Some (h2, ids) =>
              Some (h2, _modbus_tcp_prepare_response_tid req1 :: ids)
          end
      end
  end.

(** Requests built on two contexts in the order given by [sched] ([true]:
    on [ctx1], [false]: on [ctx2]); the ids written for each context. *)
Fixpoint build_interleaved (sched : list bool) (h : gmap loc backend_data_t)
  (ctx1 ctx2 : modbus_t) (function addr nb : Z) (req : list Z)
  : option (gmap loc backend_data_t * list Z * list Z) :=
  match sched with
  | [] => Some (h, [], [])
  | b :: sched' =>
      match _modbus_tcp_build_request_basis h (if b then ctx1 else ctx2)
              function addr nb req with
      | None => None
      | Some (h1, req1, _) =>
          match build_interleaved sched' h1 ctx1 ctx2 function addr nb req1 with
          | None => None
          | Some (h2, ids1, ids2) =>
              let id := _modbus_tcp_prepare_response_tid req1 in
              if b then Some (h2, id :: ids1, ids2)
              else Some (h2, ids1, id :: ids2)
          end
      end
  end.

End Transport.

(** The ids [t+1, t+2, ..., t+n] of a 16-bit counter. *)
Definition tid_seq (t : Z) (n : nat) : list Z :=
  map (fun k => (t + Z.of_nat k) mod 65536) (seq 1 n).

(** ** Message reassembly *)

Inductive msg_type_t : Type := MSG_INDICATION | MSG_CONFIRMATION.

Inductive _step_t : Type := _STEP_FUNCTION | _STEP_META | _STEP_DATA.

(** The socket is an environment script.  One call of [select] returns
    [-1] with an error code, [0] (nothing ready in time) or the number of
    ready descriptors. *)
Inductive select_raw : Type :=
| select_error (e : errno_t)
| select_zero
| select_ready (n : positive).

(** One call of [recv] fails with an error code or finds [data] ready in the
    socket, of which it delivers at most the requested count; no data is the
    zero-byte read. *)
Inductive recv_raw : Type :=
| recv_error (e : errno_t)
| recv_bytes (data : list Z).

(** What the socket does during one turn of the reassembly loop: the
    returns of the successive [select] calls of the readiness wait, and the
    return of the [recv] that follows a successful wait. *)
Record iteration : Type := { it_select : list select_raw; it_recv : recv_raw }.

(** Functions of modbus.c called by the recovery policy. *)
Inductive ext_fn : Type :=
| _sleep_response_timeout
| modbus_flush
| modbus_close
| modbus_connect.

(** The calls a receive makes, in order. *)
Inductive call : Type :=
| call_select (s : Z) (tv : option timeval)
| call_recv (s : Z) (offset len : Z)
| call_ext (f : ext_fn)
| call_trace (msg : list Z) (msg_length : Z).

(** [_modbus_tcp_select_s], lines 100-122: the result and the calls made.
    [None] when the script ends while the wait is still being restarted. *)
Fixpoint _modbus_tcp_select_s (script : list select_raw)
  (tv : option timeval) (s : Z) : option (cret * list call) :=
  match script with
  | [] => None
  | select_error e :: script' =>
      if decide (e = EINTR) then
        match _modbus_tcp_select_s script' tv s with
        | None => None
        | Some (r, calls) => Some (r, call_select s tv :: calls)
        end
      else Some (Fail e, [call_select s tv])
  | select_zero :: _ => Some (Fail ETIMEDOUT, [call_select s tv])
  | select_ready n :: _ => Some (Ret (Z.pos n), [call_select s tv])
  end.

(** [_modbus_tcp_recv_s], lines 209-211: the return value and the bytes
    stored at [rsp]. *)
Definition _modbus_tcp_recv_s (r : recv_raw) (rsp_length : Z)
  : cret * list Z :=
  match r with
  | recv_error e => (Fail e, [])
  | recv_bytes data =>
      let got := take (Z.to_nat rsp_length) data in
      (Ret (Z.of_nat (length got)), got)
  end.

(** What a caller of the receive observes: the return value, the context,
    the buffer, the calls made and the part of the script not consumed. *)
Record recv_result : Type := {
  r_ret : cret;
  r_ctx : modbus_t;
  r_msg : list Z;
  r_calls : list call;
  r_rest : list iteration
}.

(** The same for the public entry point, whose context can be [NULL]. *)
Definition api_result : Type :=
  cret * option modbus_t * list Z * list call * list iteration.

Definition api_view (r : recv_result) : api_result :=
  (r_ret r, Some (r_ctx r), r_msg r, r_calls r, r_rest r).

Section Receive.

(** The flag [MODBUS_ERROR_RECOVERY_LINK] of modbus.h and the two length
    functions of modbus.c are parameters.  [ext_call f] is what a call of
    the modbus.c function [f] does to the context and to [errno]. *)
Variable MODBUS_ERROR_RECOVERY_LINK : Z.
Variable compute_meta_length_after_function : Z -> msg_type_t -> Z.
Variable compute_data_length_after_meta :
  modbus_t -> list Z -> msg_type_t -> Z.
Variable ext_call : ext_fn -> modbus_t -> errno_t -> modbus_t * errno_t.

(** Lines 255-266: the repair after a failed readiness wait.  Returns the
    context, [errno] and the calls made. *)
Definition recover_select (ctx : modbus_t) (errno : errno_t)
  : modbus_t * errno_t * list call :=
  if negb (Z.land (error_recovery ctx) MODBUS_ERROR_RECOVERY_LINK =? 0) then
    let saved_errno := errno in
    let '(ctx, errno, calls) :=
      if decide (errno = ETIMEDOUT) then
        let '(ctx, errno) := ext_call _sleep_response_timeout ctx errno in
        let '(ctx, errno) := ext_call modbus_flush ctx errno in
        (ctx, errno, [call_ext _sleep_response_timeout; call_ext modbus_flush])
      else if decide (errno = EBADF) then
        let '(ctx, errno) := ext_call modbus_close ctx errno in
        let '(ctx, errno) := ext_call modbus_connect ctx errno in
        (ctx, errno, [call_ext modbus_close; call_ext modbus_connect])
      else (ctx, errno, []) in
    let errno := saved_errno in
    (ctx, errno, calls)
  else (ctx, errno, []).

(** Lines 278-286: the repair after a failed read. *)
Definition recover_read (ctx : modbus_t) (errno : errno_t)
  : modbus_t * errno_t * list call :=
  if negb (Z.land (error_recovery ctx) MODBUS_ERROR_RECOVERY_LINK =? 0)
     && (bool_decide (errno = ECONNRESET)
         || bool_decide (errno = ECONNREFUSED)
         || bool_decide (errno = EBADF)) then
    let saved_errno := errno in
    let '(ctx, errno) := ext_call modbus_close ctx errno in
    let '(ctx, errno) := ext_call modbus_connect ctx errno in
    let errno := saved_errno in
    (ctx, errno, [call_ext modbus_close; call_ext modbus_connect])
  else (ctx, errno, []).

(** Lines 303-325: the [switch] run when a step has all its bytes.  [inl e]
    is the early [return -1] with [errno = e]; [inr] gives the next step
    and the number of bytes it has to read. *)
Definition next_step (ctx : modbus_t) (msg : list Z) (msg_type : msg_type_t)
  (step : _step_t) (msg_length : Z) : errno_t + (_step_t * Z) :=
  let step_meta :=
    let length_to_read := compute_data_length_after_meta ctx msg msg_type in
    if max_adu_length (backend ctx) <? msg_length + length_to_read
    then inl EMBBADDATA
    else inr (_STEP_DATA, length_to_read) in
  match step with
  | _STEP_FUNCTION =>
      let length_to_read :=
        compute_meta_length_after_function
          (byte_at msg (Z.to_nat (header_length (backend ctx)))) msg_type in
      if negb (length_to_read =? 0) then inr (_STEP_META, length_to_read)
      else step_meta
  | _STEP_META => step_meta
  | _STEP_DATA => inr (_STEP_DATA, 0)
  end.

(** Lines 338-345: after the loop. *)
Definition receive_done (env : list iteration) (ctx : modbus_t)
  (msg : list Z) (msg_length : Z) (calls : list call) : recv_result :=
  let calls :=
    if traceCallback ctx then calls ++ [call_trace msg msg_length]
    else calls in
  {| r_ret := Ret (_modbus_tcp_check_integrity ctx msg msg_length);
     r_ctx := ctx; r_msg := msg; r_calls := calls; r_rest := env |}.

(** Lines 251-336: the loop, one turn per element of the script.  [None]
    when the script ends before the call returns. *)
Fixpoint receive_loop (env : list iteration) (ctx : modbus_t)
  (msg : list Z) (msg_type : msg_type_t) (s : Z) (step : _step_t)
  (length_to_read msg_length : Z) (p_tv : option timeval)
  (calls : list call) : option recv_result :=
  if length_to_read <=? 0 then
    Some (receive_done env ctx msg msg_length calls)
  else
    match env with
    | [] => None
    | it :: env' =>
        match _modbus_tcp_select_s (it_select it) p_tv s with
        | None => None
        | Some (Fail errno, sel_calls) =>
            let '(ctx, errno, rec_calls) := recover_select ctx errno in
            Some {| r_ret := Fail errno; r_ctx := ctx; r_msg := msg;
                    r_calls := calls ++ sel_calls ++ rec_calls;
                    r_rest := env' |}
        | Some (Ret _, sel_calls) =>
            let '(rc, data) := _modbus_tcp_recv_s (it_recv it) length_to_read in
            let calls :=
              calls ++ sel_calls ++ [call_recv s msg_length length_to_read] in
            let msg := list_inserts (Z.to_nat msg_length) data msg in
            let rc := match rc with Ret 0 => Fail ECONNRESET | _ => rc end in
            match rc with
            | Fail errno =>
                let '(ctx, errno, rec_calls) := recover_read ctx errno in
                Some {| r_ret := Fail errno; r_ctx := ctx; r_msg := msg;
                        r_calls := calls ++ rec_calls; r_rest := env' |}
            | Ret rc =>
                let msg_length := msg_length + rc in
                let length_to_read := length_to_read - rc in
                let next :=
                  if length_to_read =? 0
                  then next_step ctx msg msg_type step msg_length
                  else inr (step, length_to_read) in
                match next with
                | inl errno =>
                    Some {| r_ret := Fail errno; r_ctx := ctx; r_msg := msg;
                            r_calls := calls; r_rest := env' |}
                | inr (step, length_to_read) =>
                    let p_tv :=
                      if (0 <? length_to_read)
                         && negb (tv_sec (byte_timeout ctx) =? -1)
                      then Some (byte_timeout ctx)
                      else p_tv in
                    receive_loop env' ctx msg msg_type s step
                                 length_to_read msg_length p_tv calls
                end
            end
        end
    end.

(** [_modbus_tcp_receive_msg], lines 213-346. *)
Definition _modbus_tcp_receive_msg (env : list iteration) (ctx : modbus_t)
  (msg : list Z) (msg_type : msg_type_t) (s : Z) : option recv_result :=
  let msg_length := 0 in
  let step := _STEP_FUNCTION in
  let length_to_read := header_length (backend ctx) + 1 in
  let p_tv :=
    match msg_type with
    | MSG_INDICATION => None
    | MSG_CONFIRMATION =>
        Some {| tv_sec := tv_sec (response_timeout ctx);
                tv_usec := tv_usec (response_timeout ctx) |}
    end in
  receive_loop env ctx msg msg_type s step length_to_read msg_length p_tv [].

(** [modbus_tcp_receive], lines 818-834.  [ctx = None] is the [NULL]
    pointer.  The result is what the caller observes: return value,
    context, buffer, calls made and unconsumed script. *)
Definition modbus_tcp_receive (env : list iteration) (ctx : option modbus_t)
  (s : Z) (query : list Z) : option api_result :=
  if s =? 0 then Some (Fail EINVAL, ctx, query, [], env)
  else
    match ctx with
    | None => Some (Fail EINVAL, None, query, [], env)
    | Some ctx =>
        let ctx := set_s s ctx in
        api_view <$> _modbus_tcp_receive_msg env ctx query MSG_INDICATION s
    end.

End Receive.

(** The context both constructors return, up to the backend table. *)
Definition new_context (init : modbus_t) (b : modbus_backend_t)
  (h : gmap loc backend_data_t) : modbus_t :=
  set_backend_data (malloc h) (set_backend b (set_slave MODBUS_TCP_SLAVE init)).

(** The number of requests a schedule builds on the first ([true]) or on
    the second ([false]) context. *)
Definition calls_on (b : bool) (sched : list bool) : nat :=
  length (List.filter (Bool.eqb b) sched).

(** The context and [errno] after the modbus.c functions [fs] were called
    in order. *)
Definition run_ext (ext_call : ext_fn -> modbus_t -> errno_t -> modbus_t * errno_t)
  (fs : list ext_fn) (ctx : modbus_t) (errno : errno_t) : modbus_t * errno_t :=
  foldl (fun st f => ext_call f (fst st) (snd st)) (ctx, errno) fs.

(** A [recv] call that stays inside the first [bound] bytes of the buffer. *)
Definition recv_within (bound : Z) (c : call) : Prop :=
  match c with
  | call_recv _ offset len => 0 <= offset /\ 0 < len /\ offset + len <= bound
  | _ => True
  end.

(** ** An instance for the examples

    A connected address-based context, its parameter block as
    [modbus_new_tcp] leaves it, and values for the constants. *)
Definition example_backend : modbus_backend_t :=
  {| header_length := 7; checksum_length := 0; max_adu_length := 260;
     backend_connect := tcp_connect |}.

Definition example_init : modbus_t :=
  {| slave := 0; s := -1; debug := false; error_recovery := 0;
     response_timeout := {| tv_sec := 0; tv_usec := 500000 |};
     byte_timeout := {| tv_sec := 0; tv_usec := 500000 |};
     backend := example_backend; backend_data := 1%positive;
     traceCallback := false |}.

Definition example_ctx : modbus_t :=
  {| slave := 255; s := 4; debug := false; error_recovery := 2;
     response_timeout := {| tv_sec := 0; tv_usec := 500000 |};
     byte_timeout := {| tv_sec := 0; tv_usec := 500000 |};
     backend := example_backend; backend_data := 1%positive;
     traceCallback := false |}.

Definition example_heap : gmap loc backend_data_t :=
  {[ 1%positive := tcp_data {| t_id := 0; port := 502; ip := "127.0.0.1" |} ]}.

(** Length functions and an outcome of the modbus.c calls for the
    examples: the lengths follow the function code as in the Modbus
    protocol, [modbus_close] drops the socket and [modbus_connect] opens
    descriptor 5 and leaves another code in [errno]. *)
Definition example_meta_length (function : Z) (msg_type : msg_type_t) : Z :=
  match msg_type with
  | MSG_INDICATION =>
      if function <=? 6 then 4
      else if (function =? 15) || (function =? 16) then 5
      else if function =? 22 then 6
      else if function =? 23 then 9
      else 0
  | MSG_CONFIRMATION =>
      if (function =? 5) || (function =? 6) || (function =? 15)
         || (function =? 16) then 4
      else if function =? 22 then 6
      else 1
  end.

Definition example_data_length (ctx : modbus_t) (msg : list Z)
  (msg_type : msg_type_t) : Z :=
  let h := Z.to_nat (header_length (backend ctx)) in
  let function := byte_at msg h in
  match msg_type with
  | MSG_INDICATION =>
      if (function =? 15) || (function =? 16) then byte_at msg (h + 5)
      else if function =? 23 then byte_at msg (h + 9)
      else 0
  | MSG_CONFIRMATION =>
      if (function <=? 4) || (function =? 17) || (function =? 23)
      then byte_at msg (h + 1)
      else 0
  end + checksum_length (backend ctx).

Definition example_ext_call (f : ext_fn) (ctx : modbus_t) (errno : errno_t)
  : modbus_t * errno_t :=
  match f with
  | _sleep_response_timeout => (ctx, errno)
  | modbus_flush => (ctx, Eother 11)
  | modbus_close => (set_s (-1) ctx, errno)
  | modbus_connect => (set_s 5 ctx, Eother 115)
  end.

(** A response header for function 3 and the byte count 255 that follows
    it. *)
Definition example_header : list Z := [0; 1; 0; 0; 1; 2; 17; 3].

(** ** Response header *)

(** [sft_t] of modbus-private.h, with the fields the file reads. *)
Record sft_t : Type := { sft_slave : Z; sft_function : Z; sft_t_id : Z }.

(** [_modbus_tcp_build_response_basis], lines 157-177; [preset] is
    [_MODBUS_TCP_PRESET_RSP_LENGTH]. *)
Definition _modbus_tcp_build_response_basis (preset : Z) (sft : sft_t)
  (rsp : list Z) : list Z * Z :=
  let rsp := <[0%nat := to_uint8 (Z.shiftr (sft_t_id sft) 8)]> rsp in
  let rsp := <[1%nat := to_uint8 (Z.land (sft_t_id sft) 255)]> rsp in
  let rsp := <[2%nat := 0]> rsp in
  let rsp := <[3%nat := 0]> rsp in
  let rsp := <[6%nat := to_uint8 (sft_slave sft)]> rsp in
  let rsp := <[7%nat := to_uint8 (sft_function sft)]> rsp in
  (rsp, preset).

(** A byte of a message. *)
Definition is_byte (x : Z) : Prop := 0 <= x < 256.

(** ** Reassembly: what does not depend on the calls recorded *)

(** A turn in which the socket is ready at once and has [data]. *)
Definition ready (data : list Z) : iteration :=
  {| it_select := [select_ready 1]; it_recv := recv_bytes data |}.

(** The result of a receive without the record of its calls. *)
Definition outcome (r : recv_result)
  : cret * modbus_t * list Z * list iteration :=
  (r_ret r, r_ctx r, r_msg r, r_rest r).

Definition is_ext_call (c : call) : Prop :=
  match c with
  | call_ext _ => True
  | _ => False
  end.

(** A [select] on the descriptor [s]. *)
Definition is_select_on (s : Z) (c : call) : Prop :=
  match c with
  | call_select s' _ => s' = s
  | _ => False
  end.

(** A readiness wait that is given a timeout. *)
Definition wait_has_timeout (c : call) : Prop :=
  match c with
  | call_select _ None => False
  | _ => True
  end.

(** A readiness wait whose timeout was set from [a] or from [b]. *)
Definition wait_bounded_by (a b : timeval) (c : call) : Prop :=
  match c with
  | call_select _ (Some tv) => tv = a \/ tv = b
  | call_select _ None => False
  | _ => True
  end.

(** ** Sockets

    For the connection manager the system calls are an environment: each
    call returns what the environment says, [Ret v] for the value [v] with
    [errno] untouched and [Fail e] for [-1] with [errno = e].  The functions
    return their C return value, [errno] afterwards and the system calls
    made.  The configuration modelled has [SOCK_NONBLOCK] and
    [SOCK_CLOEXEC] and is not [OS_WIN32]. *)

Definition errno_after (r : cret) (errno : errno_t) : errno_t :=
  match r with
  | Fail e => e
  | Ret _ => errno
  end.

(** [EINPROGRESS] is none of the codes of [errno_t]; its number on Linux. *)
Definition EINPROGRESS : errno_t := Eother 115.

Inductive sockopt : Type := TCP_NODELAY | IP_TOS | SO_REUSEADDR.

(** [htons(hostshort)] as the port number it stands for: the argument, an
    [int] in the file, is converted to [uint16_t], which keeps its low 16
    bits.  The byte order of the result is not modelled. *)
Definition htons (hostshort : Z) : Z := to_uint16 hostshort.

(** An internet address: [inet_addr(cp)], kept as the text it is computed
    from, and [INADDR_ANY]. *)
Inductive in_addr_t : Type :=
| inet_addr (cp : string)
| INADDR_ANY.

(** The socket addresses the file uses: a [struct sockaddr_in] with its
    [sin_port] and [sin_addr], and the [ai_addr] of the candidate number
    [ai] of a resolved list. *)
Inductive sockaddr : Type :=
| sockaddr_in (sin_port : Z) (sin_addr : in_addr_t)
| addr_info (ai : nat).

(** The system calls made; [sys_socket fd] and [sys_accept s fd] carry the
    value returned. *)
Inductive syscall : Type :=
| sys_socket (fd : Z)
| sys_setsockopt (s : Z) (opt : sockopt)
| sys_connect (s : Z) (addr : sockaddr)
| sys_select_write (s : Z) (tv : timeval)
| sys_getsockopt (s : Z)
| sys_shutdown (s : Z)
| sys_close (s : Z)
| sys_bind (s : Z) (addr : sockaddr)
| sys_listen (s : Z) (backlog : Z)
| sys_accept (s : Z) (fd : Z)
| sys_recv_dontwait (s : Z) (len : Z)
| sys_getaddrinfo (node : option string) (service : string) (passive : bool)
| sys_freeaddrinfo.

(** What the two [setsockopt] calls of the socket tuning return. *)
Record ipv4_env : Type := { oe_nodelay : cret; oe_tos : cret }.

(** [_modbus_tcp_set_ipv4_options], lines 373-418. *)
Definition _modbus_tcp_set_ipv4_options (env : ipv4_env) (s : Z)
  (errno : errno_t) : Z * errno_t * list syscall :=
  let rc := rc_of (oe_nodelay env) in
  let errno := errno_after (oe_nodelay env) errno in
  if rc =? -1 then (-1, errno, [sys_setsockopt s TCP_NODELAY])
  else
    let rc := rc_of (oe_tos env) in
    let errno := errno_after (oe_tos env) errno in
    if rc =? -1
    then (-1, errno, [sys_setsockopt s TCP_NODELAY; sys_setsockopt s IP_TOS])
    else (0, errno, [sys_setsockopt s TCP_NODELAY; sys_setsockopt s IP_TOS]).

Definition set_response_timeout (tv : timeval) (ctx : modbus_t) : modbus_t :=
  {| slave := slave ctx; s := s ctx; debug := debug ctx;
     error_recovery := error_recovery ctx;
     response_timeout := tv;
     byte_timeout := byte_timeout ctx;
     backend := backend ctx; backend_data := backend_data ctx;
     traceCallback := traceCallback ctx |}.

(** What [connect], the [select] for writing and [getsockopt(SO_ERROR)]
    return, the value [select] leaves in the timeout it was given (Linux
    stores the time not slept there, other systems leave it alone) and the
    pending error [getsockopt] stores in [optval]. *)
Record connect_env : Type := {
  ce_connect : cret;
  ce_select : cret;
  ce_timeleft : timeval;
  ce_getsockopt : cret;
  ce_optval : Z
}.

(** [_connect], lines 420-455: the return value, [errno], the timeout
    structure [*tv] afterwards and the calls. *)
Definition _connect (env : connect_env) (sockfd : Z) (addr : sockaddr)
  (tv : timeval) (errno : errno_t) : Z * errno_t * timeval * list syscall :=
  let rc := rc_of (ce_connect env) in
  let errno := errno_after (ce_connect env) errno in
  if (rc =? -1) && bool_decide (errno = EINPROGRESS) then
    let rc := rc_of (ce_select env) in
    let errno := errno_after (ce_select env) errno in
    let tv' := ce_timeleft env in
    if rc <=? 0 then
      (-1, errno, tv', [sys_connect sockfd addr; sys_select_write sockfd tv])
    else
      let rc := rc_of (ce_getsockopt env) in
      let errno := errno_after (ce_getsockopt env) errno in
      let calls := [sys_connect sockfd addr; sys_select_write sockfd tv;
                    sys_getsockopt sockfd] in
      if (rc =? 0) && (ce_optval env =? 0) then (0, errno, tv', calls)
      else (-1, ECONNREFUSED, tv', calls)
  else (rc, errno, tv, [sys_connect sockfd addr]).

(** What the calls of one address-based connect return. *)
Record tcp_connect_env : Type := {
  te_socket : cret;
  te_options : ipv4_env;
  te_connect : connect_env;
  te_close : cret
}.

(** [_modbus_tcp_connect], lines 458-507; [_connect] is given the address
    of [ctx->response_timeout], so what [select] leaves there stays in the
    context.  [None] when [ctx->backend_data] is not a [modbus_tcp_t]
    block. *)
Definition _modbus_tcp_connect (env : tcp_connect_env)
  (h : gmap loc backend_data_t) (ctx : modbus_t) (errno : errno_t)
  : option (modbus_t * Z * errno_t * list syscall) :=
  match h !! backend_data ctx with
  | Some (tcp_data ctx_tcp) =>
      let ctx := set_s (rc_of (te_socket env)) ctx in
      let errno := errno_after (te_socket env) errno in
      let calls := [sys_socket (s ctx)] in
      if s ctx =? -1 then Some (ctx, -1, errno, calls)
      else
        let '(rc, errno, calls1) :=
          _modbus_tcp_set_ipv4_options (te_options env) (s ctx) errno in
        if rc =? -1 then
          let errno := errno_after (te_close env) errno in
          Some (set_s (-1) ctx, -1, errno,
                calls ++ calls1 ++ [sys_close (s ctx)])
        else
          let '(rc, errno, tv, calls2) :=
            _connect (te_connect env) (s ctx)
                     (sockaddr_in (htons (port ctx_tcp))
                                  (inet_addr (ip ctx_tcp)))
                     (response_timeout ctx) errno in
          let ctx := set_response_timeout tv ctx in
          if rc =? -1 then
            let errno := errno_after (te_close env) errno in
            Some (set_s (-1) ctx, -1, errno,
                  calls ++ calls1 ++ calls2 ++ [sys_close (s ctx)])
          else Some (ctx, 0, errno, calls ++ calls1 ++ calls2)
  | _ => None
  end.

(** One entry of the list [getaddrinfo] returns, with what the calls made on
    it return; [ai_inet] is [ai_family == AF_INET]. *)
Record candidate : Type := {
  ai_inet : bool;
  ca_socket : cret;
  ca_options : ipv4_env;
  ca_connect : connect_env;
  ca_close : cret
}.

(** Lines 545-576: the loop over the candidates, [idx] being the position
    of the first one in the resolved list. *)
Fixpoint pi_connect_loop (ai_list : list candidate) (idx : nat)
  (ctx : modbus_t) (errno : errno_t) : modbus_t * errno_t * list syscall :=
  match ai_list with
  | [] => (ctx, errno, [])
  | ai_ptr :: ai_next =>
      let s := rc_of (ca_socket ai_ptr) in
      let errno := errno_after (ca_socket ai_ptr) errno in
      if s <? 0 then
        let '(ctx, errno, calls) :=
          pi_connect_loop ai_next (S idx) ctx errno in
        (ctx, errno, sys_socket s :: calls)
      else
        let '(errno, calls1) :=
          if ai_inet ai_ptr then
            let '(_, errno, calls1) :=
              _modbus_tcp_set_ipv4_options (ca_options ai_ptr) s errno in
            (errno, calls1)
          else (errno, []) in
        let '(rc, errno, tv, calls2) :=
          _connect (ca_connect ai_ptr) s (addr_info idx)
                   (response_timeout ctx) errno in
        let ctx := set_response_timeout tv ctx in
        if rc =? -1 then
          let errno := errno_after (ca_close ai_ptr) errno in
          let '(ctx, errno, calls) :=
            pi_connect_loop ai_next (S idx) ctx errno in
          (ctx, errno,
           sys_socket s :: calls1 ++ calls2 ++ sys_close s :: calls)
        else (set_s s ctx, errno, sys_socket s :: calls1 ++ calls2)
  end.

(** [_modbus_tcp_pi_connect], lines 510-585.  [gai] is the value
    [getaddrinfo] returns and [ai_list] the list it resolves to.  [None]
    when [ctx->backend_data] is not a [modbus_tcp_pi_t] block. *)
Definition _modbus_tcp_pi_connect (gai : Z) (ai_list : list candidate)
  (h : gmap loc backend_data_t) (ctx : modbus_t) (errno : errno_t)
  : option (modbus_t * Z * errno_t * list syscall) :=
  match h !! backend_data ctx with
  | Some (tcp_pi_data ctx_tcp_pi) =>
      let resolve :=
        sys_getaddrinfo (Some (node ctx_tcp_pi)) (service ctx_tcp_pi) false in
      let rc := gai in
      if negb (rc =? 0) then Some (ctx, -1, ECONNREFUSED, [resolve])
      else
        let '(ctx, errno, calls) := pi_connect_loop ai_list 0 ctx errno in
        let calls := resolve :: calls ++ [sys_freeaddrinfo] in
        if s ctx <? 0 then Some (ctx, -1, errno, calls)
        else Some (ctx, 0, errno, calls)
  | _ => None
  end.

(** [_modbus_tcp_close], lines 588-595: the context and the calls made
    (what [shutdown] and [close] do to [errno] is not part of the result). *)
Definition _modbus_tcp_close (ctx : modbus_t) : modbus_t * list syscall :=
  if negb (s ctx =? -1)
  then (set_s (-1) ctx, [sys_shutdown (s ctx); sys_close (s ctx)])
  else (ctx, []).

(** Lines 602-629: the [do ... while] of [_modbus_tcp_flush]; [script] holds
    what the successive [recv] calls return and [max] is
    [MODBUS_TCP_MAX_ADU_LENGTH].  [None] when the script ends while the
    reads are still full. *)
Fixpoint flush_loop (script : list cret) (max : Z) (s : Z) (rc_sum : Z)
  (errno : errno_t) : option (Z * errno_t * list cret * list syscall) :=
  match script with
  | [] => None
  | r :: script' =>
      let rc := rc_of r in
      let errno := errno_after r errno in
      let rc_sum := if 0 <? rc then rc_sum + rc else rc_sum in
      if rc =? max then
        match flush_loop script' max s rc_sum errno with
        | None => None
        | Some (n, errno, rest, calls) =>
            Some (n, errno, rest, sys_recv_dontwait s max :: calls)
        end
      else Some (rc_sum, errno, script', [sys_recv_dontwait s max])
  end.

(** [_modbus_tcp_flush], lines 597-632: the count returned, [errno], the
    unread part of the script and the calls. *)
Definition _modbus_tcp_flush (script : list cret) (max : Z) (ctx : modbus_t)
  (errno : errno_t) : option (Z * errno_t * list cret * list syscall) :=
  let rc_sum := 0 in
  flush_loop script max (s ctx) rc_sum errno.

(** What the calls of one [modbus_tcp_listen] return. *)
Record listen_env : Type := {
  le_socket : cret;
  le_reuseaddr : cret;
  le_bind : cret;
  le_listen : cret;
  le_close : cret
}.

(** [modbus_tcp_listen], lines 635-683.  [ctx = None] is the [NULL] pointer;
    the outer [None] is a [backend_data] that is not a [modbus_tcp_t]
    block. *)
Definition modbus_tcp_listen (env : listen_env) (h : gmap loc backend_data_t)
  (ctx : option modbus_t) (nb_connection : Z) (errno : errno_t)
  : option (Z * errno_t * list syscall) :=
  match ctx with
  | None => Some (-1, EINVAL, [])
  | Some ctx =>
      match h !! backend_data ctx with
      | Some (tcp_data ctx_tcp) =>
          let new_s := rc_of (le_socket env) in
          let errno := errno_after (le_socket env) errno in
          let calls := [sys_socket new_s] in
          if new_s =? -1 then Some (-1, errno, calls)
          else
            let calls := calls ++ [sys_setsockopt new_s SO_REUSEADDR] in
            let errno := errno_after (le_reuseaddr env) errno in
            if rc_of (le_reuseaddr env) =? -1 then
              Some (-1, errno_after (le_close env) errno,
                    calls ++ [sys_close new_s])
            else
              let calls :=
                calls ++ [sys_bind new_s (sockaddr_in (htons (port ctx_tcp))
                                                      INADDR_ANY)] in
              let errno := errno_after (le_bind env) errno in
              if rc_of (le_bind env) =? -1 then
                Some (-1, errno_after (le_close env) errno,
                      calls ++ [sys_close new_s])
              else
                let calls := calls ++ [sys_listen new_s nb_connection] in
                let errno := errno_after (le_listen env) errno in
                if rc_of (le_listen env) =? -1 then
                  Some (-1, errno_after (le_close env) errno,
                        calls ++ [sys_close new_s])
                else Some (new_s, errno, calls)
      | _ => None
      end
  end.

(** One candidate of [modbus_tcp_pi_listen] with what the calls made on it
    return. *)
Record listen_candidate : Type := {
  lc_socket : cret;
  lc_reuseaddr : cret;
  lc_bind : cret;
  lc_listen : cret;
  lc_close : cret
}.

(** Lines 734-778: the loop over the candidates; the result is [new_s]. *)
Fixpoint pi_listen_loop (ai_list : list listen_candidate) (idx : nat)
  (nb_connection : Z) (errno : errno_t) : Z * errno_t * list syscall :=
  match ai_list with
  | [] => (-1, errno, [])
  | ai_ptr :: ai_next =>
      let s := rc_of (lc_socket ai_ptr) in
      let errno := errno_after (lc_socket ai_ptr) errno in
      let next (errno : errno_t) (calls : list syscall) :=
        let '(new_s, errno, calls') :=
          pi_listen_loop ai_next (S idx) nb_connection errno in
        (new_s, errno, calls ++ calls') in
      if s <? 0 then next errno [sys_socket s]
      else
        let calls := [sys_socket s; sys_setsockopt s SO_REUSEADDR] in
        let errno := errno_after (lc_reuseaddr ai_ptr) errno in
        if negb (rc_of (lc_reuseaddr ai_ptr) =? 0) then
          next (errno_after (lc_close ai_ptr) errno) (calls ++ [sys_close s])
        else
          let calls := calls ++ [sys_bind s (addr_info idx)] in
          let errno := errno_after (lc_bind ai_ptr) errno in
          if negb (rc_of (lc_bind ai_ptr) =? 0) then
            next (errno_after (lc_close ai_ptr) errno) (calls ++ [sys_close s])
          else
            let calls := calls ++ [sys_listen s nb_connection] in
            let errno := errno_after (lc_listen ai_ptr) errno in
            if negb (rc_of (lc_listen ai_ptr) =? 0) then
              next (errno_after (lc_close ai_ptr) errno)
                   (calls ++ [sys_close s])
            else (s, errno, calls)
  end.

(** [modbus_tcp_pi_listen], lines 685-786. *)
Definition modbus_tcp_pi_listen (gai : Z) (ai_list : list listen_candidate)
  (h : gmap loc backend_data_t) (ctx : option modbus_t) (nb_connection : Z)
  (errno : errno_t) : option (Z * errno_t * list syscall) :=
  match ctx with
  | None => Some (-1, EINVAL, [])
  | Some ctx =>
      match h !! backend_data ctx with
      | Some (tcp_pi_data ctx_tcp_pi) =>
          let node := if String.eqb (node ctx_tcp_pi) "" then None
                      else Some (node ctx_tcp_pi) in
          let service := if String.eqb (service ctx_tcp_pi) "" then "502"%string
                         else service ctx_tcp_pi in
          let resolve := sys_getaddrinfo node service true in
          let rc := gai in
          if negb (rc =? 0) then Some (-1, ECONNREFUSED, [resolve])
          else
            let '(new_s, errno, calls) :=
              pi_listen_loop ai_list 0 nb_connection errno in
            let calls := resolve :: calls ++ [sys_freeaddrinfo] in
            if new_s <? 0 then Some (-1, errno, calls)
            else Some (new_s, errno, calls)
      | _ => None
      end
  end.

(** What an accept gives back: the context, the variable [*s] of the
    caller, the return value, [errno] and the calls. *)
Definition accept_result : Type :=
  option modbus_t * Z * Z * errno_t * list syscall.

(** [modbus_tcp_accept], lines 791-816; [sock] is the value of [*s] at the
    call, [accepted] what [accept] returns and [closed] what the [close] of
    the listening socket returns. *)
Definition modbus_tcp_accept (accepted closed : cret) (ctx : option modbus_t)
  (sock : Z) (errno : errno_t) : accept_result :=
  match ctx with
  | None => (None, sock, -1, EINVAL, [])
  | Some ctx =>
      let ctx := set_s (rc_of accepted) ctx in
      let errno := errno_after accepted errno in
      let calls := [sys_accept sock (s ctx)] in
      if s ctx =? -1 then
        let errno := errno_after closed errno in
        (Some ctx, -1, -1, errno, calls ++ [sys_close sock])
      else (Some ctx, sock, s ctx, errno, calls)
  end.

(** [modbus_tcp_pi_accept], lines 845-867. *)
Definition modbus_tcp_pi_accept (accepted closed : cret)
  (ctx : option modbus_t) (sock : Z) (errno : errno_t) : accept_result :=
  match ctx with
  | None => (None, sock, -1, EINVAL, [])
  | Some ctx =>
      let ctx := set_s (rc_of accepted) ctx in
      let errno := errno_after accepted errno in
      let calls := [sys_accept sock (s ctx)] in
      let '(sock', errno, calls) :=
        if s ctx =? -1
        then (-1, errno_after closed errno, calls ++ [sys_close sock])
        else (sock, errno, calls) in
      (Some ctx, sock', s ctx, errno, calls)
  end.


(** The sockets a sequence of calls has opened ([socket] or [accept]
    returning [fd]) and the ones it has closed. *)
Definition opened (fd : Z) (calls : list syscall) : nat :=
  length (List.filter
            (fun c => match c with
                      | sys_socket fd' | sys_accept _ fd' => fd' =? fd
                      | _ => false
                      end) calls).

Definition closed (fd : Z) (calls : list syscall) : nat :=
  length (List.filter
            (fun c => match c with
                      | sys_close fd' => fd' =? fd
                      | _ => false
                      end) calls).

(** A call that connects or binds does so with the address [a]; a
    resolution asks for [node] and [service]. *)
Definition uses_addr (a : sockaddr) (c : syscall) : Prop :=
  match c with
  | sys_connect _ a' | sys_bind _ a' => a' = a
  | _ => True
  end.

Definition resolves (node : option string) (service : string) (c : syscall)
  : Prop :=
  match c with
  | sys_getaddrinfo node' service' _ => node' = node /\ service' = service
  | _ => True
  end.

#[global] Instance cret_eq_dec : EqDecision cret.
Proof. solve_decision. Defined.

(** What the calls of a candidate come to.  A connection in progress
    completes when the wait for writability reports the socket and
    [getsockopt] succeeds with no pending error.  A candidate refuses when
    [socket] gives no descriptor, or [connect] fails and, if the failure is
    EINPROGRESS, the connection does not complete.  It accepts on the
    socket [fd] when [connect] returns another value than -1 at once, or
    fails with EINPROGRESS and the connection completes.  ([connect]
    returning -1 sets [errno], so it is a [Fail].) *)
Definition completes (env : connect_env) : Prop :=
  0 < rc_of (ce_select env)
  /\ rc_of (ce_getsockopt env) = 0 /\ ce_optval env = 0.

Definition refuses (ai : candidate) : Prop :=
  rc_of (ca_socket ai) < 0
  \/ (exists e, ce_connect (ca_connect ai) = Fail e
                /\ (e = EINPROGRESS -> ~ completes (ca_connect ai))).

Definition accepts (fd : Z) (ai : candidate) : Prop :=
  rc_of (ca_socket ai) = fd /\ 0 <= fd
  /\ ((exists v, ce_connect (ca_connect ai) = Ret v /\ v <> -1)
      \/ (ce_connect (ca_connect ai) = Fail EINPROGRESS
          /\ completes (ca_connect ai))).

(** The response timeout once a candidate was tried: what [select] left in
    it when the candidate got as far as the wait for writability, and what
    it was before otherwise. *)
Definition waited (ai : candidate) : bool :=
  (0 <=? rc_of (ca_socket ai))
  && bool_decide (ce_connect (ca_connect ai) = Fail EINPROGRESS).

Definition timeout_after (tv : timeval) (ai : candidate) : timeval :=
  if waited ai then ce_timeleft (ca_connect ai) else tv.

(** A parameter block whose port does not fit 16 bits ([modbus_new_tcp]
    stores the [int] it is given). *)
Definition example_heap_port_70000 : gmap loc backend_data_t :=
  {[ 1%positive := tcp_data {| t_id := 0; port := 70000; ip := "127.0.0.1" |} ]}.

(** An instance for the examples of the name/service transport: the
    parameter block, a candidate whose connect is refused and one whose
    connect succeeds at once. *)
Definition example_pi_heap : gmap loc backend_data_t :=
  {[ 1%positive := tcp_pi_data {| pi_t_id := 0; node := "plc.example";
                                 service := "1502" |} ]}.

Definition example_refusing : candidate :=
  {| ai_inet := true; ca_socket := Ret 5;
     ca_options := {| oe_nodelay := Ret 0; oe_tos := Ret 0 |};
     ca_connect := {| ce_connect := Fail ECONNREFUSED; ce_select := Ret 0;
                      ce_timeleft := {| tv_sec := 0; tv_usec := 0 |};
                      ce_getsockopt := Ret 0; ce_optval := 0 |};
     ca_close := Ret 0 |}.

Definition example_accepting : candidate :=
  {| ai_inet := false; ca_socket := Ret 5;
     ca_options := {| oe_nodelay := Ret 0; oe_tos := Ret 0 |};
     ca_connect := {| ce_connect := Ret 0; ce_select := Ret 0;
                      ce_timeleft := {| tv_sec := 0; tv_usec := 0 |};
                      ce_getsockopt := Ret 0; ce_optval := 0 |};
     ca_close := Ret 0 |}.

(** Candidates whose connection is in progress after [connect]: one that
    ends with a pending error and one that completes. *)
Definition example_refusing_late : candidate :=
  {| ai_inet := true; ca_socket := Ret 5;
     ca_options := {| oe_nodelay := Ret 0; oe_tos := Ret 0 |};
     ca_connect := {| ce_connect := Fail EINPROGRESS; ce_select := Ret 1;
                      ce_timeleft := {| tv_sec := 0; tv_usec := 300000 |};
                      ce_getsockopt := Ret 0; ce_optval := 111 |};
     ca_close := Ret 0 |}.

Definition example_accepting_late : candidate :=
  {| ai_inet := false; ca_socket := Ret 6;
     ca_options := {| oe_nodelay := Ret 0; oe_tos := Ret 0 |};
     ca_connect := {| ce_connect := Fail EINPROGRESS; ce_select := Ret 1;
                      ce_timeleft := {| tv_sec := 0; tv_usec := 120000 |};
                      ce_getsockopt := Ret 0; ce_optval := 0 |};
     ca_close := Ret 0 |}.

(** Only the socket and the response timeout separate [ctx'] from [ctx]. *)
Definition same_but_socket_and_timeout (ctx ctx' : modbus_t) : Prop :=
  ctx' = set_s (s ctx') (set_response_timeout (response_timeout ctx') ctx).

(** * Properties *)

(** ** Unit identifier *)

(** C6: setting the unit id succeeds, returning 0 and storing the value,
    exactly for the integers of [0,247] and for the sentinel 0xFF; for every
    other integer it returns -1 with EINVAL and leaves the context as it
    was. *)
Theorem set_slave_accepts_valid_ids_only (ctx : modbus_t) (v : Z) :
  _modbus_set_slave ctx v =
    (if decide (0 <= v <= 247 \/ v = 255)
     then (set_slave v ctx, Ret 0)
     else (ctx, Fail EINVAL))
  /\ slave (set_slave v ctx) = v.
Proof.
  split; [|reflexivity].
  unfold _modbus_set_slave, MODBUS_TCP_SLAVE.
  destruct (0 <=? v) eqn:H0; destruct (v <=? 247) eqn:H1;
    destruct (v =? 255) eqn:H2; simpl;
    case_decide as Hd; try reflexivity; exfalso; lia.
Qed.

(** ** Transaction id check *)

(** C4: the pre-check of a confirmation returns 0 when the bytes at offsets
    0 and 1 of request and response are equal and returns -1 with EMBBADDATA
    when they are not, whatever follows them in either message. *)
Theorem pre_check_confirmation_compares_tid (ctx : modbus_t)
  (q0 q1 r0 r1 : Z) (req_tail rsp_tail : list Z) (rsp_length : Z) :
  _modbus_tcp_pre_check_confirmation ctx (q0 :: q1 :: req_tail)
                                     (r0 :: r1 :: rsp_tail) rsp_length =
    if decide (q0 = r0 /\ q1 = r1) then Ret 0 else Fail EMBBADDATA.
Proof.
  unfold _modbus_tcp_pre_check_confirmation, byte_at; simpl.
  destruct (q0 =? r0) eqn:H0; destruct (q1 =? r1) eqn:H1; simpl;
    case_decide as Hd; try reflexivity; exfalso; lia.
Qed.

(** ** Length patch *)

Lemma shiftr8_byte (x : Z) :
  0 <= x < 65536 -> to_uint8 (Z.shiftr x 8) = x / 256.
Proof.
  intros Hx. unfold to_uint8. rewrite Z.shiftr_div_pow2 by lia.
  change (2 ^ 8) with 256. apply Z.mod_small.
  split; [apply Z.div_pos; lia | apply Z.div_lt_upper_bound; lia].
Qed.

Lemma land255_byte (x : Z) : to_uint8 (Z.land x 255) = x mod 256.
Proof.
  unfold to_uint8. change 255 with (Z.ones 8).
  rewrite Z.land_ones by lia. change (2 ^ 8) with 256.
  apply Z.mod_mod. lia.
Qed.

Lemma send_msg_pre_twice (req : list Z) (req_length : Z) :
  fst (_modbus_tcp_send_msg_pre (fst (_modbus_tcp_send_msg_pre req req_length))
                                req_length)
  = fst (_modbus_tcp_send_msg_pre req req_length).
Proof.
  unfold _modbus_tcp_send_msg_pre; simpl.
  set (a := to_uint8 _). set (b := to_uint8 _).
  rewrite (list_insert_insert_ne _ 4 5) by lia.
  rewrite !list_insert_insert_eq. reflexivity.
Qed.

Lemma send_msg_pre_iter_once (n : nat) (req : list Z) (req_length : Z) :
  send_msg_pre_iter (S n) req req_length
  = fst (_modbus_tcp_send_msg_pre req req_length).
Proof.
  revert req. induction n as [|n IH]; intros req; [reflexivity|].
  change (send_msg_pre_iter (S (S n)) req req_length)
    with (send_msg_pre_iter (S n)
            (fst (_modbus_tcp_send_msg_pre req req_length)) req_length).
  rewrite IH. apply send_msg_pre_twice.
Qed.

(** C5: on a buffer that holds the six header bytes and for a message
    length a 16-bit field can express, the pre-send patch returns
    [req_length], stores [req_length - 6] big-endian in bytes 4 and 5 and
    leaves every other byte as it was; applied any positive number of times
    it gives the message that one application gives. *)
Theorem send_msg_pre_writes_length (req : list Z) (req_length : Z) (n : nat) :
  (6 <= length req)%nat ->
  6 <= req_length <= 65541 ->
  let req' := fst (_modbus_tcp_send_msg_pre req req_length) in
  snd (_modbus_tcp_send_msg_pre req req_length) = req_length
  /\ req' !! 4%nat = Some ((req_length - 6) / 256)
  /\ req' !! 5%nat = Some ((req_length - 6) mod 256)
  /\ 0 <= (req_length - 6) / 256 < 256
  /\ Z.shiftl (byte_at req' 4) 8 + byte_at req' 5 = req_length - 6
  /\ length req' = length req
  /\ take 4 req' = take 4 req
  /\ drop 6 req' = drop 6 req
  /\ send_msg_pre_iter (S n) req req_length = req'.
Proof.
  intros Hlen Hr req'.
  assert (Hhi : 0 <= (req_length - 6) / 256 < 256).
  { split; [apply Z.div_pos; lia | apply Z.div_lt_upper_bound; lia]. }
  assert (E : req' = <[5%nat := (req_length - 6) mod 256]>
                       (<[4%nat := (req_length - 6) / 256]> req)).
  { unfold req', _modbus_tcp_send_msg_pre; simpl.
    rewrite shiftr8_byte by lia. rewrite land255_byte. reflexivity. }
  rewrite send_msg_pre_iter_once. fold req'.
  clearbody req'. subst req'.
  destruct req as [|b0 [|b1 [|b2 [|b3 [|b4 [|b5 rest]]]]]];
    simpl in Hlen; try lia.
  simpl. repeat split; try reflexivity; try lia.
  unfold byte_at; simpl. rewrite Z.shiftl_mul_pow2 by lia.
  change (2 ^ 8) with 256.
  pose proof (Z.div_mod (req_length - 6) 256). lia.
Qed.

Lemma send_msg_pre_writes_length_witness :
  let req := [0; 1; 0; 0; 9; 9; 17; 3; 0; 0; 0; 1] in
  fst (_modbus_tcp_send_msg_pre req 12) !! 5%nat = Some 6
  /\ send_msg_pre_iter 3 req 12 = [0; 1; 0; 0; 0; 6; 17; 3; 0; 0; 0; 1].
Proof.
  pose proof (send_msg_pre_writes_length
                [0; 1; 0; 0; 9; 9; 17; 3; 0; 0; 0; 1] 12 2
                ltac:(simpl; lia) ltac:(lia)) as H.
  simpl in H. destruct H as (_ & _ & H5 & _ & _ & _ & _ & _ & Hn).
  split; [exact H5 | exact Hn].
Defined.

(** ** Constructors *)

Lemma substring_all (str : string) (n : nat) :
  (String.length str <= n)%nat -> String.substring 0 n str = str.
Proof.
  revert n. induction str as [|c str IH]; intros n Hn.
  - destruct n; reflexivity.
  - destruct n as [|n]; simpl in Hn; [lia|].
    simpl. f_equal. apply IH. lia.
Qed.

Lemma strlcpy_fits (src : string) (size : nat) :
  (String.length src < size)%nat ->
  strlcpy src size = (src, String.length src).
Proof.
  intros H. unfold strlcpy. f_equal. apply substring_all. lia.
Qed.

(** C8: [modbus_new_tcp] returns NULL with EINVAL when the address string is
    empty or has 16 characters or more, and [modbus_new_tcp_pi] when the
    node or the service string is empty or reaches its length constant; the
    heap is then as before.  Otherwise they return a context whose new
    parameter block holds the strings as given, the port for the address
    transport, and a transaction id of zero. *)
Theorem constructors_validate_strings (hl cl mx : Z) (nl sl : nat)
  (init : modbus_t) (h : gmap loc backend_data_t)
  (ip node service : string) (port : Z) :
  modbus_new_tcp hl cl mx init h ip port =
    (if decide (String.length ip = 0 \/ 16 <= String.length ip)%nat
     then (h, inr EINVAL)
     else (<[malloc h := tcp_data {| t_id := 0; port := port; ip := ip |}]> h,
           inl (new_context init (_modbus_tcp_backend hl cl mx) h)))
  /\ modbus_new_tcp_pi hl cl mx nl sl init h node service =
    (if decide ((String.length node = 0 \/ nl <= String.length node)
                \/ (String.length service = 0 \/ sl <= String.length service))%nat
     then (h, inr EINVAL)
     else (<[malloc h := tcp_pi_data {| pi_t_id := 0; node := node;
                                        service := service |}]> h,
           inl (new_context init (_modbus_tcp_pi_backend hl cl mx) h))).
Proof.
  split.
  - unfold modbus_new_tcp.
    destruct (decide (String.length ip < 16)%nat) as [Hlt|Hge].
    + rewrite strlcpy_fits by exact Hlt.
      destruct (Nat.eqb_spec (String.length ip) 0) as [E0|N0].
      * rewrite decide_True by (left; exact E0). reflexivity.
      * destruct (Nat.leb_spec 16 (String.length ip)) as [Hle|_]; [lia|].
        rewrite decide_False by lia. reflexivity.
    + unfold strlcpy.
      rewrite decide_True by (right; lia).
      destruct (Nat.eqb_spec (String.length ip) 0) as [E0|N0]; [reflexivity|].
      destruct (Nat.leb_spec 16 (String.length ip)) as [_|Hlt]; [reflexivity|lia].
  - unfold modbus_new_tcp_pi.
    destruct (decide (String.length node < nl)%nat) as [Hlt|Hge].
    + rewrite strlcpy_fits by exact Hlt.
      destruct (Nat.eqb_spec (String.length node) 0) as [E0|N0].
      * rewrite decide_True by (left; left; exact E0). reflexivity.
      * destruct (Nat.leb_spec nl (String.length node)) as [Hle|_]; [lia|].
        destruct (decide (String.length service < sl)%nat) as [Hlt'|Hge'].
        -- rewrite strlcpy_fits by exact Hlt'.
           destruct (Nat.eqb_spec (String.length service) 0) as [E1|N1].
           ++ rewrite decide_True by (right; left; exact E1). reflexivity.
           ++ destruct (Nat.leb_spec sl (String.length service)) as [Hle|_];
                [lia|].
              rewrite decide_False by lia. reflexivity.
        -- unfold strlcpy.
           rewrite decide_True by (right; right; lia).
           destruct (Nat.eqb_spec (String.length service) 0) as [E1|N1];
             [reflexivity|].
           destruct (Nat.leb_spec sl (String.length service)) as [_|Hlt'];
             [reflexivity|lia].
    + unfold strlcpy at 1; cbv beta iota.
      rewrite decide_True by (left; right; lia).
      destruct (Nat.eqb_spec (String.length node) 0) as [E0|N0]; [reflexivity|].
      destruct (Nat.leb_spec nl (String.length node)) as [_|Hlt]; [reflexivity|lia].
Qed.

(** ** Cloning *)

Lemma malloc_fresh (h : gmap loc backend_data_t) : h !! malloc h = None.
Proof. apply not_elem_of_dom. unfold malloc. apply is_fresh. Qed.

Lemma get_put_t_id (v : Z) (b : backend_data_t) : get_t_id (put_t_id v b) = v.
Proof. destruct b; reflexivity. Qed.

Lemma put_put_t_id (v w : Z) (b : backend_data_t) :
  put_t_id v (put_t_id w b) = put_t_id v b.
Proof. destruct b; reflexivity. Qed.

Lemma put_get_t_id (b : backend_data_t) : put_t_id (get_t_id b) b = b.
Proof. destruct b as [[]|[]|]; reflexivity. Qed.

(** A request built on a context changes the heap at the block of that
    context only. *)
Lemma build_request_basis_frame (preset : Z) (h h1 : gmap loc backend_data_t)
  (ctx : modbus_t) (function addr nb : Z) (req req1 : list Z) (r : Z)
  (q : loc) :
  _modbus_tcp_build_request_basis preset h ctx function addr nb req
    = Some (h1, req1, r) ->
  q <> backend_data ctx -> h1 !! q = h !! q.
Proof.
  unfold _modbus_tcp_build_request_basis.
  destruct (h !! backend_data ctx) as [b|] eqn:Hb; [|discriminate].
  intros [= <- _ _] Hq. apply lookup_insert_ne. congruence.
Qed.

Lemma build_request_basis_total (preset : Z) (h : gmap loc backend_data_t)
  (ctx : modbus_t) (function addr nb : Z) (req : list Z) (b : backend_data_t) :
  h !! backend_data ctx = Some b ->
  exists h1 req1,
    _modbus_tcp_build_request_basis preset h ctx function addr nb req
      = Some (h1, req1, preset).
Proof.
  intros Hb. unfold _modbus_tcp_build_request_basis. rewrite Hb.
  eexists _, _. reflexivity.
Qed.




(** ** Transaction ids *)

Lemma tid_seq_S (t : Z) (n : nat) :
  tid_seq t (S n) = (t + 1) mod 65536 :: tid_seq ((t + 1) mod 65536) n.
Proof.
  unfold tid_seq. simpl. f_equal.
  rewrite <- seq_shift, map_map. apply map_ext. intros k.
  rewrite Zplus_mod_idemp_l. f_equal. lia.
Qed.

Lemma tid_seq_mod (t : Z) (n : nat) : tid_seq (t mod 65536) n = tid_seq t n.
Proof.
  unfold tid_seq. apply map_ext. intros k. apply Zplus_mod_idemp_l.
Qed.

(** One request: the counter of the block becomes [t + 1] modulo 65536 and
    that value is what the first two bytes of the request hold. *)
Lemma build_request_basis_tid (preset : Z) (h : gmap loc backend_data_t)
  (ctx : modbus_t) (function addr nb : Z) (req : list Z) (b : backend_data_t) :
  (2 <= length req)%nat ->
  h !! backend_data ctx = Some b ->
  0 <= get_t_id b <= 65535 ->
  exists req1,
    _modbus_tcp_build_request_basis preset h ctx function addr nb req
      = Some (<[backend_data ctx := put_t_id ((get_t_id b + 1) mod 65536) b]> h,
              req1, preset)
    /\ length req1 = length req
    /\ _modbus_tcp_prepare_response_tid req1 = (get_t_id b + 1) mod 65536.
Proof.
  intros Hlen Hb Ht. unfold _modbus_tcp_build_request_basis. rewrite Hb.
  assert (Et : (if get_t_id b <? UINT16_MAX then to_uint16 (get_t_id b + 1)
                else 0) = (get_t_id b + 1) mod 65536).
  { unfold UINT16_MAX, to_uint16.
    destruct (Z.ltb_spec (get_t_id b) 65535) as [Hlt|Hge]; [reflexivity|].
    replace (get_t_id b) with 65535 by lia. reflexivity. }
  rewrite Et. set (t := (get_t_id b + 1) mod 65536).
  assert (Hr : 0 <= t < 65536) by (apply Z.mod_pos_bound; lia).
  eexists. split; [reflexivity|]. split.
  - rewrite !length_insert. reflexivity.
  - destruct req as [|r0 [|r1 rest]]; simpl in Hlen; try lia.
    unfold _modbus_tcp_prepare_response_tid, byte_at. simpl.
    rewrite shiftr8_byte by exact Hr. rewrite land255_byte.
    rewrite Z.shiftl_mul_pow2 by lia. change (2 ^ 8) with 256.
    pose proof (Z.div_mod t 256). lia.
Qed.

Lemma build_requests_tids (preset : Z) (n : nat) :
  forall (h : gmap loc backend_data_t) (ctx : modbus_t)
         (function addr nb : Z) (req : list Z) (b : backend_data_t),
    (2 <= length req)%nat ->
    h !! backend_data ctx = Some b ->
    0 <= get_t_id b <= 65535 ->
    build_requests preset n h ctx function addr nb req
    = Some (<[backend_data ctx :=
                put_t_id ((get_t_id b + Z.of_nat n) mod 65536) b]> h,
            tid_seq (get_t_id b) n).
Proof.
  induction n as [|n IH]; intros h ctx function addr nb req b Hlen Hb Ht.
  - simpl. rewrite Z.add_0_r, Z.mod_small by lia.
    rewrite put_get_t_id, insert_id by exact Hb. reflexivity.
  - destruct (build_request_basis_tid preset h ctx function addr nb req b
                Hlen Hb Ht) as (req1 & E & Hl1 & Hid).
    cbn [build_requests]. rewrite E.
    set (t1 := (get_t_id b + 1) mod 65536) in *.
    assert (Hr : 0 <= t1 < 65536) by (apply Z.mod_pos_bound; lia).
    rewrite (IH _ ctx function addr nb req1 (put_t_id t1 b)).
    + rewrite insert_insert_eq, put_put_t_id, get_put_t_id, Hid, tid_seq_S.
      fold t1. unfold t1 at 1. rewrite Zplus_mod_idemp_l.
      replace (get_t_id b + 1 + Z.of_nat n)
        with (get_t_id b + Z.of_nat (S n)) by lia.
      reflexivity.
    + lia.
    + apply lookup_insert_eq.
    + rewrite get_put_t_id. lia.
Qed.

Lemma build_interleaved_tids (preset : Z) (sched : list bool) :
  forall (h : gmap loc backend_data_t) (ctx1 ctx2 : modbus_t)
         (function addr nb : Z) (req : list Z) (b1 b2 : backend_data_t),
    (2 <= length req)%nat ->
    backend_data ctx1 <> backend_data ctx2 ->
    h !! backend_data ctx1 = Some b1 ->
    h !! backend_data ctx2 = Some b2 ->
    0 <= get_t_id b1 <= 65535 ->
    0 <= get_t_id b2 <= 65535 ->
    exists h',
      build_interleaved preset sched h ctx1 ctx2 function addr nb req
      = Some (h', tid_seq (get_t_id b1) (calls_on true sched),
                  tid_seq (get_t_id b2) (calls_on false sched)).
Proof.
  induction sched as [|c sched IH];
    intros h ctx1 ctx2 function addr nb req b1 b2 Hlen Hne H1 H2 Ht1 Ht2.
  - exists h. reflexivity.
  - cbn [build_interleaved]. destruct c.
    + destruct (build_request_basis_tid preset h ctx1 function addr nb req b1
                  Hlen H1 Ht1) as (req1 & E & Hl1 & Hid).
      rewrite E. set (t1 := (get_t_id b1 + 1) mod 65536) in *.
      assert (Hr : 0 <= t1 < 65536) by (apply Z.mod_pos_bound; lia).
      destruct (IH (<[backend_data ctx1 := put_t_id t1 b1]> h) ctx1 ctx2
                  function addr nb req1 (put_t_id t1 b1) b2) as (h' & E').
      * lia.
      * exact Hne.
      * apply lookup_insert_eq.
      * rewrite lookup_insert_ne by exact Hne. exact H2.
      * rewrite get_put_t_id. lia.
      * exact Ht2.
      * exists h'. rewrite E', get_put_t_id, Hid.
        unfold calls_on; simpl. rewrite tid_seq_S. reflexivity.
    + destruct (build_request_basis_tid preset h ctx2 function addr nb req b2
                  Hlen H2 Ht2) as (req1 & E & Hl1 & Hid).
      rewrite E. set (t2 := (get_t_id b2 + 1) mod 65536) in *.
      assert (Hr : 0 <= t2 < 65536) by (apply Z.mod_pos_bound; lia).
      destruct (IH (<[backend_data ctx2 := put_t_id t2 b2]> h) ctx1 ctx2
                  function addr nb req1 b1 (put_t_id t2 b2)) as (h' & E').
      * lia.
      * exact Hne.
      * rewrite lookup_insert_ne by congruence. exact H1.
      * apply lookup_insert_eq.
      * exact Ht1.
      * rewrite get_put_t_id. lia.
      * exists h'. rewrite E', get_put_t_id, Hid.
        unfold calls_on; simpl. rewrite tid_seq_S. reflexivity.
Qed.

Lemma tid_seq_lookup (t : Z) (n k : nat) :
  (k < n)%nat -> tid_seq t n !! k = Some ((t + Z.of_nat k + 1) mod 65536).
Proof.
  intros Hk. unfold tid_seq. rewrite list_lookup_fmap.
  rewrite lookup_seq_lt by exact Hk. simpl. do 2 f_equal. lia.
Qed.

(** After either constructor the ids of the first [n] requests are
    1, 2, ..., n modulo 65536. *)
Lemma new_tcp_transaction_ids (hl cl mx preset : Z) (init : modbus_t)
  (h h1 : gmap loc backend_data_t) (ip : string) (port : Z) (ctx : modbus_t)
  (n : nat) (function addr nb : Z) (req : list Z) :
  (2 <= length req)%nat ->
  modbus_new_tcp hl cl mx init h ip port = (h1, inl ctx) ->
  snd <$> build_requests preset n h1 ctx function addr nb req
  = Some (tid_seq 0 n).
Proof.
  intros Hlen H. unfold modbus_new_tcp in H.
  destruct (strlcpy ip 16) as [ip_copy ret_size].
  destruct (Nat.eqb ret_size 0); [discriminate|].
  destruct (Nat.leb 16 ret_size); [discriminate|].
  injection H as <- <-.
  rewrite (build_requests_tids preset n _ _ function addr nb req
             (tcp_data {| t_id := 0; port := port; ip := ip_copy |}));
    [reflexivity|exact Hlen|apply lookup_insert_eq|simpl; lia].
Qed.

Lemma new_tcp_pi_transaction_ids (hl cl mx preset : Z) (nl sl : nat)
  (init : modbus_t) (h h1 : gmap loc backend_data_t) (node service : string)
  (ctx : modbus_t) (n : nat) (function addr nb : Z) (req : list Z) :
  (2 <= length req)%nat ->
  modbus_new_tcp_pi hl cl mx nl sl init h node service = (h1, inl ctx) ->
  snd <$> build_requests preset n h1 ctx function addr nb req
  = Some (tid_seq 0 n).
Proof.
  intros Hlen H. unfold modbus_new_tcp_pi in H.
  destruct (strlcpy node nl) as [node_copy ret_size].
  destruct (Nat.eqb ret_size 0); [discriminate|].
  destruct (Nat.leb nl ret_size); [discriminate|].
  destruct (strlcpy service sl) as [service_copy ret_size'].
  destruct (Nat.eqb ret_size' 0); [discriminate|].
  destruct (Nat.leb sl ret_size'); [discriminate|].
  injection H as <- <-.
  rewrite (build_requests_tids preset n _ _ function addr nb req
             (tcp_pi_data {| pi_t_id := 0; node := node_copy;
                             service := service_copy |}));
    [reflexivity|exact Hlen|apply lookup_insert_eq|simpl; lia].
Qed.

(** C1 (as the code has it): on a context whose parameter block holds the
    counter [t] (zero after either constructor), [pre] successive requests
    carry the ids [t+1, t+2, ..., t+pre] modulo 65536 in their first two
    bytes, most significant byte first: after construction the sequence is
    1, 2, ..., 65535, 0, 1, ...  When the context is then cloned, requests
    built on the original and on the clone in any order continue that
    sequence for each of the two separately, whichever of the two
    transports the context belongs to. *)
Theorem transaction_ids_follow_counter (preset : Z) (node_bytes : nat)
  (h : gmap loc backend_data_t) (ctx : modbus_t) (b : backend_data_t)
  (function addr nb : Z) (req : list Z) (pre : nat) :
  (2 <= length req)%nat ->
  h !! backend_data ctx = Some b ->
  0 <= get_t_id b <= 65535 ->
  exists h1,
    build_requests preset pre h ctx function addr nb req
      = Some (h1, tid_seq (get_t_id b) pre)
    /\ exists h2 clone,
         modbus_clone_tcp node_bytes h1 ctx = Some (h2, clone)
         /\ forall sched, exists h3,
           build_interleaved preset sched h2 ctx clone function addr nb req
           = Some (h3,
                   tid_seq (get_t_id b + Z.of_nat pre) (calls_on true sched),
                   tid_seq (get_t_id b + Z.of_nat pre) (calls_on false sched)).
Proof.
  intros Hlen Hb Ht.
  eexists. split; [apply (build_requests_tids preset pre); eassumption|].
  set (t := (get_t_id b + Z.of_nat pre) mod 65536) in *.
  set (h1 := <[backend_data ctx := put_t_id t b]> h) in *.
  assert (H1 : h1 !! backend_data ctx = Some (put_t_id t b))
    by apply lookup_insert_eq.
  unfold modbus_clone_tcp. rewrite H1.
  set (copy := memcpy_sizeof_tcp_t node_bytes (put_t_id t b)).
  eexists _, _. split; [reflexivity|]. intros sched.
  assert (Hd : get_t_id copy = t).
  { unfold copy. destruct b; reflexivity. }
  assert (Hr : 0 <= t < 65536) by (apply Z.mod_pos_bound; lia).
  pose proof (malloc_fresh h1) as Hfresh.
  assert (Hne : backend_data ctx <> malloc h1) by congruence.
  destruct (build_interleaved_tids preset sched (<[malloc h1 := copy]> h1)
              ctx (set_backend_data (malloc h1) ctx) function addr nb req
              (put_t_id t b) copy) as (h3 & E).
  - exact Hlen.
  - exact Hne.
  - rewrite lookup_insert_ne by congruence. exact H1.
  - apply lookup_insert_eq.
  - rewrite get_put_t_id. lia.
  - rewrite Hd. lia.
  - exists h3. rewrite E. rewrite Hd, get_put_t_id. unfold t.
    rewrite !tid_seq_mod. reflexivity.
Qed.

Lemma transaction_ids_follow_counter_witness :
  exists h1 h2 clone h3,
    build_requests 12 3 example_pi_heap example_ctx 3 0 1 (replicate 12 0)
      = Some (h1, [1; 2; 3])
    /\ modbus_clone_tcp 22 h1 example_ctx = Some (h2, clone)
    /\ build_interleaved 12 [true; false; false; true] h2 example_ctx clone
         3 0 1 (replicate 12 0)
       = Some (h3, [4; 5], [4; 5]).
Proof.
  destruct (transaction_ids_follow_counter 12 22 example_pi_heap example_ctx
              (tcp_pi_data {| pi_t_id := 0; node := "plc.example";
                              service := "1502" |})
              3 0 1 (replicate 12 0) 3
              ltac:(simpl; lia) eq_refl ltac:(simpl; lia))
    as (h1 & E1 & h2 & clone & Eclone & Hc).
  destruct (Hc [true; false; false; true]) as (h3 & E3).
  exists h1, h2, clone, h3. repeat split; assumption.
Defined.

(** C1, the claim as worded: the ids of the first three requests built
    after [modbus_new_tcp] are 1, 2, 3 and not 0, 1, 2. *)
Lemma transaction_ids_start_at_one :
  let ids :=
    match modbus_new_tcp 7 0 260 example_init ∅ "127.0.0.1" 502 with
    | (h, inl ctx) =>
        snd <$> build_requests 12 3 h ctx 3 0 1 (replicate 12 0)
    | _ => None
    end in
  ids = Some [1; 2; 3] /\ ids <> Some [0; 1; 2].
Proof.
  split.
  - vm_compute. reflexivity.
  - vm_compute. discriminate.
Qed.

(** ** Message reassembly *)

Section ReceiveProperties.

Variable LINK : Z.
Variable meta_length : Z -> msg_type_t -> Z.
Variable data_length : modbus_t -> list Z -> msg_type_t -> Z.
Variable ext_call : ext_fn -> modbus_t -> errno_t -> modbus_t * errno_t.

Local Abbreviation loop := (receive_loop LINK meta_length data_length ext_call).
Local Abbreviation receive_msg :=
  (_modbus_tcp_receive_msg LINK meta_length data_length ext_call).

(** One turn of the loop whose readiness wait fails. *)
Lemma loop_select_fails (it : iteration) (env : list iteration)
  (ctx : modbus_t) (msg : list Z) (msg_type : msg_type_t) (s : Z)
  (step : _step_t) (length_to_read msg_length : Z) (p_tv : option timeval)
  (calls sel_calls : list call) (e : errno_t) :
  0 < length_to_read ->
  _modbus_tcp_select_s (it_select it) p_tv s = Some (Fail e, sel_calls) ->
  loop (it :: env) ctx msg msg_type s step length_to_read msg_length p_tv calls
  = Some {| r_ret := Fail (snd (fst (recover_select LINK ext_call ctx e)));
            r_ctx := fst (fst (recover_select LINK ext_call ctx e));
            r_msg := msg;
            r_calls := calls ++ sel_calls
                       ++ snd (recover_select LINK ext_call ctx e);
            r_rest := env |}.
Proof.
  intros Hpos Hsel. cbn [receive_loop].
  destruct (Z.leb_spec length_to_read 0) as [Hle|_]; [lia|].
  rewrite Hsel. destruct (recover_select LINK ext_call ctx e) as [[c e'] cs].
  reflexivity.
Qed.

(** One turn of the loop whose read fails with [e]. *)
Lemma loop_recv_fails (it : iteration) (env : list iteration)
  (ctx : modbus_t) (msg : list Z) (msg_type : msg_type_t) (s : Z)
  (step : _step_t) (length_to_read msg_length : Z) (p_tv : option timeval)
  (calls sel_calls : list call) (n : Z) (e : errno_t) :
  0 < length_to_read ->
  _modbus_tcp_select_s (it_select it) p_tv s = Some (Ret n, sel_calls) ->
  it_recv it = recv_error e ->
  loop (it :: env) ctx msg msg_type s step length_to_read msg_length p_tv calls
  = Some {| r_ret := Fail (snd (fst (recover_read LINK ext_call ctx e)));
            r_ctx := fst (fst (recover_read LINK ext_call ctx e));
            r_msg := msg;
            r_calls := (calls ++ sel_calls
                        ++ [call_recv s msg_length length_to_read])
                       ++ snd (recover_read LINK ext_call ctx e);
            r_rest := env |}.
Proof.
  intros Hpos Hsel Hrecv. cbn [receive_loop].
  destruct (Z.leb_spec length_to_read 0) as [Hle|_]; [lia|].
  rewrite Hsel, Hrecv. cbn [_modbus_tcp_recv_s].
  destruct (recover_read LINK ext_call ctx e) as [[c e'] cs].
  reflexivity.
Qed.

(** One turn of the loop whose read returns zero bytes. *)
Lemma loop_recv_zero (it : iteration) (env : list iteration)
  (ctx : modbus_t) (msg : list Z) (msg_type : msg_type_t) (s : Z)
  (step : _step_t) (length_to_read msg_length : Z) (p_tv : option timeval)
  (calls sel_calls : list call) (n : Z) :
  0 < length_to_read ->
  _modbus_tcp_select_s (it_select it) p_tv s = Some (Ret n, sel_calls) ->
  it_recv it = recv_bytes [] ->
  loop (it :: env) ctx msg msg_type s step length_to_read msg_length p_tv calls
  = Some {| r_ret := Fail (snd (fst (recover_read LINK ext_call ctx ECONNRESET)));
            r_ctx := fst (fst (recover_read LINK ext_call ctx ECONNRESET));
            r_msg := msg;
            r_calls := (calls ++ sel_calls
                        ++ [call_recv s msg_length length_to_read])
                       ++ snd (recover_read LINK ext_call ctx ECONNRESET);
            r_rest := env |}.
Proof.
  intros Hpos Hsel Hrecv. cbn [receive_loop].
  destruct (Z.leb_spec length_to_read 0) as [Hle|_]; [lia|].
  rewrite Hsel, Hrecv. cbn [_modbus_tcp_recv_s].
  rewrite take_nil. cbn [length list_inserts].
  change (Z.of_nat 0) with 0. cbv beta iota.
  destruct (recover_read LINK ext_call ctx ECONNRESET) as [[c e'] cs].
  reflexivity.
Qed.

Lemma recover_select_timeout (ctx : modbus_t) :
  Z.land (error_recovery ctx) LINK <> 0 ->
  recover_select LINK ext_call ctx ETIMEDOUT
  = (fst (run_ext ext_call [_sleep_response_timeout; modbus_flush]
                  ctx ETIMEDOUT),
     ETIMEDOUT,
     [call_ext _sleep_response_timeout; call_ext modbus_flush]).
Proof.
  intros Hlink. unfold recover_select, run_ext.
  destruct (Z.eqb_spec (Z.land (error_recovery ctx) LINK) 0) as [E|_];
    [contradiction|].
  cbn [negb]. rewrite decide_True by reflexivity. cbn [foldl fst snd].
  destruct (ext_call _sleep_response_timeout ctx ETIMEDOUT) as [c1 e1].
  cbn [fst snd]. destruct (ext_call modbus_flush c1 e1) as [c2 e2].
  reflexivity.
Qed.

Lemma recover_select_badf (ctx : modbus_t) :
  Z.land (error_recovery ctx) LINK <> 0 ->
  recover_select LINK ext_call ctx EBADF
  = (fst (run_ext ext_call [modbus_close; modbus_connect] ctx EBADF),
     EBADF, [call_ext modbus_close; call_ext modbus_connect]).
Proof.
  intros Hlink. unfold recover_select, run_ext.
  destruct (Z.eqb_spec (Z.land (error_recovery ctx) LINK) 0) as [E|_];
    [contradiction|].
  cbn [negb]. rewrite decide_False by discriminate.
  rewrite decide_True by reflexivity. cbn [foldl fst snd].
  destruct (ext_call modbus_close ctx EBADF) as [c1 e1].
  cbn [fst snd]. destruct (ext_call modbus_connect c1 e1) as [c2 e2].
  reflexivity.
Qed.

Lemma recover_read_link (ctx : modbus_t) (e : errno_t) :
  Z.land (error_recovery ctx) LINK <> 0 ->
  e = ECONNRESET \/ e = ECONNREFUSED \/ e = EBADF ->
  recover_read LINK ext_call ctx e
  = (fst (run_ext ext_call [modbus_close; modbus_connect] ctx e), e,
     [call_ext modbus_close; call_ext modbus_connect]).
Proof.
  intros Hlink He. unfold recover_read, run_ext.
  destruct (Z.eqb_spec (Z.land (error_recovery ctx) LINK) 0) as [E|_];
    [contradiction|].
  assert (Hb : bool_decide (e = ECONNRESET) || bool_decide (e = ECONNREFUSED)
               || bool_decide (e = EBADF) = true).
  { destruct He as [-> | [-> | ->]]; reflexivity. }
  rewrite Hb. cbn [negb andb foldl fst snd].
  destruct (ext_call modbus_close ctx e) as [c1 e1].
  cbn [fst snd]. destruct (ext_call modbus_connect c1 e1) as [c2 e2].
  reflexivity.
Qed.

(** Without the link flag, and for any other error code, a failed read is
    reported as it is. *)
Lemma recover_read_off (ctx : modbus_t) (e : errno_t) :
  Z.land (error_recovery ctx) LINK = 0 ->
  recover_read LINK ext_call ctx e = (ctx, e, []).
Proof.
  intros Hlink. unfold recover_read. rewrite Hlink. reflexivity.
Qed.

Lemma recover_read_errno (ctx : modbus_t) (e : errno_t) :
  snd (fst (recover_read LINK ext_call ctx e)) = e.
Proof.
  unfold recover_read.
  destruct (negb _ && _); [|reflexivity].
  destruct (ext_call modbus_close ctx e) as [c1 e1].
  destruct (ext_call modbus_connect c1 e1) as [c2 e2]. reflexivity.
Qed.

Lemma recover_select_errno (ctx : modbus_t) (e : errno_t) :
  snd (fst (recover_select LINK ext_call ctx e)) = e.
Proof.
  unfold recover_select.
  destruct (negb _); [|reflexivity].
  destruct (decide (e = ETIMEDOUT)) as [->|_].
  - destruct (ext_call _sleep_response_timeout ctx ETIMEDOUT) as [c1 e1].
    destruct (ext_call modbus_flush c1 e1) as [c2 e2]. reflexivity.
  - destruct (decide (e = EBADF)) as [->|_]; [|reflexivity].
    destruct (ext_call modbus_close ctx EBADF) as [c1 e1].
    destruct (ext_call modbus_connect c1 e1) as [c2 e2]. reflexivity.
Qed.

(** C3: with link recovery enabled, a readiness wait that fails with
    ETIMEDOUT is followed by the response-timeout sleep and a flush, one
    that fails with EBADF by close and connect, and a read that fails with
    ECONNRESET, ECONNREFUSED or EBADF by close and connect; each time the
    receive returns -1 with the error code of the failure, whatever the
    repair calls do to [errno], and reads nothing more. *)
Theorem link_recovery_repairs_and_reraises (it : iteration)
  (env : list iteration) (ctx : modbus_t) (msg : list Z)
  (msg_type : msg_type_t) (s : Z) (step : _step_t)
  (length_to_read msg_length : Z) (p_tv : option timeval)
  (calls sel_calls : list call) (n : Z) (e : errno_t) :
  Z.land (error_recovery ctx) LINK <> 0 ->
  0 < length_to_read ->
  (_modbus_tcp_select_s (it_select it) p_tv s
     = Some (Fail ETIMEDOUT, sel_calls) ->
   loop (it :: env) ctx msg msg_type s step length_to_read msg_length
        p_tv calls
   = Some {| r_ret := Fail ETIMEDOUT;
             r_ctx := fst (run_ext ext_call
                             [_sleep_response_timeout; modbus_flush]
                             ctx ETIMEDOUT);
             r_msg := msg;
             r_calls := calls ++ sel_calls
                        ++ [call_ext _sleep_response_timeout;
                            call_ext modbus_flush];
             r_rest := env |})
  /\ (_modbus_tcp_select_s (it_select it) p_tv s
        = Some (Fail EBADF, sel_calls) ->
      loop (it :: env) ctx msg msg_type s step length_to_read msg_length
           p_tv calls
      = Some {| r_ret := Fail EBADF;
                r_ctx := fst (run_ext ext_call [modbus_close; modbus_connect]
                                ctx EBADF);
                r_msg := msg;
                r_calls := calls ++ sel_calls
                           ++ [call_ext modbus_close; call_ext modbus_connect];
                r_rest := env |})
  /\ (_modbus_tcp_select_s (it_select it) p_tv s = Some (Ret n, sel_calls) ->
      it_recv it = recv_error e ->
      e = ECONNRESET \/ e = ECONNREFUSED \/ e = EBADF ->
      loop (it :: env) ctx msg msg_type s step length_to_read msg_length
           p_tv calls
      = Some {| r_ret := Fail e;
                r_ctx := fst (run_ext ext_call [modbus_close; modbus_connect]
                                ctx e);
                r_msg := msg;
                r_calls := (calls ++ sel_calls
                            ++ [call_recv s msg_length length_to_read])
                           ++ [call_ext modbus_close; call_ext modbus_connect];
                r_rest := env |})
  /\ rc_of (Fail e) = -1.
Proof.
  intros Hlink Hpos. repeat split.
  - intros Hsel. rewrite (loop_select_fails _ _ _ _ _ _ _ _ _ _ _ _ _ Hpos Hsel).
    rewrite recover_select_timeout by exact Hlink. reflexivity.
  - intros Hsel. rewrite (loop_select_fails _ _ _ _ _ _ _ _ _ _ _ _ _ Hpos Hsel).
    rewrite recover_select_badf by exact Hlink. reflexivity.
  - intros Hsel Hrecv He.
    rewrite (loop_recv_fails _ _ _ _ _ _ _ _ _ _ _ _ _ _ Hpos Hsel Hrecv).
    rewrite recover_read_link by assumption. reflexivity.
Qed.

(** C7 (as the code has it): a read that returns zero bytes makes the
    receive return -1 with ECONNRESET, the code of a connection reset: the
    result is the one the same receive gives when that read fails with
    ECONNRESET, repair calls included. *)
Theorem zero_byte_read_reports_connection_reset (it : iteration)
  (env : list iteration) (ctx : modbus_t) (msg : list Z)
  (msg_type : msg_type_t) (s : Z) (step : _step_t)
  (length_to_read msg_length : Z) (p_tv : option timeval)
  (calls sel_calls : list call) (n : Z) :
  0 < length_to_read ->
  _modbus_tcp_select_s (it_select it) p_tv s = Some (Ret n, sel_calls) ->
  it_recv it = recv_bytes [] ->
  exists r,
    loop (it :: env) ctx msg msg_type s step length_to_read msg_length
         p_tv calls = Some r
    /\ r_ret r = Fail ECONNRESET
    /\ rc_of (r_ret r) = -1
    /\ r_rest r = env
    /\ loop ({| it_select := it_select it;
                it_recv := recv_error ECONNRESET |} :: env)
            ctx msg msg_type s step length_to_read msg_length p_tv calls
       = Some r.
Proof.
  intros Hpos Hsel Hrecv.
  eexists. split; [apply (loop_recv_zero _ _ _ _ _ _ _ _ _ _ _ _ _ Hpos Hsel Hrecv)|].
  cbn [r_ret r_rest].
  split; [rewrite recover_read_errno; reflexivity|].
  split; [reflexivity|]. split; [reflexivity|].
  apply loop_recv_fails with (n := n); [exact Hpos|exact Hsel|reflexivity].
Qed.

(** C10: [modbus_tcp_receive] called with the descriptor 0 returns -1 with
    EINVAL without a call on the socket and without touching context or
    buffer; with any other descriptor and a context it stores the
    descriptor in the context and gives the result of the reassembly of an
    indication on that descriptor.  Without a context it returns -1 with
    EINVAL. *)
Theorem tcp_receive_rejects_descriptor_zero (env : list iteration)
  (ctx : modbus_t) (sock : Z) (query : list Z) :
  modbus_tcp_receive LINK meta_length data_length ext_call env (Some ctx)
                     sock query
  = (if decide (sock = 0)
     then Some (Fail EINVAL, Some ctx, query, [], env)
     else api_view <$> receive_msg env (set_s sock ctx) query
                                   MSG_INDICATION sock)
  /\ s (set_s sock ctx) = sock
  /\ modbus_tcp_receive LINK meta_length data_length ext_call env None
                        sock query
     = Some (Fail EINVAL, None, query, [], env).
Proof.
  unfold modbus_tcp_receive.
  destruct (Z.eqb_spec sock 0) as [->|Hne].
  - rewrite decide_True by reflexivity. repeat split.
  - rewrite decide_False by exact Hne. repeat split.
Qed.

(** *** The maximum ADU length *)

Lemma select_s_no_recv (bound : Z) (script : list select_raw)
  (tv : option timeval) (s : Z) (r : cret) (cs : list call) :
  _modbus_tcp_select_s script tv s = Some (r, cs) ->
  Forall (recv_within bound) cs.
Proof.
  revert r cs. induction script as [|x script IH]; intros r cs H.
  - discriminate.
  - destruct x as [e| |k]; cbn [_modbus_tcp_select_s] in H.
    + destruct (decide (e = EINTR)).
      * destruct (_modbus_tcp_select_s script tv s) as [[r' cs']|];
          [|discriminate].
        injection H as <- <-. constructor; [exact I|]. eapply IH. reflexivity.
      * injection H as <- <-. repeat constructor.
    + injection H as <- <-. repeat constructor.
    + injection H as <- <-. repeat constructor.
Qed.

Lemma recover_select_no_recv (bound : Z) (ctx : modbus_t) (e : errno_t) :
  Forall (recv_within bound) (snd (recover_select LINK ext_call ctx e)).
Proof.
  unfold recover_select. destruct (negb _); [|constructor].
  destruct (decide (e = ETIMEDOUT)).
  - destruct (ext_call _sleep_response_timeout ctx e) as [c1 e1].
    destruct (ext_call modbus_flush c1 e1). repeat constructor.
  - destruct (decide (e = EBADF)); [|constructor].
    destruct (ext_call modbus_close ctx e) as [c1 e1].
    destruct (ext_call modbus_connect c1 e1). repeat constructor.
Qed.

Lemma recover_read_no_recv (bound : Z) (ctx : modbus_t) (e : errno_t) :
  Forall (recv_within bound) (snd (recover_read LINK ext_call ctx e)).
Proof.
  unfold recover_read. destruct (negb _ && _); [|constructor].
  destruct (ext_call modbus_close ctx e) as [c1 e1].
  destruct (ext_call modbus_connect c1 e1). repeat constructor.
Qed.

Lemma receive_done_within (bound : Z) (env : list iteration)
  (ctx : modbus_t) (msg : list Z) (msg_length : Z) (calls : list call) :
  0 <= msg_length <= bound ->
  Forall (recv_within bound) calls ->
  (forall n, r_ret (receive_done env ctx msg msg_length calls) = Ret n ->
             0 <= n <= bound)
  /\ Forall (recv_within bound)
            (r_calls (receive_done env ctx msg msg_length calls)).
Proof.
  intros Hml Hcalls. unfold receive_done, _modbus_tcp_check_integrity.
  cbn [r_ret r_calls]. split.
  - intros n [= <-]. exact Hml.
  - destruct (traceCallback ctx); [|exact Hcalls].
    apply Forall_app. split; [exact Hcalls|repeat constructor].
Qed.

(** The loop keeps every read inside the first [max_adu_length] bytes and
    returns a length of at most [max_adu_length], from every state in
    which the bytes consumed and the bytes outstanding fit. *)
Lemma receive_loop_within (env : list iteration) :
  forall (ctx : modbus_t) (msg : list Z) (msg_type : msg_type_t) (s : Z)
         (step : _step_t) (length_to_read msg_length : Z)
         (p_tv : option timeval) (calls : list call) (r : recv_result),
    0 <= header_length (backend ctx) < max_adu_length (backend ctx) ->
    (forall f t, header_length (backend ctx) + 1 + meta_length f t
                 <= max_adu_length (backend ctx)) ->
    0 <= msg_length <= max_adu_length (backend ctx) ->
    (step = _STEP_FUNCTION ->
     msg_length + length_to_read = header_length (backend ctx) + 1) ->
    (0 < length_to_read ->
     msg_length + length_to_read <= max_adu_length (backend ctx)) ->
    Forall (recv_within (max_adu_length (backend ctx))) calls ->
    loop env ctx msg msg_type s step length_to_read msg_length p_tv calls
      = Some r ->
    (forall n, r_ret r = Ret n -> 0 <= n <= max_adu_length (backend ctx))
    /\ Forall (recv_within (max_adu_length (backend ctx))) (r_calls r).
Proof.
  induction env as [|it env IH];
    intros ctx msg msg_type s step ltr msg_length p_tv calls r
           Hhdr Hmeta Hml Hfun Hsum Hcalls Hloop;
    cbn [receive_loop] in Hloop;
    (destruct (Z.leb_spec ltr 0) as [Hle|Hpos];
     [injection Hloop as <-; apply receive_done_within; assumption|]).
  - discriminate.
  - specialize (Hsum Hpos).
    destruct (_modbus_tcp_select_s (it_select it) p_tv s)
      as [[[n|e] sel_calls]|] eqn:Hsel; [| |discriminate].
    2:{ pose proof (recover_select_no_recv (max_adu_length (backend ctx))
                      ctx e) as Hrec.
        destruct (recover_select LINK ext_call ctx e) as [[c e'] cs].
        injection Hloop as <-. cbn [r_ret r_calls snd] in *.
        split; [intros ? [=]|].
        rewrite !Forall_app. repeat split; try assumption.
        eapply select_s_no_recv; eassumption. }
    assert (Hcalls' : Forall (recv_within (max_adu_length (backend ctx)))
              (calls ++ sel_calls ++ [call_recv s msg_length ltr])).
    { rewrite !Forall_app. repeat split; try assumption.
      - eapply select_s_no_recv; eassumption.
      - constructor; [|constructor]. cbn. lia. }
    assert (Hfail : forall e msg',
               (let '(c, e', cs) := recover_read LINK ext_call ctx e in
                Some {| r_ret := Fail e'; r_ctx := c; r_msg := msg';
                        r_calls := (calls ++ sel_calls
                                    ++ [call_recv s msg_length ltr]) ++ cs;
                        r_rest := env |}) = Some r ->
               (forall n, r_ret r = Ret n ->
                          0 <= n <= max_adu_length (backend ctx))
               /\ Forall (recv_within (max_adu_length (backend ctx)))
                         (r_calls r)).
    { intros e msg' H.
      pose proof (recover_read_no_recv (max_adu_length (backend ctx)) ctx e)
        as Hrec.
      destruct (recover_read LINK ext_call ctx e) as [[c e'] cs].
      injection H as <-. cbn [r_ret r_calls snd] in *.
      split; [intros ? [=]|]. apply Forall_app. split; assumption. }
    destruct (it_recv it) as [e|data] eqn:Hrecv;
      cbn [_modbus_tcp_recv_s] in Hloop.
    { eapply Hfail. exact Hloop. }
    set (got := take (Z.to_nat ltr) data) in *.
    assert (Hgot : 0 <= Z.of_nat (length got) <= ltr).
    { unfold got. rewrite length_take. lia. }
    destruct (Z.of_nat (length got)) as [|rc|rc] eqn:Hrc; [| |lia].
    { eapply Hfail. exact Hloop. }
    cbv beta iota in Hloop.
    destruct (Z.eqb_spec (ltr - Z.pos rc) 0) as [Hz|Hnz].
    + unfold next_step in Hloop. destruct step.
      * specialize (Hfun eq_refl).
        destruct (Z.eqb_spec
                    (meta_length
                       (byte_at (list_inserts (Z.to_nat msg_length) got msg)
                                (Z.to_nat (header_length (backend ctx))))
                       msg_type) 0) as [Hm|Hm]; cbn [negb] in Hloop.
        -- destruct (Z.ltb_spec (max_adu_length (backend ctx))
                       (msg_length + Z.pos rc
                        + data_length ctx
                            (list_inserts (Z.to_nat msg_length) got msg)
                            msg_type)) as [Hbig|Hok].
           ++ injection Hloop as <-. cbn [r_ret r_calls].
              split; [intros ? [=]|exact Hcalls'].
           ++ eapply IH; try exact Hloop; try assumption;
                try (intros; discriminate); intros; lia.
        -- pose proof (Hmeta
                         (byte_at (list_inserts (Z.to_nat msg_length) got msg)
                                  (Z.to_nat (header_length (backend ctx))))
                         msg_type).
           eapply IH; try exact Hloop; try assumption;
             try (intros; discriminate); intros; lia.
      * destruct (Z.ltb_spec (max_adu_length (backend ctx))
                    (msg_length + Z.pos rc
                     + data_length ctx
                         (list_inserts (Z.to_nat msg_length) got msg)
                         msg_type)) as [Hbig|Hok].
        -- injection Hloop as <-. cbn [r_ret r_calls].
           split; [intros ? [=]|exact Hcalls'].
        -- eapply IH; try exact Hloop; try assumption;
             try (intros; discriminate); intros; lia.
      * eapply IH; try exact Hloop; try assumption;
          try (intros; discriminate); intros; lia.
    + eapply IH; try exact Hloop; try assumption; intros; try lia.
      specialize (Hfun ltac:(assumption)). lia.
Qed.

(** C2: when the read that completes the step before the data (the
    metadata step, or the function step when there is no metadata) leaves
    a consumed count that, with the data length computed from the message,
    exceeds [max_adu_length], the receive returns -1 with EMBBADDATA at
    once: its last call is that read and the rest of the script is
    untouched.  Hence, for a backend whose header, function code and
    metadata fit in [max_adu_length], a receive that returns a length
    returns at most [max_adu_length], and every read it makes, successful
    or not, stays inside the first [max_adu_length] bytes of the buffer. *)
Theorem receive_rejects_excess_data (it : iteration)
  (env env0 : list iteration) (ctx : modbus_t) (msg msg0 : list Z)
  (msg_type : msg_type_t) (s : Z) (step : _step_t)
  (length_to_read msg_length : Z) (p_tv : option timeval)
  (calls sel_calls : list call) (n : Z) (data : list Z) (r : recv_result) :
  0 <= header_length (backend ctx) < max_adu_length (backend ctx) ->
  (forall f t, header_length (backend ctx) + 1 + meta_length f t
               <= max_adu_length (backend ctx)) ->
  (0 < length_to_read ->
   _modbus_tcp_select_s (it_select it) p_tv s = Some (Ret n, sel_calls) ->
   it_recv it = recv_bytes data ->
   (Z.to_nat length_to_read <= length data)%nat ->
   let msg' := list_inserts (Z.to_nat msg_length)
                            (take (Z.to_nat length_to_read) data) msg in
   step = _STEP_META
   \/ (step = _STEP_FUNCTION
       /\ meta_length (byte_at msg' (Z.to_nat (header_length (backend ctx))))
                      msg_type = 0) ->
   max_adu_length (backend ctx)
     < msg_length + length_to_read + data_length ctx msg' msg_type ->
   loop (it :: env) ctx msg msg_type s step length_to_read msg_length
        p_tv calls
   = Some {| r_ret := Fail EMBBADDATA; r_ctx := ctx; r_msg := msg';
             r_calls := calls ++ sel_calls
                        ++ [call_recv s msg_length length_to_read];
             r_rest := env |})
  /\ (receive_msg env0 ctx msg0 msg_type s = Some r ->
      (forall k, r_ret r = Ret k -> 0 <= k <= max_adu_length (backend ctx))
      /\ Forall (recv_within (max_adu_length (backend ctx))) (r_calls r)).
Proof.
  intros Hhdr Hmeta. split.
  - intros Hpos Hsel Hrecv Hlen msg' Hstep Hbig.
    cbn [receive_loop].
    destruct (Z.leb_spec length_to_read 0) as [Hle|_]; [lia|].
    rewrite Hsel, Hrecv. cbn [_modbus_tcp_recv_s]. fold msg'.
    rewrite length_take, Nat.min_l by exact Hlen.
    rewrite Z2Nat.id by lia.
    destruct length_to_read as [|p|p]; try lia.
    cbv beta iota. rewrite Z.sub_diag. cbn [Z.eqb].
    unfold next_step.
    destruct (Z.ltb_spec (max_adu_length (backend ctx))
                (msg_length + Z.pos p + data_length ctx msg' msg_type))
      as [_|Hok]; [|lia].
    destruct Hstep as [->|[-> Hm]]; [reflexivity|].
    rewrite Hm. reflexivity.
  - unfold _modbus_tcp_receive_msg. intros Hloop.
    eapply receive_loop_within; try exact Hloop; try assumption.
    + lia.
    + intros _. lia.
    + intros _. lia.
    + constructor.
Qed.

End ReceiveProperties.

(** ** The properties on the example instance *)

Lemma example_meta_length_fits (f : Z) (t : msg_type_t) :
  7 + 1 + example_meta_length f t <= 260.
Proof.
  unfold example_meta_length.
  destruct t;
    repeat match goal with
           | |- context [if ?c then _ else _] => destruct c
           end; lia.
Qed.

Lemma link_recovery_repairs_and_reraises_witness :
  receive_loop 2 example_meta_length example_data_length example_ext_call
    [{| it_select := [select_error EINTR; select_zero];
        it_recv := recv_bytes example_header |}]
    example_ctx (replicate 12 0) MSG_CONFIRMATION 4 _STEP_FUNCTION 8 0
    (Some (response_timeout example_ctx)) []
  = Some {| r_ret := Fail ETIMEDOUT; r_ctx := example_ctx;
            r_msg := replicate 12 0;
            r_calls := [call_select 4 (Some (response_timeout example_ctx));
                        call_select 4 (Some (response_timeout example_ctx));
                        call_ext _sleep_response_timeout;
                        call_ext modbus_flush];
            r_rest := [] |}
  /\ receive_loop 2 example_meta_length example_data_length example_ext_call
       [{| it_select := [select_ready 1];
           it_recv := recv_error ECONNREFUSED |}]
       example_ctx (replicate 12 0) MSG_CONFIRMATION 4 _STEP_FUNCTION 8 0
       (Some (response_timeout example_ctx)) []
     = Some {| r_ret := Fail ECONNREFUSED; r_ctx := set_s 5 example_ctx;
               r_msg := replicate 12 0;
               r_calls := [call_select 4 (Some (response_timeout example_ctx));
                           call_recv 4 0 8;
                           call_ext modbus_close; call_ext modbus_connect];
               r_rest := [] |}.
Proof.
  split.
  - exact (proj1 (link_recovery_repairs_and_reraises
                    2 example_meta_length example_data_length example_ext_call
                    {| it_select := [select_error EINTR; select_zero];
                       it_recv := recv_bytes example_header |}
                    [] example_ctx (replicate 12 0) MSG_CONFIRMATION 4
                    _STEP_FUNCTION 8 0 (Some (response_timeout example_ctx)) []
                    [call_select 4 (Some (response_timeout example_ctx));
                     call_select 4 (Some (response_timeout example_ctx))]
                    1 ECONNREFUSED
                    ltac:(vm_compute; discriminate) ltac:(lia))
                 eq_refl).
  - exact (proj1 (proj2 (proj2
             (link_recovery_repairs_and_reraises
                2 example_meta_length example_data_length example_ext_call
                {| it_select := [select_ready 1];
                   it_recv := recv_error ECONNREFUSED |}
                [] example_ctx (replicate 12 0) MSG_CONFIRMATION 4
                _STEP_FUNCTION 8 0 (Some (response_timeout example_ctx)) []
                [call_select 4 (Some (response_timeout example_ctx))]
                1 ECONNREFUSED
                ltac:(vm_compute; discriminate) ltac:(lia))))
             eq_refl eq_refl (or_intror (or_introl eq_refl))).
Defined.

Lemma zero_byte_read_reports_connection_reset_witness :
  exists r,
    receive_loop 2 example_meta_length example_data_length example_ext_call
      [{| it_select := [select_ready 1]; it_recv := recv_bytes [] |}]
      example_ctx (replicate 12 0) MSG_CONFIRMATION 4 _STEP_FUNCTION 8 0
      (Some (response_timeout example_ctx)) [] = Some r
    /\ r_ret r = Fail ECONNRESET.
Proof.
  destruct (zero_byte_read_reports_connection_reset
              2 example_meta_length example_data_length example_ext_call
              {| it_select := [select_ready 1]; it_recv := recv_bytes [] |}
              [] example_ctx (replicate 12 0) MSG_CONFIRMATION 4
              _STEP_FUNCTION 8 0 (Some (response_timeout example_ctx)) []
              [call_select 4 (Some (response_timeout example_ctx))] 1
              ltac:(lia) eq_refl eq_refl) as (r & E & Hret & _).
  exists r. split; assumption.
Defined.

(** C7, the claim as worded: the receive whose first read returns zero
    bytes reports ECONNRESET, and its result is the result of the receive
    whose first read fails with a connection reset; no error kind of its own
    tells the two apart. *)
Lemma zero_byte_read_is_not_told_apart_from_reset :
  let receive it :=
    _modbus_tcp_receive_msg 2 example_meta_length example_data_length
      example_ext_call [it] example_ctx (replicate 12 0) MSG_CONFIRMATION 4 in
  let closed := {| it_select := [select_ready 1]; it_recv := recv_bytes [] |} in
  let reset :=
    {| it_select := [select_ready 1]; it_recv := recv_error ECONNRESET |} in
  r_ret <$> receive closed = Some (Fail ECONNRESET)
  /\ receive closed = receive reset.
Proof. split; vm_compute; reflexivity. Qed.

Lemma receive_rejects_excess_data_witness :
  let first := {| it_select := [select_ready 1];
                  it_recv := recv_bytes example_header |} in
  let second := {| it_select := [select_ready 1]; it_recv := recv_bytes [255] |} in
  let tv := Some (byte_timeout example_ctx) in
  receive_loop 2 example_meta_length example_data_length example_ext_call
    [second; second] example_ctx (example_header ++ [0; 0; 0; 0])
    MSG_CONFIRMATION 4 _STEP_META 1 8 tv []
  = Some {| r_ret := Fail EMBBADDATA; r_ctx := example_ctx;
            r_msg := example_header ++ [255; 0; 0; 0];
            r_calls := [call_select 4 tv; call_recv 4 8 1];
            r_rest := [second] |}
  /\ exists r,
       _modbus_tcp_receive_msg 2 example_meta_length example_data_length
         example_ext_call [first; second; second] example_ctx (replicate 12 0)
         MSG_CONFIRMATION 4 = Some r
       /\ Forall (recv_within 260) (r_calls r).
Proof.
  intros first second tv.
  set (r := {| r_ret := Fail EMBBADDATA; r_ctx := example_ctx;
               r_msg := example_header ++ [255; 0; 0; 0];
               r_calls := [call_select 4 (Some (response_timeout example_ctx));
                           call_recv 4 0 8; call_select 4 tv;
                           call_recv 4 8 1];
               r_rest := [second] |}).
  destruct (receive_rejects_excess_data
              2 example_meta_length example_data_length example_ext_call
              second [second] [first; second; second] example_ctx
              (example_header ++ [0; 0; 0; 0]) (replicate 12 0)
              MSG_CONFIRMATION 4 _STEP_META 1 8 tv [] [call_select 4 tv] 1
              [255] r
              ltac:(simpl; lia) example_meta_length_fits) as [Hcheck Hsafe].
  split.
  - exact (Hcheck ltac:(lia) eq_refl eq_refl ltac:(simpl; lia)
                  (or_introl eq_refl) ltac:(vm_compute; reflexivity)).
  - exists r. split; [reflexivity|]. exact (proj2 (Hsafe eq_refl)).
Defined.

(** * Further properties *)

(** ** Headers *)

Lemma be16_bytes (x : Z) :
  0 <= x < 65536 ->
  Z.shiftl (to_uint8 (Z.shiftr x 8)) 8 + to_uint8 (Z.land x 255) = x.
Proof.
  intros Hx. rewrite shiftr8_byte by exact Hx. rewrite land255_byte.
  rewrite Z.shiftl_mul_pow2 by lia. change (2 ^ 8) with 256.
  pose proof (Z.div_mod x 256). lia.
Qed.

Lemma be16_of_bytes (hi lo : Z) :
  is_byte hi -> is_byte lo ->
  to_uint8 (Z.shiftr (Z.shiftl hi 8 + lo) 8) = hi
  /\ to_uint8 (Z.land (Z.shiftl hi 8 + lo) 255) = lo.
Proof.
  unfold is_byte. intros Hhi Hlo.
  rewrite Z.shiftl_mul_pow2 by lia. change (2 ^ 8) with 256.
  rewrite shiftr8_byte by lia. rewrite land255_byte.
  split.
  - rewrite Z.div_add_l by lia. rewrite Z.div_small by lia. lia.
  - rewrite Z.add_comm, Z.mod_add by lia. apply Z.mod_small. lia.
Qed.

(** X1: on a buffer of at least twelve bytes the request builder returns
    the preset length, writes zero in bytes 2 and 3, the unit id and the
    function code (as bytes) in 6 and 7, the address and the count
    big-endian in 8-9 and 10-11, and leaves bytes 4-5, every byte from 12
    on, and every other parameter block of the heap as they were. *)
Theorem build_request_basis_writes_pdu_fields (preset : Z)
  (h : gmap loc backend_data_t) (ctx : modbus_t) (function addr nb : Z)
  (req : list Z) (b : backend_data_t) :
  (12 <= length req)%nat ->
  h !! backend_data ctx = Some b ->
  0 <= addr < 65536 ->
  0 <= nb < 65536 ->
  exists h1 req1,
    _modbus_tcp_build_request_basis preset h ctx function addr nb req
      = Some (h1, req1, preset)
    /\ length req1 = length req
    /\ req1 !! 2%nat = Some 0 /\ req1 !! 3%nat = Some 0
    /\ req1 !! 4%nat = req !! 4%nat /\ req1 !! 5%nat = req !! 5%nat
    /\ req1 !! 6%nat = Some (slave ctx mod 256)
    /\ req1 !! 7%nat = Some (function mod 256)
    /\ Z.shiftl (byte_at req1 8) 8 + byte_at req1 9 = addr
    /\ Z.shiftl (byte_at req1 10) 8 + byte_at req1 11 = nb
    /\ drop 12 req1 = drop 12 req
    /\ (forall q, q <> backend_data ctx -> h1 !! q = h !! q).
Proof.
  intros Hlen Hb Haddr Hnb.
  destruct (build_request_basis_total preset h ctx function addr nb req b Hb)
    as (h1 & req1 & E).
  exists h1, req1. split; [exact E|].
  assert (Hframe : forall q, q <> backend_data ctx -> h1 !! q = h !! q).
  { intros q Hq. eapply build_request_basis_frame; eassumption. }
  unfold _modbus_tcp_build_request_basis in E. rewrite Hb in E.
  injection E as _ <-.
  destruct req as [|b0 [|b1 [|b2 [|b3 [|b4 [|b5 [|b6 [|b7 [|b8 [|b9 [|b10
                  [|b11 rest]]]]]]]]]]]]; simpl in Hlen; try lia.
  unfold byte_at. simpl.
  repeat split; try reflexivity; try assumption.
  - apply be16_bytes. exact Haddr.
  - apply be16_bytes. exact Hnb.
Qed.

Lemma build_request_basis_writes_pdu_fields_witness :
  exists h1,
    _modbus_tcp_build_request_basis 12 example_heap example_ctx 3 107 2
      (replicate 12 9)
    = Some (h1, [0; 1; 0; 0; 9; 9; 255; 3; 0; 107; 0; 2], 12).
Proof.
  destruct (build_request_basis_writes_pdu_fields 12 example_heap example_ctx
              3 107 2 (replicate 12 9)
              (tcp_data {| t_id := 0; port := 502; ip := "127.0.0.1" |})
              ltac:(simpl; lia) eq_refl ltac:(lia) ltac:(lia))
    as (h1 & req1 & E & _).
  exists h1. rewrite E. vm_compute in E. injection E as _ <-. reflexivity.
Defined.

(** X2: a response header built from the transaction id read out of a
    request (whose first two bytes are bytes) carries that id, so the
    pre-check of the confirmation against the request returns 0; bytes 2-3
    are zero, 6 and 7 hold unit id and function code, and bytes 4-5 and
    every byte from 8 on are left as they were. *)
Theorem response_echoes_transaction_id (preset : Z) (ctx : modbus_t)
  (sft : sft_t) (req rsp : list Z) (rsp_length : Z) :
  (8 <= length rsp)%nat ->
  is_byte (byte_at req 0) ->
  is_byte (byte_at req 1) ->
  sft_t_id sft = _modbus_tcp_prepare_response_tid req ->
  let rsp' := fst (_modbus_tcp_build_response_basis preset sft rsp) in
  snd (_modbus_tcp_build_response_basis preset sft rsp) = preset
  /\ _modbus_tcp_prepare_response_tid rsp'
     = _modbus_tcp_prepare_response_tid req
  /\ _modbus_tcp_pre_check_confirmation ctx req rsp' rsp_length = Ret 0
  /\ rsp' !! 2%nat = Some 0 /\ rsp' !! 3%nat = Some 0
  /\ rsp' !! 4%nat = rsp !! 4%nat /\ rsp' !! 5%nat = rsp !! 5%nat
  /\ rsp' !! 6%nat = Some (sft_slave sft mod 256)
  /\ rsp' !! 7%nat = Some (sft_function sft mod 256)
  /\ drop 8 rsp' = drop 8 rsp.
Proof.
  intros Hlen H0 H1 Htid rsp'.
  destruct (be16_of_bytes _ _ H0 H1) as [Ehi Elo].
  unfold _modbus_tcp_prepare_response_tid in Htid.
  subst rsp'. unfold _modbus_tcp_build_response_basis. rewrite Htid, Ehi, Elo.
  destruct rsp as [|r0 [|r1 [|r2 [|r3 [|r4 [|r5 [|r6 [|r7 rest]]]]]]]];
    simpl in Hlen; try lia.
  unfold _modbus_tcp_pre_check_confirmation, _modbus_tcp_prepare_response_tid,
    byte_at. simpl.
  rewrite !Z.eqb_refl. repeat split; reflexivity.
Qed.

Lemma response_echoes_transaction_id_witness :
  _modbus_tcp_pre_check_confirmation example_ctx
    [18; 52; 0; 0; 0; 6; 17; 3; 0; 107; 0; 2]
    (fst (_modbus_tcp_build_response_basis 8
            {| sft_slave := 17; sft_function := 3; sft_t_id := 4660 |}
            (replicate 12 0))) 12
  = Ret 0.
Proof.
  exact (proj1 (proj2 (proj2
           (response_echoes_transaction_id 8 example_ctx
              {| sft_slave := 17; sft_function := 3; sft_t_id := 4660 |}
              [18; 52; 0; 0; 0; 6; 17; 3; 0; 107; 0; 2] (replicate 12 0) 12
              ltac:(simpl; lia) ltac:(unfold is_byte, byte_at; simpl; lia)
              ltac:(unfold is_byte, byte_at; simpl; lia) eq_refl)))).
Defined.

(** X3: a request built and then patched for sending has a complete MBAP
    header: the counter value just allocated in bytes 0-1, zero in 2-3,
    [req_length - 6] in 4-5, the unit id in 6 and the function code in 7;
    the patch changes nothing from byte 6 on. *)
Theorem built_and_patched_request_header (preset : Z)
  (h : gmap loc backend_data_t) (ctx : modbus_t) (function addr nb : Z)
  (req : list Z) (b : backend_data_t) (req_length : Z) :
  (12 <= length req)%nat ->
  h !! backend_data ctx = Some b ->
  0 <= get_t_id b <= 65535 ->
  6 <= req_length <= 65541 ->
  exists h1 req1,
    _modbus_tcp_build_request_basis preset h ctx function addr nb req
      = Some (h1, req1, preset)
    /\ let req2 := fst (_modbus_tcp_send_msg_pre req1 req_length) in
       _modbus_tcp_prepare_response_tid req2 = (get_t_id b + 1) mod 65536
       /\ req2 !! 2%nat = Some 0 /\ req2 !! 3%nat = Some 0
       /\ Z.shiftl (byte_at req2 4) 8 + byte_at req2 5 = req_length - 6
       /\ req2 !! 6%nat = Some (slave ctx mod 256)
       /\ req2 !! 7%nat = Some (function mod 256)
       /\ drop 6 req2 = drop 6 req1.
Proof.
  intros Hlen Hb Ht Hr.
  destruct (build_request_basis_tid preset h ctx function addr nb req b
              ltac:(lia) Hb Ht) as (req1 & E & Hl1 & Htid).
  eexists _, req1. split; [exact E|].
  unfold _modbus_tcp_build_request_basis in E. rewrite Hb in E.
  injection E as _ E1.
  destruct req as [|b0 [|b1 [|b2 [|b3 [|b4 [|b5 [|b6 [|b7 [|b8 [|b9 [|b10
                  [|b11 rest]]]]]]]]]]]]; simpl in Hlen; try lia.
  simpl in E1. subst req1.
  unfold _modbus_tcp_send_msg_pre, _modbus_tcp_prepare_response_tid, byte_at
    in *.
  simpl in *.
  repeat split; try reflexivity.
  - exact Htid.
  - apply be16_bytes. lia.
Qed.

Lemma built_and_patched_request_header_witness :
  exists h1 req1,
    _modbus_tcp_build_request_basis 12 example_heap example_ctx 3 107 2
      (replicate 12 9) = Some (h1, req1, 12)
    /\ fst (_modbus_tcp_send_msg_pre req1 12)
       = [0; 1; 0; 0; 0; 6; 255; 3; 0; 107; 0; 2].
Proof.
  destruct (built_and_patched_request_header 12 example_heap example_ctx
              3 107 2 (replicate 12 9)
              (tcp_data {| t_id := 0; port := 502; ip := "127.0.0.1" |}) 12
              ltac:(simpl; lia) eq_refl ltac:(simpl; lia) ltac:(lia))
    as (h1 & req1 & E & _).
  exists h1, req1. split; [exact E|].
  vm_compute in E. injection E as _ <-. reflexivity.
Defined.

(** ** Readiness wait *)

(** X4: a readiness wait interrupted [k] times by a signal gives the result
    of the wait that follows the interruptions, after [k] more calls of
    [select]; it fails to return only when the whole script is
    interruptions. *)
Theorem select_s_restarts_after_eintr (k : nat) (script : list select_raw)
  (tv : option timeval) (s : Z) :
  fst <$> _modbus_tcp_select_s (replicate k (select_error EINTR) ++ script)
            tv s
  = fst <$> _modbus_tcp_select_s script tv s
  /\ (fun rc => length (snd rc))
       <$> _modbus_tcp_select_s (replicate k (select_error EINTR) ++ script)
             tv s
     = (fun rc => (k + length (snd rc))%nat)
         <$> _modbus_tcp_select_s script tv s
  /\ (_modbus_tcp_select_s script tv s = None
      <-> Forall (fun x => x = select_error EINTR) script).
Proof.
  assert (_modbus_tcp_select_s (replicate k (select_error EINTR) ++ script)
            tv s
          = (fun rc => (fst rc, replicate k (call_select s tv) ++ snd rc))
              <$> _modbus_tcp_select_s script tv s) as E.
  { induction k as [|k IH].
    + simpl. destruct (_modbus_tcp_select_s script tv s) as [[r cs]|];
        reflexivity.
    + cbn [replicate app _modbus_tcp_select_s].
      rewrite decide_True by reflexivity. rewrite IH.
      destruct (_modbus_tcp_select_s script tv s) as [[r cs]|]; reflexivity. }
  split; [|split].
  - rewrite E.
    destruct (_modbus_tcp_select_s script tv s) as [[r cs]|]; reflexivity.
  - rewrite E.
    destruct (_modbus_tcp_select_s script tv s) as [[r cs]|];
      [|reflexivity].
    cbn. rewrite length_app, length_replicate. reflexivity.
  - clear E. induction script as [|x script IH].
    + split; [constructor|reflexivity].
    + destruct x as [e| |n]; cbn [_modbus_tcp_select_s].
      * destruct (decide (e = EINTR)) as [->|Hne].
        -- destruct (_modbus_tcp_select_s script tv s) as [[r cs]|].
           ++ split; [discriminate|]. intros H. apply Forall_cons in H.
              destruct H as [_ H]. apply IH in H. discriminate.
           ++ split; [|reflexivity]. intros _. constructor; [reflexivity|].
              apply IH. reflexivity.
        -- split; [discriminate|]. intros H. apply Forall_cons in H.
           destruct H as [[= ->] _]. contradiction.
      * split; [discriminate|]. intros H. apply Forall_cons in H.
        destruct H as [[=] _].
      * split; [discriminate|]. intros H. apply Forall_cons in H.
        destruct H as [[=] _].
Qed.

(** X5: a readiness wait that returns never reports EINTR and never
    returns 0: its result is a positive count or -1 with an error code that
    is not EINTR; all it does is call [select] on the descriptor, at least
    once. *)
Theorem select_s_never_reports_eintr (script : list select_raw)
  (tv : option timeval) (s : Z) (r : cret) (cs : list call) :
  _modbus_tcp_select_s script tv s = Some (r, cs) ->
  r <> Fail EINTR
  /\ (forall n, r = Ret n -> 0 < n)
  /\ cs <> []
  /\ Forall (is_select_on s) cs.
Proof.
  revert r cs. induction script as [|x script IH]; intros r cs H.
  - discriminate.
  - destruct x as [e| |n]; cbn [_modbus_tcp_select_s] in H.
    + destruct (decide (e = EINTR)) as [->|Hne].
      * destruct (_modbus_tcp_select_s script tv s) as [[r' cs']|];
          [|discriminate].
        injection H as <- <-.
        destruct (IH r' cs' eq_refl) as (H1 & H2 & H3 & H4).
        repeat split; try assumption; [discriminate|].
        constructor; [reflexivity|exact H4].
      * injection H as <- <-.
        repeat split; [congruence|discriminate|discriminate|].
        repeat constructor.
    + injection H as <- <-.
      repeat split; [discriminate|discriminate|discriminate|].
      repeat constructor.
    + injection H as <- <-.
      repeat split; [discriminate|intros ? [= <-]; lia|discriminate|].
      repeat constructor.
Qed.

Lemma select_s_never_reports_eintr_witness :
  exists r cs,
    _modbus_tcp_select_s [select_error EINTR; select_error EINTR; select_zero]
      (Some {| tv_sec := 0; tv_usec := 500000 |}) 4 = Some (r, cs)
    /\ r = Fail ETIMEDOUT /\ length cs = 3%nat
    /\ r <> Fail EINTR /\ Forall (is_select_on 4) cs.
Proof.
  eexists _, _. split; [reflexivity|]. split; [reflexivity|].
  split; [reflexivity|].
  destruct (select_s_never_reports_eintr
              [select_error EINTR; select_error EINTR; select_zero]
              (Some {| tv_sec := 0; tv_usec := 500000 |}) 4 _ _ eq_refl)
    as (H1 & _ & _ & H4).
  split; [exact H1|exact H4].
Defined.

(** ** Reassembly: fragments, repairs and timeouts *)

Section ReceiveFurther.

Variable LINK : Z.
Variable meta_length : Z -> msg_type_t -> Z.
Variable data_length : modbus_t -> list Z -> msg_type_t -> Z.
Variable ext_call : ext_fn -> modbus_t -> errno_t -> modbus_t * errno_t.

Local Abbreviation loop := (receive_loop LINK meta_length data_length ext_call).
Local Abbreviation receive_msg :=
  (_modbus_tcp_receive_msg LINK meta_length data_length ext_call).

Lemma select_s_tv_indep (script : list select_raw) (tv tv' : option timeval)
  (s : Z) :
  fst <$> _modbus_tcp_select_s script tv s
  = fst <$> _modbus_tcp_select_s script tv' s.
Proof.
  induction script as [|x script IH]; [reflexivity|].
  destruct x as [e| |n]; cbn [_modbus_tcp_select_s]; try reflexivity.
  destruct (decide (e = EINTR)); [|reflexivity].
  destruct (_modbus_tcp_select_s script tv s) as [[r cs]|],
           (_modbus_tcp_select_s script tv' s) as [[r' cs']|];
    simpl in IH; try discriminate; [|reflexivity].
  injection IH as ->. reflexivity.
Qed.

(** The timeout in force and the calls already recorded have no influence
    on the outcome. *)
Lemma loop_outcome_indep (env : list iteration) :
  forall (ctx : modbus_t) (msg : list Z) (msg_type : msg_type_t) (s : Z)
         (step : _step_t) (length_to_read msg_length : Z)
         (tv tv' : option timeval) (calls calls' : list call),
    outcome <$> loop env ctx msg msg_type s step length_to_read msg_length
                     tv calls
    = outcome <$> loop env ctx msg msg_type s step length_to_read msg_length
                       tv' calls'.
Proof.
  induction env as [|it env IH];
    intros ctx msg msg_type s step ltr ml tv tv' calls calls';
    cbn [receive_loop];
    (destruct (ltr <=? 0);
     [unfold receive_done; destruct (traceCallback ctx); reflexivity|]).
  - reflexivity.
  - pose proof (select_s_tv_indep (it_select it) tv tv' s) as Hsel.
    destruct (_modbus_tcp_select_s (it_select it) tv s) as [[r cs]|],
             (_modbus_tcp_select_s (it_select it) tv' s) as [[r' cs']|];
      simpl in Hsel; try discriminate; [|reflexivity].
    injection Hsel as ->. destruct r' as [n|e].
    + destruct (_modbus_tcp_recv_s (it_recv it) ltr) as [[v|e] data].
      * destruct v as [|v|v].
        -- destruct (recover_read LINK ext_call ctx ECONNRESET) as [[c e'] cs0].
           reflexivity.
        -- destruct (if ltr - Z.pos v =? 0 then _ else _) as [e|[st l]];
             [reflexivity|apply IH].
        -- destruct (if ltr - Z.neg v =? 0 then _ else _) as [e|[st l]];
             [reflexivity|apply IH].
      * destruct (recover_read LINK ext_call ctx e) as [[c e'] cs0].
        reflexivity.
    + destruct (recover_select LINK ext_call ctx e) as [[c e'] cs0].
      reflexivity.
Qed.

(** One turn in which the socket is ready and delivers [d], not empty and
    not longer than what is outstanding. *)
Lemma loop_read_ok (d : list Z) (env : list iteration) (ctx : modbus_t)
  (msg : list Z) (msg_type : msg_type_t) (s : Z) (step : _step_t)
  (length_to_read msg_length : Z) (tv : option timeval) (calls : list call) :
  d <> [] ->
  (length d <= Z.to_nat length_to_read)%nat ->
  loop (ready d :: env) ctx msg msg_type s step length_to_read msg_length
       tv calls
  = match (if length_to_read - Z.of_nat (length d) =? 0
           then next_step meta_length data_length ctx
                  (list_inserts (Z.to_nat msg_length) d msg) msg_type step
                  (msg_length + Z.of_nat (length d))
           else inr (step, length_to_read - Z.of_nat (length d))) with
    | inl errno =>
        Some {| r_ret := Fail errno; r_ctx := ctx;
                r_msg := list_inserts (Z.to_nat msg_length) d msg;
                r_calls := calls ++ [call_select s tv]
                           ++ [call_recv s msg_length length_to_read];
                r_rest := env |}
    | inr (step', l') =>
        loop env ctx (list_inserts (Z.to_nat msg_length) d msg) msg_type s
             step' l' (msg_length + Z.of_nat (length d))
             (if (0 <? l') && negb (tv_sec (byte_timeout ctx) =? -1)
              then Some (byte_timeout ctx) else tv)
             (calls ++ [call_select s tv]
              ++ [call_recv s msg_length length_to_read])
    end.
Proof.
  intros Hd Hlen.
  assert (Hpos : (0 < length d)%nat) by (destruct d; [congruence|simpl; lia]).
  cbn [receive_loop ready it_select it_recv _modbus_tcp_select_s
       _modbus_tcp_recv_s].
  destruct (Z.leb_spec length_to_read 0) as [Hle|_]; [lia|].
  rewrite take_ge by exact Hlen.
  destruct (Z.of_nat (length d)) as [|p|p] eqn:Hp; try lia.
  reflexivity.
Qed.

(** X6: the bytes outstanding in a step, delivered in any number of
    non-empty reads, give the return value, context, buffer and unread
    script that the same bytes delivered in one read give. *)
Theorem fragmented_reads_same_outcome (chunks : list (list Z)) :
  forall (env : list iteration) (ctx : modbus_t) (msg : list Z)
         (msg_type : msg_type_t) (s : Z) (step : _step_t)
         (length_to_read msg_length : Z) (tv : option timeval)
         (calls : list call),
    chunks <> [] ->
    Forall (fun c => c <> []) chunks ->
    0 <= msg_length ->
    (length (concat chunks) <= Z.to_nat length_to_read)%nat ->
    outcome <$> loop (map ready chunks ++ env) ctx msg msg_type s step
                     length_to_read msg_length tv calls
    = outcome <$> loop (ready (concat chunks) :: env) ctx msg msg_type s step
                       length_to_read msg_length tv calls.
Proof.
  induction chunks as [|c chunks IH];
    intros env ctx msg msg_type s step ltr ml tv calls Hne Hall Hml Hlen;
    [congruence|].
  apply Forall_cons in Hall. destruct Hall as [Hc Hall].
  destruct chunks as [|c2 rest].
  { simpl. rewrite app_nil_r. reflexivity. }
  set (d' := concat (c2 :: rest)) in *.
  assert (Hd' : d' <> []).
  { unfold d'. simpl. apply Forall_cons in Hall. destruct Hall as [Hc2 _].
    destruct c2; [congruence|discriminate]. }
  assert (Hc_pos : (0 < length c)%nat) by (destruct c; [congruence|simpl; lia]).
  assert (Hd_pos : (0 < length d')%nat)
    by (destruct d'; [congruence|simpl; lia]).
  change (concat (c :: c2 :: rest)) with (c ++ d') in *.
  rewrite length_app in Hlen.
  change (map ready (c :: c2 :: rest) ++ env)
    with (ready c :: (map ready (c2 :: rest) ++ env)).
  rewrite (loop_read_ok c) by (try assumption; lia).
  destruct (Z.eqb_spec (ltr - Z.of_nat (length c)) 0) as [Hz|_]; [lia|].
  rewrite (IH env ctx _ msg_type s step _ _ _ _) by (try assumption; try lia;
                                                     discriminate).
  fold d'.
  rewrite (loop_read_ok d') by (try assumption; lia).
  assert (Hcd : c ++ d' <> []) by (destruct c; [congruence|discriminate]).
  rewrite (loop_read_ok (c ++ d') env ctx msg msg_type s step ltr ml tv calls
             Hcd ltac:(rewrite length_app; lia)).
  rewrite length_app, Nat2Z.inj_add.
  replace (Z.to_nat (ml + Z.of_nat (length c)))
    with (length c + Z.to_nat ml)%nat by lia.
  rewrite <- list_inserts_app_l.
  replace (ltr - Z.of_nat (length c) - Z.of_nat (length d'))
    with (ltr - (Z.of_nat (length c) + Z.of_nat (length d'))) by lia.
  replace (ml + Z.of_nat (length c) + Z.of_nat (length d'))
    with (ml + (Z.of_nat (length c) + Z.of_nat (length d'))) by lia.
  destruct (if ltr - (Z.of_nat (length c) + Z.of_nat (length d')) =? 0
            then _ else _) as [e|[st l]]; [reflexivity|].
  apply loop_outcome_indep.
Qed.

End ReceiveFurther.

Lemma fragmented_reads_same_outcome_witness :
  let rest := [ready [2]; ready [7; 8]] in
  outcome <$> receive_loop 2 example_meta_length example_data_length
                example_ext_call
                ([ready [0; 1; 0]; ready [0]; ready [1; 2; 17; 3]] ++ rest)
                example_ctx (replicate 12 0) MSG_CONFIRMATION 4
                _STEP_FUNCTION 8 0 (Some (response_timeout example_ctx)) []
  = outcome <$> receive_loop 2 example_meta_length example_data_length
                  example_ext_call (ready example_header :: rest)
                  example_ctx (replicate 12 0) MSG_CONFIRMATION 4
                  _STEP_FUNCTION 8 0 (Some (response_timeout example_ctx)) [].
Proof.
  exact (fragmented_reads_same_outcome 2 example_meta_length
           example_data_length example_ext_call
           [[0; 1; 0]; [0]; [1; 2; 17; 3]] [ready [2]; ready [7; 8]]
           example_ctx (replicate 12 0) MSG_CONFIRMATION 4 _STEP_FUNCTION 8 0
           (Some (response_timeout example_ctx)) []
           ltac:(discriminate) ltac:(repeat constructor; discriminate)
           ltac:(lia) ltac:(simpl; lia)).
Defined.

Section ReceiveInvariants.

Variable LINK : Z.
Variable meta_length : Z -> msg_type_t -> Z.
Variable data_length : modbus_t -> list Z -> msg_type_t -> Z.
Variable ext_call : ext_fn -> modbus_t -> errno_t -> modbus_t * errno_t.

Local Abbreviation loop := (receive_loop LINK meta_length data_length ext_call).
Local Abbreviation receive_msg :=
  (_modbus_tcp_receive_msg LINK meta_length data_length ext_call).

Lemma select_s_calls_select (script : list select_raw) (tv : option timeval)
  (s : Z) (r : cret) (cs : list call) :
  _modbus_tcp_select_s script tv s = Some (r, cs) ->
  Forall (fun c => c = call_select s tv) cs.
Proof.
  revert r cs. induction script as [|x script IH]; intros r cs H;
    [discriminate|].
  destruct x as [e| |n]; cbn [_modbus_tcp_select_s] in H.
  - destruct (decide (e = EINTR)).
    + destruct (_modbus_tcp_select_s script tv s) as [[r' cs']|];
        [|discriminate].
      injection H as <- <-. constructor; [reflexivity|]. eapply IH. reflexivity.
    + injection H as <- <-. repeat constructor.
  - injection H as <- <-. repeat constructor.
  - injection H as <- <-. repeat constructor.
Qed.

Lemma recover_select_off (ctx : modbus_t) (e : errno_t) :
  Z.land (error_recovery ctx) LINK = 0 ->
  recover_select LINK ext_call ctx e = (ctx, e, []).
Proof. intros Hlink. unfold recover_select. rewrite Hlink. reflexivity. Qed.

Lemma recover_read_off' (ctx : modbus_t) (e : errno_t) :
  Z.land (error_recovery ctx) LINK = 0 ->
  recover_read LINK ext_call ctx e = (ctx, e, []).
Proof. intros Hlink. unfold recover_read. rewrite Hlink. reflexivity. Qed.

(** The loop calls no repair function and keeps the context when the link
    flag is off or when it returns a length. *)
Lemma loop_no_repair (env : list iteration) :
  forall (ctx : modbus_t) (msg : list Z) (msg_type : msg_type_t) (s : Z)
         (step : _step_t) (length_to_read msg_length : Z)
         (tv : option timeval) (calls : list call) (r : recv_result),
    Forall (fun c => ~ is_ext_call c) calls ->
    loop env ctx msg msg_type s step length_to_read msg_length tv calls
      = Some r ->
    Z.land (error_recovery ctx) LINK = 0 \/ (exists n, r_ret r = Ret n) ->
    r_ctx r = ctx /\ Forall (fun c => ~ is_ext_call c) (r_calls r).
Proof.
  induction env as [|it env IH];
    intros ctx msg msg_type s step ltr ml tv calls r Hcalls Hloop Hor;
    cbn [receive_loop] in Hloop;
    (destruct (ltr <=? 0);
     [injection Hloop as <-; unfold receive_done; cbn [r_ctx r_calls];
      split; [reflexivity|];
      destruct (traceCallback ctx); [|exact Hcalls];
      apply Forall_app; split; [exact Hcalls|];
      constructor; [intros []|constructor] |]).
  - discriminate.
  - destruct (_modbus_tcp_select_s (it_select it) tv s)
      as [[[n|e] sel_calls]|] eqn:Hsel; [| |discriminate].
    + assert (Hcalls' : Forall (fun c => ~ is_ext_call c)
                (calls ++ sel_calls ++ [call_recv s ml ltr])).
      { rewrite !Forall_app. repeat split; [exact Hcalls| |].
        - eapply Forall_impl; [eapply select_s_calls_select; exact Hsel|].
          intros c -> [].
        - constructor; [intros []|constructor]. }
      assert (Hfail : forall e msg',
                 (let '(c, e', cs) := recover_read LINK ext_call ctx e in
                  Some {| r_ret := Fail e'; r_ctx := c; r_msg := msg';
                          r_calls := (calls ++ sel_calls
                                      ++ [call_recv s ml ltr]) ++ cs;
                          r_rest := env |}) = Some r ->
                 r_ctx r = ctx /\ Forall (fun c => ~ is_ext_call c) (r_calls r)).
      { intros e msg' H. destruct Hor as [Hoff|[k Hk]].
        - rewrite recover_read_off' in H by exact Hoff.
          injection H as <-. cbn [r_ctx r_calls]. rewrite app_nil_r.
          split; [reflexivity|exact Hcalls'].
        - destruct (recover_read LINK ext_call ctx e) as [[c e'] cs].
          injection H as <-. discriminate. }
      destruct (_modbus_tcp_recv_s (it_recv it) ltr) as [[v|e] data].
      * destruct v as [|v|v]; [eapply Hfail; exact Hloop| |].
        -- destruct (if ltr - Z.pos v =? 0 then _ else _) as [e|[st l]].
           ++ injection Hloop as <-. split; [reflexivity|exact Hcalls'].
           ++ eapply IH; eassumption.
        -- destruct (if ltr - Z.neg v =? 0 then _ else _) as [e|[st l]].
           ++ injection Hloop as <-. split; [reflexivity|exact Hcalls'].
           ++ eapply IH; eassumption.
      * eapply Hfail; exact Hloop.
    + destruct Hor as [Hoff|[k Hk]].
      * rewrite recover_select_off in Hloop by exact Hoff.
        injection Hloop as <-. cbn [r_ctx r_calls]. rewrite app_nil_r.
        split; [reflexivity|]. apply Forall_app. split; [exact Hcalls|].
        eapply Forall_impl; [eapply select_s_calls_select; exact Hsel|].
        intros c -> [].
      * destruct (recover_select LINK ext_call ctx e) as [[c e'] cs].
        injection Hloop as <-. discriminate.
Qed.

(** The length returned covers at least header and function code. *)
Lemma loop_min_length (env : list iteration) :
  forall (ctx : modbus_t) (msg : list Z) (msg_type : msg_type_t) (s : Z)
         (step : _step_t) (length_to_read msg_length : Z)
         (tv : option timeval) (calls : list call) (r : recv_result) (n : Z),
    (step = _STEP_FUNCTION ->
     msg_length + length_to_read = header_length (backend ctx) + 1) ->
    (step <> _STEP_FUNCTION -> header_length (backend ctx) + 1 <= msg_length) ->
    loop env ctx msg msg_type s step length_to_read msg_length tv calls
      = Some r ->
    r_ret r = Ret n ->
    header_length (backend ctx) + 1 <= n.
Proof.
  induction env as [|it env IH];
    intros ctx msg msg_type s step ltr ml tv calls r n Hfun Hlater Hloop Hret;
    cbn [receive_loop] in Hloop;
    (destruct (Z.leb_spec ltr 0) as [Hle|Hpos];
     [injection Hloop as <-;
      unfold receive_done, _modbus_tcp_check_integrity in Hret;
      cbn [r_ret] in Hret; injection Hret as <-;
      destruct step; try (apply Hlater; discriminate);
      specialize (Hfun eq_refl); lia |]).
  - discriminate.
  - destruct (_modbus_tcp_select_s (it_select it) tv s)
      as [[[k|e] sel_calls]|] eqn:Hsel; [| |discriminate].
    2:{ destruct (recover_select LINK ext_call ctx e) as [[c e'] cs].
        injection Hloop as <-. discriminate. }
    destruct (it_recv it) as [e|data] eqn:Hrecv;
      cbn [_modbus_tcp_recv_s] in Hloop.
    { destruct (recover_read LINK ext_call ctx e) as [[c e'] cs].
      injection Hloop as <-. discriminate. }
    set (got := take (Z.to_nat ltr) data) in *.
    destruct (Z.of_nat (length got)) as [|rc|rc] eqn:Hrc; [| |lia].
    { destruct (recover_read LINK ext_call ctx ECONNRESET) as [[c e'] cs].
      injection Hloop as <-. discriminate. }
    cbv beta iota in Hloop.
    destruct (Z.eqb_spec (ltr - Z.pos rc) 0) as [Hz|Hnz].
    + assert (Hdone : header_length (backend ctx) + 1 <= ml + Z.pos rc).
      { destruct step; try (specialize (Hlater ltac:(discriminate)); lia).
        specialize (Hfun eq_refl). lia. }
      destruct (next_step meta_length data_length ctx
                  (list_inserts (Z.to_nat ml) got msg) msg_type step
                  (ml + Z.pos rc)) as [e|[st l]] eqn:Hnext.
      * injection Hloop as <-. discriminate.
      * assert (Hst : st <> _STEP_FUNCTION).
        { unfold next_step in Hnext.
          destruct step;
            repeat match type of Hnext with
                   | (if ?c then _ else _) = _ => destruct c
                   end; injection Hnext as <- <- || discriminate Hnext;
            discriminate. }
        eapply IH; try exact Hloop; try exact Hret.
        -- intros ->. contradiction.
        -- intros _. exact Hdone.
    + eapply IH; try exact Hloop; try exact Hret.
      * intros ->. specialize (Hfun eq_refl). lia.
      * intros Hs. specialize (Hlater Hs). lia.
Qed.

(** X7: a receive that returns a length returns at least
    [header_length + 1], has left the context as it was and has called
    none of the repair functions. *)
Theorem successful_receive_has_header_and_no_repair (env : list iteration)
  (ctx : modbus_t) (msg : list Z) (msg_type : msg_type_t) (s : Z)
  (r : recv_result) (n : Z) :
  receive_msg env ctx msg msg_type s = Some r ->
  r_ret r = Ret n ->
  header_length (backend ctx) + 1 <= n
  /\ r_ctx r = ctx
  /\ Forall (fun c => ~ is_ext_call c) (r_calls r).
Proof.
  unfold _modbus_tcp_receive_msg. intros Hloop Hret. split.
  - eapply loop_min_length; try exact Hloop; try exact Hret.
    + intros _. lia.
    + intros H. contradiction.
  - eapply loop_no_repair; try exact Hloop; [constructor|].
    right. exists n. exact Hret.
Qed.

(** X8: with the link flag off a receive, whatever its result, leaves the
    context as it was and calls none of the repair functions. *)
Theorem receive_without_link_flag_never_repairs (env : list iteration)
  (ctx : modbus_t) (msg : list Z) (msg_type : msg_type_t) (s : Z)
  (r : recv_result) :
  Z.land (error_recovery ctx) LINK = 0 ->
  receive_msg env ctx msg msg_type s = Some r ->
  r_ctx r = ctx /\ Forall (fun c => ~ is_ext_call c) (r_calls r).
Proof.
  unfold _modbus_tcp_receive_msg. intros Hoff Hloop.
  eapply loop_no_repair; try exact Hloop; [constructor|].
  left. exact Hoff.
Qed.

Lemma loop_waits_bounded (a : timeval) (env : list iteration) :
  forall (ctx : modbus_t) (msg : list Z) (msg_type : msg_type_t) (s : Z)
         (step : _step_t) (length_to_read msg_length : Z)
         (tv : option timeval) (calls : list call) (r : recv_result),
    tv = Some a \/ tv = Some (byte_timeout ctx) ->
    Forall (wait_bounded_by a (byte_timeout ctx)) calls ->
    loop env ctx msg msg_type s step length_to_read msg_length tv calls
      = Some r ->
    Forall (wait_bounded_by a (byte_timeout ctx)) (r_calls r).
Proof.
  induction env as [|it env IH];
    intros ctx msg msg_type s step ltr ml tv calls r Htv Hcalls Hloop;
    cbn [receive_loop] in Hloop;
    (destruct (ltr <=? 0);
     [injection Hloop as <-; unfold receive_done; cbn [r_calls];
      destruct (traceCallback ctx); [|exact Hcalls];
      apply Forall_app; split; [exact Hcalls|repeat constructor] |]).
  - discriminate.
  - assert (Hsel_ok : forall r0 cs,
               _modbus_tcp_select_s (it_select it) tv s = Some (r0, cs) ->
               Forall (wait_bounded_by a (byte_timeout ctx)) cs).
    { intros r0 cs H. eapply Forall_impl;
        [eapply select_s_calls_select; exact H|].
      intros c ->. destruct Htv as [-> | ->]; cbn; auto. }
    destruct (_modbus_tcp_select_s (it_select it) tv s)
      as [[[n|e] sel_calls]|] eqn:Hsel; [| |discriminate].
    + assert (Hcalls' : Forall (wait_bounded_by a (byte_timeout ctx))
                (calls ++ sel_calls ++ [call_recv s ml ltr])).
      { rewrite !Forall_app. repeat split; [exact Hcalls| |].
        - eapply Hsel_ok. reflexivity.
        - repeat constructor. }
      assert (Hrec : forall e,
                 Forall (wait_bounded_by a (byte_timeout ctx))
                        (snd (recover_read LINK ext_call ctx e))).
      { intros e. unfold recover_read. destruct (negb _ && _); [|constructor].
        destruct (ext_call modbus_close ctx e) as [c1 e1].
        destruct (ext_call modbus_connect c1 e1). repeat constructor. }
      assert (Hfail : forall e msg',
                 (let '(c, e', cs) := recover_read LINK ext_call ctx e in
                  Some {| r_ret := Fail e'; r_ctx := c; r_msg := msg';
                          r_calls := (calls ++ sel_calls
                                      ++ [call_recv s ml ltr]) ++ cs;
                          r_rest := env |}) = Some r ->
                 Forall (wait_bounded_by a (byte_timeout ctx)) (r_calls r)).
      { intros e msg' H. specialize (Hrec e).
        destruct (recover_read LINK ext_call ctx e) as [[c e'] cs].
        injection H as <-. cbn [r_calls snd] in *.
        apply Forall_app. split; assumption. }
      destruct (_modbus_tcp_recv_s (it_recv it) ltr) as [[v|e] data].
      * destruct v as [|v|v]; [eapply Hfail; exact Hloop| |].
        -- destruct (if ltr - Z.pos v =? 0 then _ else _) as [e|[st l]].
           ++ injection Hloop as <-. exact Hcalls'.
           ++ eapply IH; try exact Hloop; [|exact Hcalls'].
              destruct ((0 <? l) && negb (tv_sec (byte_timeout ctx) =? -1));
                [right; reflexivity|exact Htv].
        -- destruct (if ltr - Z.neg v =? 0 then _ else _) as [e|[st l]].
           ++ injection Hloop as <-. exact Hcalls'.
           ++ eapply IH; try exact Hloop; [|exact Hcalls'].
              destruct ((0 <? l) && negb (tv_sec (byte_timeout ctx) =? -1));
                [right; reflexivity|exact Htv].
      * eapply Hfail; exact Hloop.
    + assert (Hrec : Forall (wait_bounded_by a (byte_timeout ctx))
                       (snd (recover_select LINK ext_call ctx e))).
      { unfold recover_select. destruct (negb _); [|constructor].
        destruct (decide (e = ETIMEDOUT)).
        - destruct (ext_call _sleep_response_timeout ctx e) as [c1 e1].
          destruct (ext_call modbus_flush c1 e1). repeat constructor.
        - destruct (decide (e = EBADF)); [|constructor].
          destruct (ext_call modbus_close ctx e) as [c1 e1].
          destruct (ext_call modbus_connect c1 e1). repeat constructor. }
      destruct (recover_select LINK ext_call ctx e) as [[c e'] cs].
      injection Hloop as <-. cbn [r_calls snd] in *.
      rewrite !Forall_app. repeat split; try assumption.
      eapply Hsel_ok. reflexivity.
Qed.

(** X9: every readiness wait of the receive of a confirmation is given a
    timeout; none waits without limit. *)
Theorem confirmation_waits_are_bounded (env : list iteration)
  (ctx : modbus_t) (msg : list Z) (s : Z) (r : recv_result) :
  receive_msg env ctx msg MSG_CONFIRMATION s = Some r ->
  Forall wait_has_timeout (r_calls r).
Proof.
  unfold _modbus_tcp_receive_msg. intros Hloop.
  eapply Forall_impl.
  - eapply (loop_waits_bounded (response_timeout ctx)); try exact Hloop;
      [|constructor].
    left. destruct (response_timeout ctx). reflexivity.
  - intros [sock [tv|]|sock off len|f|m l]; cbn; tauto.
Qed.

End ReceiveInvariants.

Lemma successful_receive_has_header_and_no_repair_witness :
  exists r,
    _modbus_tcp_receive_msg 2 example_meta_length example_data_length
      example_ext_call
      [ready [0; 1; 0; 0]; ready [0; 5; 17; 3]; ready [2]; ready [7; 8]]
      example_ctx (replicate 12 0) MSG_CONFIRMATION 4 = Some r
    /\ r_ret r = Ret 11
    /\ r_ctx r = example_ctx.
Proof.
  destruct (_modbus_tcp_receive_msg 2 example_meta_length example_data_length
              example_ext_call
              [ready [0; 1; 0; 0]; ready [0; 5; 17; 3]; ready [2]; ready [7; 8]]
              example_ctx (replicate 12 0) MSG_CONFIRMATION 4)
    as [r|] eqn:E; [|vm_compute in E; discriminate].
  assert (Hret : r_ret r = Ret 11)
    by (vm_compute in E; injection E as <-; reflexivity).
  destruct (successful_receive_has_header_and_no_repair
              2 example_meta_length example_data_length example_ext_call
              _ _ _ _ _ r 11 E Hret) as (_ & Hctx & _).
  exists r. repeat split; assumption.
Defined.

Lemma receive_without_link_flag_never_repairs_witness :
  exists r,
    _modbus_tcp_receive_msg 2 example_meta_length example_data_length
      example_ext_call
      [{| it_select := [select_ready 1]; it_recv := recv_error ECONNRESET |}]
      example_init (replicate 12 0) MSG_CONFIRMATION 4 = Some r
    /\ r_ret r = Fail ECONNRESET
    /\ r_ctx r = example_init
    /\ Forall (fun c => ~ is_ext_call c) (r_calls r).
Proof.
  destruct (_modbus_tcp_receive_msg 2 example_meta_length example_data_length
              example_ext_call
              [{| it_select := [select_ready 1];
                  it_recv := recv_error ECONNRESET |}]
              example_init (replicate 12 0) MSG_CONFIRMATION 4)
    as [r|] eqn:E; [|vm_compute in E; discriminate].
  assert (Hret : r_ret r = Fail ECONNRESET)
    by (vm_compute in E; injection E as <-; reflexivity).
  destruct (receive_without_link_flag_never_repairs
              2 example_meta_length example_data_length example_ext_call
              _ example_init _ _ _ r eq_refl E) as (Hctx & Hcalls).
  exists r. repeat split; assumption.
Defined.

Lemma confirmation_waits_are_bounded_witness :
  exists r,
    _modbus_tcp_receive_msg 2 example_meta_length example_data_length
      example_ext_call
      [ready [0; 1; 0; 0]; ready [0; 5; 17; 3]; ready [2]; ready [7; 8]]
      example_ctx (replicate 12 0) MSG_CONFIRMATION 4 = Some r
    /\ Forall wait_has_timeout (r_calls r).
Proof.
  destruct (_modbus_tcp_receive_msg 2 example_meta_length example_data_length
              example_ext_call
              [ready [0; 1; 0; 0]; ready [0; 5; 17; 3]; ready [2]; ready [7; 8]]
              example_ctx (replicate 12 0) MSG_CONFIRMATION 4)
    as [r|] eqn:E; [|vm_compute in E; discriminate].
  exists r. split; [reflexivity|].
  exact (confirmation_waits_are_bounded
           2 example_meta_length example_data_length example_ext_call
           _ _ _ _ r E).
Defined.

(** ** Closing, flushing, accepting, releasing *)

(** X10: after [_modbus_tcp_close] the context holds no socket; the socket
    it held, if any, was shut down and closed once, the descriptor -1 is
    never closed, and closing again does nothing. *)
Theorem tcp_close_is_idempotent (ctx : modbus_t) :
  let ctx' := fst (_modbus_tcp_close ctx) in
  let calls := snd (_modbus_tcp_close ctx) in
  s ctx' = -1
  /\ ctx' = set_s (-1) ctx
  /\ calls = (if decide (s ctx = -1) then []
              else [sys_shutdown (s ctx); sys_close (s ctx)])
  /\ closed (-1) calls = 0%nat
  /\ _modbus_tcp_close ctx' = (ctx', []).
Proof.
  unfold _modbus_tcp_close.
  destruct (Z.eqb_spec (s ctx) (-1)) as [E|N]; cbn [negb fst snd].
  - rewrite decide_True by exact E. rewrite E. cbn.
    repeat split; try assumption.
    destruct ctx; cbn in *; subst; reflexivity.
  - rewrite decide_False by exact N. cbn [set_s s].
    repeat split.
    unfold closed. cbn. destruct (Z.eqb_spec (s ctx) (-1)); [contradiction|].
    reflexivity.
Qed.

Lemma flush_loop_full_reads (k : nat) :
  forall (r : cret) (rest : list cret) (max s acc : Z) (errno : errno_t),
    0 < max ->
    rc_of r <> max ->
    flush_loop (replicate k (Ret max) ++ r :: rest) max s acc errno
    = Some (acc + Z.of_nat k * max + Z.max 0 (rc_of r), errno_after r errno,
            rest, replicate (S k) (sys_recv_dontwait s max)).
Proof.
  induction k as [|k IH]; intros r rest max s acc errno Hmax Hr.
  - cbn [replicate app flush_loop].
    destruct (Z.eqb_spec (rc_of r) max) as [E|_]; [contradiction|].
    destruct (Z.ltb_spec 0 (rc_of r)); do 4 f_equal; lia.
  - cbn [replicate app flush_loop rc_of errno_after].
    rewrite Z.eqb_refl.
    destruct (Z.ltb_spec 0 max) as [_|Hle]; [|lia].
    rewrite IH by assumption.
    do 4 f_equal. lia.
Qed.

(** X11: a flush that meets [k] full reads and then a read that is not
    full returns [k] times the maximum ADU length plus the size of the last
    read, or plus nothing when the last read failed or was empty: a failed
    [recv] is not reported, the count is never negative, and the rest of
    the stream is not read. *)
Theorem flush_counts_discarded_bytes (k : nat) (r : cret) (rest : list cret)
  (max : Z) (ctx : modbus_t) (errno : errno_t) :
  0 < max ->
  rc_of r <> max ->
  _modbus_tcp_flush (replicate k (Ret max) ++ r :: rest) max ctx errno
  = Some (Z.of_nat k * max + Z.max 0 (rc_of r), errno_after r errno, rest,
          replicate (S k) (sys_recv_dontwait (s ctx) max))
  /\ 0 <= Z.of_nat k * max + Z.max 0 (rc_of r).
Proof.
  intros Hmax Hr. split.
  - unfold _modbus_tcp_flush. rewrite flush_loop_full_reads by assumption.
    reflexivity.
  - nia.
Qed.

Lemma flush_counts_discarded_bytes_witness :
  _modbus_tcp_flush [Ret 260; Ret 260; Fail (Eother 11); Ret 5] 260
    example_ctx EINVAL
  = Some (520, Eother 11, [Ret 5], replicate 3 (sys_recv_dontwait 4 260)).
Proof.
  exact (proj1 (flush_counts_discarded_bytes 2 (Fail (Eother 11)) [Ret 5] 260
                  example_ctx EINVAL ltac:(lia) ltac:(simpl; lia))).
Defined.

(** X12: the two accept functions give the same result on every input.  An
    accepted connection is stored in the context and returned, the
    listening socket staying as it was; a failed accept returns -1, closes
    the listening socket once and sets the caller's descriptor to -1. *)
Theorem accept_variants_agree (accepted closed_ret : cret)
  (ctx : option modbus_t) (c : modbus_t) (sock : Z) (errno : errno_t) :
  modbus_tcp_pi_accept accepted closed_ret ctx sock errno
  = modbus_tcp_accept accepted closed_ret ctx sock errno
  /\ modbus_tcp_accept accepted closed_ret (Some c) sock errno
     = (if decide (rc_of accepted = -1)
        then (Some (set_s (-1) c), -1, -1,
              errno_after closed_ret (errno_after accepted errno),
              [sys_accept sock (-1); sys_close sock])
        else (Some (set_s (rc_of accepted) c), sock, rc_of accepted,
              errno_after accepted errno,
              [sys_accept sock (rc_of accepted)]))
  /\ modbus_tcp_accept accepted closed_ret None sock errno
     = (None, sock, -1, EINVAL, []).
Proof.
  split; [|split; [|reflexivity]].
  - unfold modbus_tcp_pi_accept, modbus_tcp_accept.
    destruct ctx as [c0|]; [|reflexivity]. cbn [set_s s].
    destruct (Z.eqb_spec (rc_of accepted) (-1)) as [E|N]; [|reflexivity].
    rewrite E. reflexivity.
  - unfold modbus_tcp_accept. cbn [set_s s].
    destruct (Z.eqb_spec (rc_of accepted) (-1)) as [E|N].
    + rewrite decide_True by exact E. rewrite E. reflexivity.
    + rewrite decide_False by exact N. reflexivity.
Qed.



(** ** Connecting and listening *)

Lemma opened_app (fd : Z) (a b : list syscall) :
  opened fd (a ++ b) = (opened fd a + opened fd b)%nat.
Proof. unfold opened. rewrite List.filter_app, length_app. reflexivity. Qed.

Lemma closed_app (fd : Z) (a b : list syscall) :
  closed fd (a ++ b) = (closed fd a + closed fd b)%nat.
Proof. unfold closed. rewrite List.filter_app, length_app. reflexivity. Qed.

Lemma opened_socket (fd fd' : Z) :
  opened fd [sys_socket fd'] = if fd' =? fd then 1%nat else 0%nat.
Proof. unfold opened. cbn. destruct (fd' =? fd); reflexivity. Qed.

Lemma closed_close (fd fd' : Z) :
  closed fd [sys_close fd'] = if fd' =? fd then 1%nat else 0%nat.
Proof. unfold closed. cbn. destruct (fd' =? fd); reflexivity. Qed.

(** The socket tuning and the connect neither open nor close a socket. *)
Lemma set_ipv4_options_neutral (env : ipv4_env) (s : Z) (errno : errno_t)
  (fd : Z) :
  opened fd (snd (_modbus_tcp_set_ipv4_options env s errno)) = 0%nat
  /\ closed fd (snd (_modbus_tcp_set_ipv4_options env s errno)) = 0%nat.
Proof.
  unfold _modbus_tcp_set_ipv4_options.
  destruct (rc_of (oe_nodelay env) =? -1); [split; reflexivity|].
  destruct (rc_of (oe_tos env) =? -1); split; reflexivity.
Qed.

Lemma connect_neutral (env : connect_env) (sockfd : Z) (addr : sockaddr)
  (tv : timeval) (errno : errno_t) (fd : Z) :
  opened fd (snd (_connect env sockfd addr tv errno)) = 0%nat
  /\ closed fd (snd (_connect env sockfd addr tv errno)) = 0%nat.
Proof.
  unfold _connect.
  destruct ((rc_of (ce_connect env) =? -1) && _); [|split; reflexivity].
  destruct (rc_of (ce_select env) <=? 0); [split; reflexivity|].
  destruct ((rc_of (ce_getsockopt env) =? 0) && _); split; reflexivity.
Qed.

Lemma connect_uses_addr (env : connect_env) (sockfd : Z) (addr : sockaddr)
  (tv : timeval) (errno : errno_t) :
  Forall (uses_addr addr) (snd (_connect env sockfd addr tv errno)).
Proof.
  unfold _connect.
  destruct ((rc_of (ce_connect env) =? -1) && _); [|repeat constructor].
  destruct (rc_of (ce_select env) <=? 0); [repeat constructor|].
  destruct ((rc_of (ce_getsockopt env) =? 0) && _); repeat constructor.
Qed.

Lemma set_ipv4_options_uses_addr (a : sockaddr) (env : ipv4_env) (s : Z)
  (errno : errno_t) :
  Forall (uses_addr a) (snd (_modbus_tcp_set_ipv4_options env s errno)).
Proof.
  unfold _modbus_tcp_set_ipv4_options.
  destruct (rc_of (oe_nodelay env) =? -1); [repeat constructor|].
  destruct (rc_of (oe_tos env) =? -1); repeat constructor.
Qed.

Lemma set_s_set_s (a b : Z) (ctx : modbus_t) :
  set_s a (set_s b ctx) = set_s a ctx.
Proof. reflexivity. Qed.

Lemma set_s_same (ctx : modbus_t) : set_s (s ctx) ctx = ctx.
Proof. destruct ctx; reflexivity. Qed.

Lemma set_response_timeout_same (ctx : modbus_t) :
  set_response_timeout (response_timeout ctx) ctx = ctx.
Proof. destruct ctx; reflexivity. Qed.

Lemma connect_timeval (env : connect_env) (sockfd : Z) (addr : sockaddr)
  (tv : timeval) (errno : errno_t) :
  snd (fst (_connect env sockfd addr tv errno)) = tv
  \/ snd (fst (_connect env sockfd addr tv errno)) = ce_timeleft env.
Proof.
  unfold _connect.
  destruct ((rc_of (ce_connect env) =? -1) && _); [|left; reflexivity].
  destruct (rc_of (ce_select env) <=? 0); [right; reflexivity|].
  destruct ((rc_of (ce_getsockopt env) =? 0) && _); right; reflexivity.
Qed.

(** X14: an address-based connect returns 0 or -1.  On 0 the context holds
    the socket just created and that socket is the only one left open; on
    -1 the context holds -1 and the socket, if one was created, was closed
    again.  Of the context only the socket and the response timeout can
    change, the timeout to what [select] left in it; every connect is made
    to the address [inet_addr] gives for the string of the parameter block
    and to the low 16 bits of its port. *)
Theorem tcp_connect_leaves_no_socket_open (env : tcp_connect_env)
  (h : gmap loc backend_data_t) (ctx : modbus_t) (errno : errno_t)
  (d : modbus_tcp_t) :
  h !! backend_data ctx = Some (tcp_data d) ->
  exists ctx' rc errno' calls,
    _modbus_tcp_connect env h ctx errno = Some (ctx', rc, errno', calls)
    /\ (rc = 0 \/ rc = -1)
    /\ same_but_socket_and_timeout ctx ctx'
    /\ (response_timeout ctx' = response_timeout ctx
        \/ response_timeout ctx' = ce_timeleft (te_connect env))
    /\ (rc = -1 -> s ctx' = -1)
    /\ (rc = 0 -> s ctx' = rc_of (te_socket env) /\ s ctx' <> -1)
    /\ (forall fd, fd <> -1 ->
          opened fd calls
          = (closed fd calls
             + if decide (rc = 0 /\ fd = s ctx')%Z then 1 else 0)%nat)
    /\ Forall (uses_addr (sockaddr_in (port d mod 65536) (inet_addr (ip d))))
              calls.
Proof.
  intros Hd. change (port d mod 65536) with (htons (port d)).
  unfold _modbus_tcp_connect, same_but_socket_and_timeout.
  rewrite Hd. cbn [set_s s].
  set (addr := sockaddr_in (htons (port d)) (inet_addr (ip d))).
  set (fd0 := rc_of (te_socket env)).
  assert (Hsame : forall a, set_s a ctx
                   = set_s a (set_response_timeout (response_timeout ctx) ctx))
    by (intros a; destruct ctx; reflexivity).
  destruct (Z.eqb_spec fd0 (-1)) as [E|N].
  { eexists _, _, _, _. split; [reflexivity|].
    cbn [s set_s response_timeout].
    split; [right; reflexivity|]. split; [apply Hsame|].
    split; [left; reflexivity|]. split; [intros _; exact E|].
    split; [intros; lia|]. split; [|repeat constructor].
    intros fd Hfd. rewrite opened_socket.
    destruct (Z.eqb_spec fd0 fd); [lia|].
    rewrite decide_False by lia. reflexivity. }
  pose proof (set_ipv4_options_neutral (te_options env) fd0
                (errno_after (te_socket env) errno)) as Hopt.
  pose proof (set_ipv4_options_uses_addr addr
                (te_options env) fd0 (errno_after (te_socket env) errno))
    as Hopt_addr.
  destruct (_modbus_tcp_set_ipv4_options (te_options env) fd0
              (errno_after (te_socket env) errno)) as [[rc1 e1] calls1].
  cbn [snd] in Hopt, Hopt_addr.
  destruct (Z.eqb_spec rc1 (-1)) as [E1|N1].
  { eexists _, _, _, _. split; [reflexivity|].
    cbn [s set_s response_timeout].
    split; [right; reflexivity|]. split; [apply Hsame|].
    split; [left; reflexivity|]. split; [intros _; reflexivity|].
    split; [intros; lia|]. split.
    - intros fd Hfd. destruct (Hopt fd) as [Ho Hc].
      rewrite !opened_app, !closed_app, Ho, Hc, opened_socket, closed_close.
      rewrite decide_False by lia.
      unfold opened, closed. cbn. destruct (fd0 =? fd); reflexivity.
    - rewrite !Forall_app. repeat split; try assumption; repeat constructor. }
  change (response_timeout (set_s fd0 ctx)) with (response_timeout ctx).
  pose proof (connect_neutral (te_connect env) fd0 addr
                (response_timeout ctx) e1) as Hcon.
  pose proof (connect_uses_addr (te_connect env) fd0 addr
                (response_timeout ctx) e1) as Hcon_addr.
  pose proof (connect_timeval (te_connect env) fd0 addr
                (response_timeout ctx) e1) as Hcon_tv.
  destruct (_connect (te_connect env) fd0 addr
              (response_timeout ctx) e1) as [[[rc2 e2] tv2] calls2].
  cbn [fst snd] in Hcon, Hcon_addr, Hcon_tv.
  destruct (Z.eqb_spec rc2 (-1)) as [E2|N2].
  - eexists _, _, _, _. split; [reflexivity|].
    cbn [s set_s set_response_timeout response_timeout].
    split; [right; reflexivity|]. split; [reflexivity|].
    split; [exact Hcon_tv|]. split; [intros _; reflexivity|].
    split; [intros; lia|]. split.
    + intros fd Hfd. destruct (Hopt fd) as [Ho Hc].
      destruct (Hcon fd) as [Ho2 Hc2].
      rewrite !opened_app, !closed_app, Ho, Hc, Ho2, Hc2, opened_socket,
        closed_close.
      rewrite decide_False by lia.
      unfold opened, closed. cbn. destruct (fd0 =? fd); reflexivity.
    + rewrite !Forall_app. repeat split; try assumption; repeat constructor.
  - eexists _, _, _, _. split; [reflexivity|].
    cbn [s set_s set_response_timeout response_timeout].
    split; [left; reflexivity|]. split; [reflexivity|].
    split; [exact Hcon_tv|]. split; [intros; lia|].
    split; [intros _; split; [reflexivity|exact N]|]. split.
    + intros fd Hfd. destruct (Hopt fd) as [Ho Hc].
      destruct (Hcon fd) as [Ho2 Hc2].
      rewrite !opened_app, !closed_app, Ho, Hc, Ho2, Hc2, opened_socket.
      unfold closed. cbn.
      destruct (Z.eqb_spec fd0 fd).
      * rewrite decide_True by (split; congruence). reflexivity.
      * rewrite decide_False by (intros [_ ?]; congruence). reflexivity.
    + rewrite !Forall_app. repeat split; try assumption; repeat constructor.
Qed.

Lemma tcp_connect_leaves_no_socket_open_witness :
  exists ctx' errno' calls,
    _modbus_tcp_connect
      {| te_socket := Ret 5;
         te_options := {| oe_nodelay := Ret 0; oe_tos := Ret 0 |};
         te_connect := {| ce_connect := Fail EINPROGRESS; ce_select := Ret 1;
                          ce_timeleft := {| tv_sec := 0; tv_usec := 120000 |};
                          ce_getsockopt := Ret 0; ce_optval := 0 |};
         te_close := Ret 0 |}
      example_heap_port_70000 example_ctx EINVAL
    = Some (ctx', 0, errno', calls)
    /\ s ctx' = 5
    /\ opened 5 calls = 1%nat
    /\ calls !! 3%nat
       = Some (sys_connect 5 (sockaddr_in 4464 (inet_addr "127.0.0.1")))
    /\ Forall (uses_addr (sockaddr_in 4464 (inet_addr "127.0.0.1"))) calls.
Proof.
  destruct (tcp_connect_leaves_no_socket_open
              {| te_socket := Ret 5;
                 te_options := {| oe_nodelay := Ret 0; oe_tos := Ret 0 |};
                 te_connect := {| ce_connect := Fail EINPROGRESS;
                                  ce_select := Ret 1;
                                  ce_timeleft :=
                                    {| tv_sec := 0; tv_usec := 120000 |};
                                  ce_getsockopt := Ret 0; ce_optval := 0 |};
                 te_close := Ret 0 |}
              example_heap_port_70000 example_ctx EINVAL
              {| t_id := 0; port := 70000; ip := "127.0.0.1" |} eq_refl)
    as (ctx' & rc & errno' & calls & E & _ & _ & _ & _ & Hok & Hbal & Haddr).
  assert (Hrc : rc = 0) by (vm_compute in E; congruence).
  subst rc. destruct (Hok eq_refl) as [Hs _]. cbn in Hs.
  exists ctx', errno', calls. split; [exact E|]. split; [exact Hs|].
  split; [|split; [|exact Haddr]].
  - rewrite (Hbal 5 ltac:(lia)).
    rewrite decide_True by (split; [reflexivity|congruence]).
    vm_compute in E. injection E as <- <- <-. reflexivity.
  - vm_compute in E. injection E as <- <- <-. reflexivity.
Defined.

(** The loop over the candidates changes only the socket and the response
    timeout of the context.  Either the socket is as before and every
    socket opened was closed, or it is a new one, the only one left open. *)
Lemma pi_connect_loop_balance (ai_list : list candidate) :
  forall (idx : nat) (ctx : modbus_t) (errno : errno_t),
    let ctx' := fst (fst (pi_connect_loop ai_list idx ctx errno)) in
    let calls := snd (pi_connect_loop ai_list idx ctx errno) in
    same_but_socket_and_timeout ctx ctx'
    /\ ((s ctx' = s ctx
         /\ forall fd, 0 <= fd -> opened fd calls = closed fd calls)
        \/ (exists fd0, 0 <= fd0 /\ s ctx' = fd0
            /\ forall fd, 0 <= fd ->
                 opened fd calls
                 = (closed fd calls + if decide (fd = fd0) then 1 else 0)%nat)).
Proof.
  unfold same_but_socket_and_timeout.
  induction ai_list as [|ai ai_list IH]; intros idx ctx errno.
  - cbn. split; [destruct ctx; reflexivity|].
    left. split; [reflexivity|]. intros fd _. reflexivity.
  - cbn [pi_connect_loop].
    set (fd1 := rc_of (ca_socket ai)).
    set (e1 := errno_after (ca_socket ai) errno).
    destruct (Z.ltb_spec fd1 0) as [Hneg|Hpos].
    { specialize (IH (S idx) ctx e1).
      destruct (pi_connect_loop ai_list (S idx) ctx e1) as [[c e] cs].
      cbn [fst snd] in *.
      assert (Hhd : forall fd, 0 <= fd ->
                opened fd (sys_socket fd1 :: cs) = opened fd cs
                /\ closed fd (sys_socket fd1 :: cs) = closed fd cs).
      { intros fd Hfd. unfold opened, closed. cbn.
        destruct (Z.eqb_spec fd1 fd); [lia|]. split; reflexivity. }
      destruct IH as [Hsame [[Hs Hb]|(fd0 & H0 & Hs & Hb)]].
      - split; [exact Hsame|]. left. split; [exact Hs|]. intros fd Hfd.
        destruct (Hhd fd Hfd) as [-> ->]. apply Hb. exact Hfd.
      - split; [exact Hsame|]. right. exists fd0.
        repeat split; try assumption.
        intros fd Hfd. destruct (Hhd fd Hfd) as [-> ->]. apply Hb. exact Hfd. }
    set (opt := if ai_inet ai
                then let '(_, errno0, calls1) :=
                       _modbus_tcp_set_ipv4_options (ca_options ai) fd1 e1 in
                     (errno0, calls1)
                else (e1, [])).
    assert (Hopt : forall fd, opened fd (snd opt) = 0%nat
                              /\ closed fd (snd opt) = 0%nat).
    { intros fd. unfold opt. destruct (ai_inet ai); [|split; reflexivity].
      pose proof (set_ipv4_options_neutral (ca_options ai) fd1 e1 fd) as H.
      destruct (_modbus_tcp_set_ipv4_options (ca_options ai) fd1 e1)
        as [[rc e] cs]. exact H. }
    destruct opt as [e2 calls1]. cbn [snd] in Hopt.
    pose proof (connect_neutral (ca_connect ai) fd1 (addr_info idx)
                  (response_timeout ctx) e2) as Hcon.
    destruct (_connect (ca_connect ai) fd1 (addr_info idx)
                (response_timeout ctx) e2) as [[[rc e3] tv3] calls2].
    cbn [snd] in Hcon.
    destruct (Z.eqb_spec rc (-1)) as [Hfail|Hok].
    + specialize (IH (S idx) (set_response_timeout tv3 ctx)
                     (errno_after (ca_close ai) e3)).
      destruct (pi_connect_loop ai_list (S idx) (set_response_timeout tv3 ctx)
                  (errno_after (ca_close ai) e3)) as [[c e] cs].
      cbn [fst snd] in *.
      assert (Hhd : forall fd, 0 <= fd ->
                (opened fd (sys_socket fd1 :: calls1 ++ calls2
                            ++ sys_close fd1 :: cs)
                 = (if (fd1 =? fd)%Z then 1 else 0) + opened fd cs)%nat
                /\ (closed fd (sys_socket fd1 :: calls1 ++ calls2
                               ++ sys_close fd1 :: cs)
                    = (if (fd1 =? fd)%Z then 1 else 0) + closed fd cs)%nat).
      { intros fd Hfd. destruct (Hopt fd) as [Ho Hc].
        destruct (Hcon fd) as [Ho2 Hc2].
        change (sys_socket fd1 :: calls1 ++ calls2 ++ sys_close fd1 :: cs)
          with ([sys_socket fd1] ++ calls1 ++ calls2
                ++ [sys_close fd1] ++ cs).
        rewrite !opened_app, !closed_app, Ho, Hc, Ho2, Hc2, opened_socket,
          closed_close.
        unfold opened at 1, closed at 1. cbn. split; lia. }
      destruct IH as [Hsame [[Hs Hb]|(fd0 & H0 & Hs & Hb)]].
      * split; [exact Hsame|]. left. split; [exact Hs|]. intros fd Hfd.
        destruct (Hhd fd Hfd) as [-> ->]. rewrite (Hb fd Hfd). reflexivity.
      * split; [exact Hsame|]. right. exists fd0.
        repeat split; try assumption.
        intros fd Hfd. destruct (Hhd fd Hfd) as [-> ->].
        rewrite (Hb fd Hfd). lia.
    + cbn [fst snd]. split; [reflexivity|]. right. exists fd1.
      split; [lia|]. split; [reflexivity|].
      intros fd Hfd. destruct (Hopt fd) as [Ho Hc].
      destruct (Hcon fd) as [Ho2 Hc2].
      change (sys_socket fd1 :: calls1 ++ calls2)
        with ([sys_socket fd1] ++ calls1 ++ calls2).
      rewrite !opened_app, !closed_app, Ho, Hc, Ho2, Hc2, opened_socket.
      unfold closed. cbn.
      destruct (Z.eqb_spec fd1 fd).
      * rewrite decide_True by congruence. reflexivity.
      * rewrite decide_False by congruence. reflexivity.
Qed.

(** X15: a name/service connect returns 0 or -1, and 0 exactly when the
    resolution succeeded and the context holds a socket afterwards.  A
    failed resolution is reported as ECONNREFUSED with the context
    untouched; after a successful one the candidate list is released last.
    Of the context only the socket and the response timeout can change.
    Either the socket of the context is as before and every socket opened
    was closed, or the context holds one new socket, the only one left
    open. *)
Theorem tcp_pi_connect_leaves_no_socket_open (gai : Z)
  (ai_list : list candidate) (h : gmap loc backend_data_t) (ctx : modbus_t)
  (errno : errno_t) (d : modbus_tcp_pi_t) :
  h !! backend_data ctx = Some (tcp_pi_data d) ->
  exists ctx' rc errno' calls,
    _modbus_tcp_pi_connect gai ai_list h ctx errno
      = Some (ctx', rc, errno', calls)
    /\ (rc = 0 \/ rc = -1)
    /\ (rc = 0 <-> gai = 0 /\ 0 <= s ctx')
    /\ (gai <> 0 ->
        ctx' = ctx /\ errno' = ECONNREFUSED
        /\ calls = [sys_getaddrinfo (Some (node d)) (service d) false])
    /\ (gai = 0 -> last calls = Some sys_freeaddrinfo)
    /\ same_but_socket_and_timeout ctx ctx'
    /\ ((s ctx' = s ctx
         /\ forall fd, 0 <= fd -> opened fd calls = closed fd calls)
        \/ (exists fd0, 0 <= fd0 /\ s ctx' = fd0 /\ rc = 0
            /\ forall fd, 0 <= fd ->
                 opened fd calls
                 = (closed fd calls + if decide (fd = fd0) then 1 else 0)%nat)).
Proof.
  intros Hd. unfold _modbus_tcp_pi_connect. rewrite Hd.
  destruct (Z.eqb_spec gai 0) as [Hg|Hg]; cbn [negb].
  2:{ eexists _, _, _, _. split; [reflexivity|].
      split; [right; reflexivity|]. split; [split; [lia|intros [? _]; lia]|].
      split; [intros _; repeat split|]. split; [intros; contradiction|].
      split; [unfold same_but_socket_and_timeout; destruct ctx; reflexivity|].
      left. split; [reflexivity|]. intros fd _. reflexivity. }
  pose proof (pi_connect_loop_balance ai_list 0 ctx errno) as Hb.
  destruct (pi_connect_loop ai_list 0 ctx errno) as [[c e] cs].
  cbn [fst snd] in Hb. destruct Hb as [Hsame Hb].
  assert (Hcalls : forall fd,
             opened fd (sys_getaddrinfo (Some (node d)) (service d) false
                        :: cs ++ [sys_freeaddrinfo]) = opened fd cs
             /\ closed fd (sys_getaddrinfo (Some (node d)) (service d) false
                           :: cs ++ [sys_freeaddrinfo]) = closed fd cs).
  { intros fd.
    change (sys_getaddrinfo (Some (node d)) (service d) false
            :: cs ++ [sys_freeaddrinfo])
      with ([sys_getaddrinfo (Some (node d)) (service d) false]
            ++ cs ++ [sys_freeaddrinfo]).
    rewrite !opened_app, !closed_app. unfold opened, closed. cbn.
    split; lia. }
  assert (Hlast : last (sys_getaddrinfo (Some (node d)) (service d) false
                        :: cs ++ [sys_freeaddrinfo]) = Some sys_freeaddrinfo).
  { change (sys_getaddrinfo (Some (node d)) (service d) false
            :: cs ++ [sys_freeaddrinfo])
      with ((sys_getaddrinfo (Some (node d)) (service d) false :: cs)
            ++ [sys_freeaddrinfo]).
    apply last_snoc. }
  destruct (Z.ltb_spec (s c) 0) as [Hneg|Hpos].
  - eexists _, _, _, _. split; [reflexivity|].
    split; [right; reflexivity|]. split; [split; [lia|intros [_ ?]; lia]|].
    split; [intros; contradiction|]. split; [intros _; exact Hlast|].
    split; [exact Hsame|].
    destruct Hb as [[Hs Hbal]|(fd0 & H0 & Hs & Hbal)]; [|lia].
    left. split; [exact Hs|]. intros fd Hfd.
    destruct (Hcalls fd) as [-> ->]. apply Hbal. exact Hfd.
  - eexists _, _, _, _. split; [reflexivity|].
    split; [left; reflexivity|]. split; [split; [intros _; split; lia|reflexivity]|].
    split; [intros; contradiction|]. split; [intros _; exact Hlast|].
    split; [exact Hsame|].
    destruct Hb as [[Hs Hbal]|(fd0 & H0 & Hs & Hbal)].
    + left. split; [exact Hs|]. intros fd Hfd.
      destruct (Hcalls fd) as [-> ->]. apply Hbal. exact Hfd.
    + right. exists fd0. repeat split; try assumption.
      intros fd Hfd. destruct (Hcalls fd) as [-> ->]. apply Hbal. exact Hfd.
Qed.

Lemma set_response_timeout_twice (a b : timeval) (ctx : modbus_t) :
  set_response_timeout a (set_response_timeout b ctx)
  = set_response_timeout a ctx.
Proof. reflexivity. Qed.

(** A [connect] that fails and does not complete returns -1; one that
    succeeds at once or completes returns another value.  In both cases
    the timeout is what [select] left when there was a wait. *)
Lemma connect_refused (env : connect_env) (sockfd : Z) (addr : sockaddr)
  (tv : timeval) (errno e : errno_t) :
  ce_connect env = Fail e ->
  (e = EINPROGRESS -> ~ completes env) ->
  exists e' cs,
    _connect env sockfd addr tv errno
    = (-1, e',
       if bool_decide (ce_connect env = Fail EINPROGRESS)
       then ce_timeleft env else tv,
       cs).
Proof.
  intros Hc Hno. unfold _connect. rewrite Hc. cbn [rc_of errno_after].
  change (-1 =? -1) with true. cbn [andb].
  destruct (decide (e = EINPROGRESS)) as [->|Hne].
  - rewrite !bool_decide_eq_true_2 by reflexivity.
    destruct (Z.leb_spec (rc_of (ce_select env)) 0) as [Hle|Hgt];
      [eexists _, _; reflexivity|].
    destruct (Z.eqb_spec (rc_of (ce_getsockopt env)) 0) as [Eg|Ng];
      [|eexists _, _; reflexivity].
    destruct (Z.eqb_spec (ce_optval env) 0) as [Eo|No];
      [|eexists _, _; reflexivity].
    exfalso. apply (Hno eq_refl). repeat split; assumption.
  - rewrite !bool_decide_eq_false_2 by congruence.
    eexists _, _. reflexivity.
Qed.

Lemma connect_accepted (env : connect_env) (sockfd : Z) (addr : sockaddr)
  (tv : timeval) (errno : errno_t) :
  (exists v, ce_connect env = Ret v /\ v <> -1)
  \/ (ce_connect env = Fail EINPROGRESS /\ completes env) ->
  exists rc e' cs,
    _connect env sockfd addr tv errno
    = (rc, e',
       if bool_decide (ce_connect env = Fail EINPROGRESS)
       then ce_timeleft env else tv,
       cs)
    /\ rc <> -1 /\ sys_connect sockfd addr ∈ cs.
Proof.
  intros [(v & Hc & Hv)|(Hc & Hsel & Hget & Hopt)]; unfold _connect;
    rewrite Hc; cbn [rc_of errno_after].
  - destruct (Z.eqb_spec v (-1)) as [|_]; [contradiction|]. cbn [andb].
    rewrite bool_decide_eq_false_2 by discriminate.
    eexists _, _, _. split; [reflexivity|]. split; [exact Hv|].
    apply list_elem_of_In. left. reflexivity.
  - change (-1 =? -1) with true. cbn [andb].
    rewrite !bool_decide_eq_true_2 by reflexivity.
    destruct (Z.leb_spec (rc_of (ce_select env)) 0) as [Hle|_]; [lia|].
    rewrite Hget, Hopt. cbn [Z.eqb andb].
    eexists _, _, _. split; [reflexivity|]. split; [discriminate|].
    apply list_elem_of_In. left. reflexivity.
Qed.

(** Candidates that refuse are passed over: the loop goes on with the next
    one, the context changed in its response timeout only. *)
Lemma pi_connect_loop_skips_refused (failing : list candidate) :
  Forall refuses failing ->
  forall (idx : nat) (ctx : modbus_t) (errno : errno_t),
  exists e cs,
    forall rest,
      let ctx1 :=
        set_response_timeout
          (foldl timeout_after (response_timeout ctx) failing) ctx in
      pi_connect_loop (failing ++ rest) idx ctx errno
      = (fst (fst (pi_connect_loop rest (length failing + idx) ctx1 e)),
         snd (fst (pi_connect_loop rest (length failing + idx) ctx1 e)),
         cs ++ snd (pi_connect_loop rest (length failing + idx) ctx1 e)).
Proof.
  induction 1 as [|ai failing Hai _ IH]; intros idx ctx errno.
  - exists errno, []. intros rest. cbn.
    rewrite set_response_timeout_same.
    destruct (pi_connect_loop rest idx ctx errno) as [[c e] cs]. reflexivity.
  - cbn [foldl].
    destruct (Z.ltb_spec (rc_of (ca_socket ai)) 0) as [Hneg|Hpos].
    + assert (Hta : timeout_after (response_timeout ctx) ai
                    = response_timeout ctx).
      { unfold timeout_after, waited.
        destruct (Z.leb_spec 0 (rc_of (ca_socket ai))) as [?|_]; [lia|].
        reflexivity. }
      rewrite Hta.
      destruct (IH (S idx) ctx (errno_after (ca_socket ai) errno))
        as (e' & cs & Hrest).
      exists e', (sys_socket (rc_of (ca_socket ai)) :: cs). intros rest.
      cbn [app pi_connect_loop length].
      destruct (Z.ltb_spec (rc_of (ca_socket ai)) 0) as [_|?]; [|lia].
      cbv zeta in Hrest. rewrite Hrest.
      replace (length failing + S idx)%nat
        with (S (length failing) + idx)%nat by lia.
      reflexivity.
    + destruct Hai as [Hlt|(e & Hc & Hno)]; [lia|].
      set (fd := rc_of (ca_socket ai)) in *.
      set (tv := if bool_decide (ce_connect (ca_connect ai)
                                 = Fail EINPROGRESS)
                 then ce_timeleft (ca_connect ai)
                 else response_timeout ctx).
      assert (Hta : timeout_after (response_timeout ctx) ai = tv).
      { unfold timeout_after, waited. fold fd.
        destruct (Z.leb_spec 0 fd) as [_|?]; [|lia]. reflexivity. }
      rewrite Hta.
      set (opt := if ai_inet ai
                  then let '(_, errno0, calls1) :=
                         _modbus_tcp_set_ipv4_options (ca_options ai) fd
                           (errno_after (ca_socket ai) errno)
                       in (errno0, calls1)
                  else (errno_after (ca_socket ai) errno, [])).
      destruct (connect_refused (ca_connect ai) fd (addr_info idx)
                  (response_timeout ctx) (fst opt) e Hc Hno)
        as (e2 & cs2 & Econ).
      fold tv in Econ.
      destruct (IH (S idx) (set_response_timeout tv ctx)
                  (errno_after (ca_close ai) e2)) as (e' & cs & Hrest).
      exists e', (sys_socket fd :: snd opt ++ cs2 ++ sys_close fd :: cs).
      intros rest.
      cbn [app pi_connect_loop length]. fold fd.
      destruct (Z.ltb_spec fd 0) as [?|_]; [lia|].
      fold opt. destruct opt as [e1 calls1]. cbn [fst snd] in *.
      rewrite Econ. change (-1 =? -1) with true. cbv iota.
      cbv zeta in Hrest. rewrite Hrest.
      change (response_timeout (set_response_timeout tv ctx)) with tv.
      rewrite set_response_timeout_twice.
      replace (length failing + S idx)%nat
        with (S (length failing) + idx)%nat by lia.
      cbn [fst snd]. rewrite <- !app_assoc. reflexivity.
Qed.

(** An accepting candidate ends the loop: its socket goes into the
    context, and the candidates after it are not looked at. *)
Lemma pi_connect_loop_takes_accepting (good : candidate) (fd0 : Z) :
  accepts fd0 good ->
  forall (idx : nat) (ctx : modbus_t) (errno : errno_t),
  exists e cs,
    sys_connect fd0 (addr_info idx) ∈ cs
    /\ forall rest,
         pi_connect_loop (good :: rest) idx ctx errno
         = (set_s fd0 (set_response_timeout
                         (timeout_after (response_timeout ctx) good) ctx),
            e, cs).
Proof.
  intros (Hs & Hfd & Hc) idx ctx errno.
  set (opt := if ai_inet good
              then let '(_, errno0, calls1) :=
                     _modbus_tcp_set_ipv4_options (ca_options good) fd0
                       (errno_after (ca_socket good) errno)
                   in (errno0, calls1)
              else (errno_after (ca_socket good) errno, [])).
  destruct (connect_accepted (ca_connect good) fd0 (addr_info idx)
              (response_timeout ctx) (fst opt) Hc)
    as (rc & e2 & cs2 & Econ & Hrc & Hin).
  exists e2, (sys_socket fd0 :: snd opt ++ cs2). split.
  - apply list_elem_of_In. right. apply in_or_app. right.
    apply list_elem_of_In. exact Hin.
  - intros rest. cbn [pi_connect_loop]. rewrite Hs.
    destruct (Z.ltb_spec fd0 0) as [?|_]; [lia|].
    fold opt. destruct opt as [e1 calls1]. cbn [fst snd] in *.
    rewrite Econ. destruct (Z.eqb_spec rc (-1)) as [|_]; [contradiction|].
    unfold timeout_after, waited. rewrite Hs.
    destruct (Z.leb_spec 0 fd0) as [_|?]; [|lia]. reflexivity.
Qed.

(** X16: when the candidates before the first accepting one all refuse (at
    once or after a connection in progress), the connect returns 0 with the
    socket of the accepting candidate in the context, connected to that
    candidate's address; the response timeout is what the waits of the
    candidates tried left of it, and the candidates after the accepting one
    have no influence on the result. *)
Theorem tcp_pi_connect_takes_first_accepting_candidate
  (failing rest : list candidate) (good : candidate) (fd0 : Z)
  (h : gmap loc backend_data_t) (ctx : modbus_t) (errno : errno_t)
  (d : modbus_tcp_pi_t) :
  h !! backend_data ctx = Some (tcp_pi_data d) ->
  Forall refuses failing ->
  accepts fd0 good ->
  exists errno' calls,
    let tv := foldl timeout_after (response_timeout ctx)
                    (failing ++ [good]) in
    _modbus_tcp_pi_connect 0 (failing ++ good :: rest) h ctx errno
      = Some (set_s fd0 (set_response_timeout tv ctx), 0, errno', calls)
    /\ _modbus_tcp_pi_connect 0 (failing ++ [good]) h ctx errno
       = Some (set_s fd0 (set_response_timeout tv ctx), 0, errno', calls)
    /\ sys_connect fd0 (addr_info (length failing)) ∈ calls.
Proof.
  intros Hd Hfail Hgood.
  destruct (pi_connect_loop_skips_refused failing Hfail 0%nat ctx errno)
    as (e & cs & Hskip). cbv zeta in Hskip.
  set (ctx1 := set_response_timeout
                 (foldl timeout_after (response_timeout ctx) failing) ctx)
    in *.
  destruct (pi_connect_loop_takes_accepting good fd0 Hgood
              (length failing + 0) ctx1 e) as (e' & cs' & Hin & Etake).
  assert (Hfd : 0 <= fd0) by (destruct Hgood as (_ & ? & _); assumption).
  unfold _modbus_tcp_pi_connect. rewrite Hd. cbn [Z.eqb negb].
  rewrite !Hskip, !Etake. cbn [fst snd set_s s].
  destruct (Z.ltb_spec fd0 0) as [?|_]; [lia|].
  rewrite foldl_app. cbn [foldl].
  change (response_timeout ctx1)
    with (foldl timeout_after (response_timeout ctx) failing).
  unfold ctx1. rewrite set_response_timeout_twice.
  eexists _, _. split; [reflexivity|]. split; [reflexivity|].
  rewrite Nat.add_0_r in Hin.
  apply list_elem_of_In. right. apply in_or_app. left. apply in_or_app.
  right. apply list_elem_of_In. exact Hin.
Qed.

Lemma tcp_pi_connect_leaves_no_socket_open_witness :
  exists errno' calls,
    _modbus_tcp_pi_connect 0 [example_refusing; example_accepting]
      example_pi_heap (set_s (-1) example_ctx) EINVAL
    = Some (set_s 5 example_ctx, 0, errno', calls)
    /\ opened 5 calls = 2%nat /\ closed 5 calls = 1%nat.
Proof.
  destruct (tcp_pi_connect_leaves_no_socket_open 0
              [example_refusing; example_accepting] example_pi_heap
              (set_s (-1) example_ctx) EINVAL
              {| pi_t_id := 0; node := "plc.example"; service := "1502" |}
              eq_refl)
    as (ctx' & rc & errno' & calls & E & _).
  vm_compute in E. injection E as <- <- <- <-.
  eexists _, _. split; [reflexivity|]. split; reflexivity.
Defined.

Lemma tcp_pi_connect_takes_first_accepting_candidate_witness :
  exists errno' calls,
    _modbus_tcp_pi_connect 0
      [example_refusing_late; example_refusing; example_accepting_late;
       example_refusing]
      example_pi_heap (set_s (-1) example_ctx) EINVAL
    = Some (set_s 6 (set_response_timeout
                       {| tv_sec := 0; tv_usec := 120000 |}
                       (set_s (-1) example_ctx)),
            0, errno', calls)
    /\ sys_connect 6 (addr_info 2) ∈ calls.
Proof.
  destruct (tcp_pi_connect_takes_first_accepting_candidate
              [example_refusing_late; example_refusing] [example_refusing]
              example_accepting_late 6
              example_pi_heap (set_s (-1) example_ctx) EINVAL
              {| pi_t_id := 0; node := "plc.example"; service := "1502" |}
              eq_refl
              ltac:(constructor;
                    [right; exists EINPROGRESS; split;
                     [reflexivity|intros _ (_ & _ & H); discriminate H]
                    |constructor;
                     [right; exists ECONNREFUSED; split;
                      [reflexivity|discriminate]
                     |constructor]])
              ltac:(split; [reflexivity|]; split; [lia|]; right;
                    split; [reflexivity|];
                    repeat split; simpl; lia))
    as (errno' & calls & E & _ & Hin).
  exists errno', calls. split; assumption.
Defined.

(** X17: when the context already holds a socket (a descriptor that is not
    negative) and every candidate refuses, at once or after a connection in
    progress, the name/service connect still returns 0 and leaves the old
    socket in the context: the loop sets the socket only on success and the
    final test reads what the context holds.  Nothing but the response
    timeout of the context has changed. *)
Theorem tcp_pi_connect_keeps_stale_socket (ai_list : list candidate)
  (h : gmap loc backend_data_t) (ctx : modbus_t) (errno : errno_t)
  (d : modbus_tcp_pi_t) :
  h !! backend_data ctx = Some (tcp_pi_data d) ->
  0 <= s ctx ->
  Forall refuses ai_list ->
  exists ctx' errno' calls,
    _modbus_tcp_pi_connect 0 ai_list h ctx errno
    = Some (ctx', 0, errno', calls)
    /\ s ctx' = s ctx
    /\ ctx' = set_response_timeout
                (foldl timeout_after (response_timeout ctx) ai_list) ctx.
Proof.
  intros Hd Hs Hall.
  destruct (pi_connect_loop_skips_refused ai_list Hall 0%nat ctx errno)
    as (e & cs & Hskip).
  specialize (Hskip []). rewrite app_nil_r in Hskip. cbv zeta in Hskip.
  unfold _modbus_tcp_pi_connect. rewrite Hd. cbn [Z.eqb negb].
  rewrite Hskip. cbn [pi_connect_loop fst snd set_response_timeout s].
  destruct (Z.ltb_spec (s ctx) 0) as [Hlt|_]; [lia|].
  eexists _, _, _. split; [reflexivity|]. split; reflexivity.
Qed.

Lemma tcp_pi_connect_keeps_stale_socket_witness :
  exists errno' calls,
    _modbus_tcp_pi_connect 0 [example_refusing; example_refusing_late]
      example_pi_heap example_ctx EINVAL
    = Some (set_response_timeout {| tv_sec := 0; tv_usec := 300000 |}
                                 example_ctx,
            0, errno', calls).
Proof.
  destruct (tcp_pi_connect_keeps_stale_socket
              [example_refusing; example_refusing_late] example_pi_heap
              example_ctx EINVAL
              {| pi_t_id := 0; node := "plc.example"; service := "1502" |}
              eq_refl ltac:(simpl; lia)
              ltac:(constructor;
                    [right; exists ECONNREFUSED; split;
                     [reflexivity|discriminate]
                    |constructor;
                     [right; exists EINPROGRESS; split;
                      [reflexivity|intros _ (_ & _ & H); discriminate H]
                     |constructor]]))
    as (ctx' & errno' & calls & E & _ & Hctx).
  exists errno', calls. rewrite E, Hctx. reflexivity.
Defined.

(** X18: [modbus_tcp_listen] returns -1 or the socket it created.  When it
    returns the socket, it has set address reuse, bound the socket to any
    address and the low 16 bits of the port of the parameter block (port
    70000 binds 4464) and put it in listening
    state with the given backlog, in that order, and the socket is left
    open; when it returns -1 a socket that was created has been closed
    again.  Without a context it returns -1 with EINVAL and makes no call. *)
Theorem tcp_listen_leaves_no_socket_open (env : listen_env)
  (h : gmap loc backend_data_t) (ctx : modbus_t) (nb_connection : Z)
  (errno : errno_t) (d : modbus_tcp_t) :
  h !! backend_data ctx = Some (tcp_data d) ->
  exists rc errno' calls,
    modbus_tcp_listen env h (Some ctx) nb_connection errno
      = Some (rc, errno', calls)
    /\ (rc = -1
        \/ (rc = rc_of (le_socket env)
            /\ calls = [sys_socket rc; sys_setsockopt rc SO_REUSEADDR;
                        sys_bind rc (sockaddr_in (port d mod 65536)
                                                 INADDR_ANY);
                        sys_listen rc nb_connection]))
    /\ (forall fd, fd <> -1 ->
          opened fd calls
          = (closed fd calls
             + if decide (rc <> -1 /\ fd = rc)%Z then 1 else 0)%nat)
    /\ modbus_tcp_listen env h None nb_connection errno
       = Some (-1, EINVAL, []).
Proof.
  intros Hd. unfold modbus_tcp_listen. rewrite Hd.
  set (fd0 := rc_of (le_socket env)).
  assert (Hclosed : forall fd mid,
             opened fd mid = 0%nat -> closed fd mid = 0%nat ->
             opened fd ([sys_socket fd0] ++ mid ++ [sys_close fd0])
             = closed fd ([sys_socket fd0] ++ mid ++ [sys_close fd0])).
  { intros fd mid Ho Hc.
    rewrite !opened_app, !closed_app, Ho, Hc, opened_socket, closed_close.
    unfold opened, closed. cbn. lia. }
  destruct (Z.eqb_spec fd0 (-1)) as [E|N].
  { eexists _, _, _. split; [reflexivity|]. split; [left; reflexivity|].
    split; [|reflexivity]. intros fd Hfd. rewrite opened_socket.
    destruct (Z.eqb_spec fd0 fd); [lia|].
    rewrite decide_False by lia. reflexivity. }
  destruct (Z.eqb_spec (rc_of (le_reuseaddr env)) (-1)) as [E1|N1].
  { eexists _, _, _. split; [reflexivity|]. split; [left; reflexivity|].
    split; [|reflexivity]. intros fd Hfd.
    rewrite decide_False by lia. rewrite Nat.add_0_r.
    rewrite <- app_assoc. apply Hclosed; reflexivity. }
  destruct (Z.eqb_spec (rc_of (le_bind env)) (-1)) as [E2|N2].
  { eexists _, _, _. split; [reflexivity|]. split; [left; reflexivity|].
    split; [|reflexivity]. intros fd Hfd.
    rewrite decide_False by lia. rewrite Nat.add_0_r.
    rewrite <- !app_assoc. rewrite (app_assoc [sys_setsockopt _ _]).
    apply Hclosed; reflexivity. }
  destruct (Z.eqb_spec (rc_of (le_listen env)) (-1)) as [E3|N3].
  { eexists _, _, _. split; [reflexivity|]. split; [left; reflexivity|].
    split; [|reflexivity]. intros fd Hfd.
    rewrite decide_False by lia. rewrite Nat.add_0_r.
    rewrite <- !app_assoc.
    rewrite (app_assoc [sys_bind _ _]), (app_assoc [sys_setsockopt _ _]).
    apply Hclosed; reflexivity. }
  eexists _, _, _. split; [reflexivity|].
  split; [right; split; reflexivity|]. split; [|reflexivity].
  intros fd Hfd. unfold opened, closed. cbn.
  destruct (Z.eqb_spec fd0 fd).
  - rewrite decide_True by (split; congruence). reflexivity.
  - rewrite decide_False by (intros [_ ?]; congruence). reflexivity.
Qed.

Lemma tcp_listen_leaves_no_socket_open_witness :
  modbus_tcp_listen
    {| le_socket := Ret 3; le_reuseaddr := Ret 0; le_bind := Ret 0;
       le_listen := Ret 0; le_close := Ret 0 |}
    example_heap_port_70000 (Some example_ctx) 1 EINVAL
  = Some (3, EINVAL,
          [sys_socket 3; sys_setsockopt 3 SO_REUSEADDR;
           sys_bind 3 (sockaddr_in 4464 INADDR_ANY); sys_listen 3 1]).
Proof.
  destruct (tcp_listen_leaves_no_socket_open
              {| le_socket := Ret 3; le_reuseaddr := Ret 0;
                 le_bind := Ret 0; le_listen := Ret 0;
                 le_close := Ret 0 |}
              example_heap_port_70000 example_ctx 1 EINVAL
              {| t_id := 0; port := 70000; ip := "127.0.0.1" |} eq_refl)
    as (rc & errno' & calls & E & [Hrc | [Hrc Hcalls]] & _).
  - exfalso. vm_compute in E. congruence.
  - rewrite E. rewrite Hcalls. cbn in Hrc. subst rc.
    vm_compute in E. injection E as <- _. reflexivity.
Defined.

(** The loop of the name/service listen returns -1 with every socket it
    opened closed again, or a socket that is the only one left open. *)
Lemma pi_listen_loop_balance (ai_list : list listen_candidate) :
  forall (idx : nat) (nb_connection : Z) (errno : errno_t),
    let new_s := fst (fst (pi_listen_loop ai_list idx nb_connection errno)) in
    let calls := snd (pi_listen_loop ai_list idx nb_connection errno) in
    (new_s = -1
     /\ forall fd, 0 <= fd -> opened fd calls = closed fd calls)
    \/ (0 <= new_s
        /\ forall fd, 0 <= fd ->
             opened fd calls
             = (closed fd calls + if decide (fd = new_s) then 1 else 0)%nat).
Proof.
  induction ai_list as [|ai ai_list IH]; intros idx nb errno.
  - left. split; [reflexivity|]. intros fd _. reflexivity.
  - cbn [pi_listen_loop].
    set (fd1 := rc_of (lc_socket ai)).
    assert (Hnext : forall e mid,
               (forall fd, 0 <= fd -> opened fd mid = closed fd mid) ->
               let r := (let '(new_s, errno0, calls') :=
                           pi_listen_loop ai_list (S idx) nb e in
                         (new_s, errno0, mid ++ calls')) in
               (fst (fst r) = -1
                /\ forall fd, 0 <= fd -> opened fd (snd r) = closed fd (snd r))
               \/ (0 <= fst (fst r)
                   /\ forall fd, 0 <= fd ->
                        opened fd (snd r)
                        = (closed fd (snd r)
                           + if decide (fd = fst (fst r)) then 1 else 0)%nat)).
    { intros e mid Hmid. specialize (IH (S idx) nb e).
      destruct (pi_listen_loop ai_list (S idx) nb e) as [[n e'] cs].
      cbn [fst snd] in *.
      destruct IH as [[-> Hb]|[Hn Hb]].
      - left. split; [reflexivity|]. intros fd Hfd.
        rewrite opened_app, closed_app, (Hmid fd Hfd), (Hb fd Hfd).
        reflexivity.
      - right. split; [exact Hn|]. intros fd Hfd.
        rewrite opened_app, closed_app, (Hmid fd Hfd), (Hb fd Hfd). lia. }
    assert (Hmid : forall mid fd,
               opened fd mid = 0%nat -> closed fd mid = 0%nat ->
               0 <= fd -> 0 <= fd1 ->
               opened fd ((sys_socket fd1 :: mid) ++ [sys_close fd1])
               = closed fd ((sys_socket fd1 :: mid) ++ [sys_close fd1])).
    { intros mid fd Ho Hc _ _.
      change (sys_socket fd1 :: mid) with ([sys_socket fd1] ++ mid).
      rewrite !opened_app, !closed_app, Ho, Hc, opened_socket, closed_close.
      unfold opened, closed. cbn. lia. }
    destruct (Z.ltb_spec fd1 0) as [Hneg|Hpos].
    { apply Hnext. intros fd Hfd. rewrite opened_socket.
      destruct (Z.eqb_spec fd1 fd); [lia|]. reflexivity. }
    destruct (rc_of (lc_reuseaddr ai) =? 0); cbn [negb].
    2:{ apply Hnext. intros fd Hfd.
        apply (Hmid [sys_setsockopt fd1 SO_REUSEADDR]);
          try reflexivity; assumption. }
    destruct (rc_of (lc_bind ai) =? 0); cbn [negb].
    2:{ apply Hnext. intros fd Hfd.
        apply (Hmid [sys_setsockopt fd1 SO_REUSEADDR;
                     sys_bind fd1 (addr_info idx)]);
          try reflexivity; assumption. }
    destruct (rc_of (lc_listen ai) =? 0); cbn [negb].
    2:{ apply Hnext. intros fd Hfd.
        apply (Hmid [sys_setsockopt fd1 SO_REUSEADDR;
                     sys_bind fd1 (addr_info idx); sys_listen fd1 nb]);
          try reflexivity; assumption. }
    right. cbn [fst snd]. split; [exact Hpos|].
    intros fd Hfd. unfold opened, closed. cbn.
    destruct (Z.eqb_spec fd1 fd).
    + rewrite decide_True by congruence. reflexivity.
    + rewrite decide_False by congruence. reflexivity.
Qed.

(** X19: [modbus_tcp_pi_listen] returns -1 or a socket that is not negative.
    A failed resolution gives -1 with ECONNREFUSED after the one call.
    After a result of -1 every socket that was opened has been closed
    again; after a socket, that socket is the only one left open.  The
    candidate list is released last.  Without a context the result is -1
    with EINVAL and no call. *)
Theorem tcp_pi_listen_leaves_no_socket_open (gai : Z)
  (ai_list : list listen_candidate) (h : gmap loc backend_data_t)
  (ctx : modbus_t) (nb_connection : Z) (errno : errno_t)
  (d : modbus_tcp_pi_t) :
  h !! backend_data ctx = Some (tcp_pi_data d) ->
  exists rc errno' calls,
    modbus_tcp_pi_listen gai ai_list h (Some ctx) nb_connection errno
      = Some (rc, errno', calls)
    /\ (rc = -1 \/ 0 <= rc)
    /\ (gai <> 0 -> rc = -1 /\ errno' = ECONNREFUSED /\ length calls = 1%nat)
    /\ (gai = 0 -> last calls = Some sys_freeaddrinfo)
    /\ (forall fd, 0 <= fd ->
          opened fd calls
          = (closed fd calls
             + if decide (rc <> -1 /\ fd = rc)%Z then 1 else 0)%nat)
    /\ modbus_tcp_pi_listen gai ai_list h None nb_connection errno
       = Some (-1, EINVAL, []).
Proof.
  intros Hd. unfold modbus_tcp_pi_listen. rewrite Hd.
  set (resolve := sys_getaddrinfo _ _ true).
  destruct (Z.eqb_spec gai 0) as [Hg|Hg]; cbn [negb].
  2:{ eexists _, _, _. split; [reflexivity|].
      repeat split; try (left; reflexivity); try contradiction. }
  pose proof (pi_listen_loop_balance ai_list 0 nb_connection errno) as Hb.
  destruct (pi_listen_loop ai_list 0 nb_connection errno) as [[n e] cs].
  cbn [fst snd] in Hb.
  assert (Hcalls : forall fd,
             opened fd (resolve :: cs ++ [sys_freeaddrinfo]) = opened fd cs
             /\ closed fd (resolve :: cs ++ [sys_freeaddrinfo]) = closed fd cs).
  { intros fd.
    change (resolve :: cs ++ [sys_freeaddrinfo])
      with ([resolve] ++ cs ++ [sys_freeaddrinfo]).
    rewrite !opened_app, !closed_app. unfold opened, closed. cbn.
    split; lia. }
  assert (Hlast : last (resolve :: cs ++ [sys_freeaddrinfo])
                  = Some sys_freeaddrinfo).
  { change (resolve :: cs ++ [sys_freeaddrinfo])
      with ((resolve :: cs) ++ [sys_freeaddrinfo]).
    apply last_snoc. }
  destruct (Z.ltb_spec n 0) as [Hneg|Hpos].
  - eexists _, _, _. split; [reflexivity|].
    split; [left; reflexivity|]. split; [intros; contradiction|].
    split; [intros _; exact Hlast|]. split; [|reflexivity].
    intros fd Hfd. destruct (Hcalls fd) as [-> ->].
    rewrite decide_False by lia. rewrite Nat.add_0_r.
    destruct Hb as [[_ Hbal]|[Hn _]]; [apply Hbal; exact Hfd|lia].
  - eexists _, _, _. split; [reflexivity|].
    split; [right; exact Hpos|]. split; [intros; contradiction|].
    split; [intros _; exact Hlast|]. split; [|reflexivity].
    intros fd Hfd. destruct (Hcalls fd) as [-> ->].
    destruct Hb as [[Hn _]|[_ Hbal]]; [lia|].
    rewrite (Hbal fd Hfd).
    destruct (decide (fd = n)) as [->|Hne].
    + rewrite decide_True by (split; [lia|reflexivity]). reflexivity.
    + rewrite decide_False by (intros [_ ?]; contradiction). reflexivity.
Qed.

Lemma tcp_pi_listen_leaves_no_socket_open_witness :
  exists errno' calls,
    modbus_tcp_pi_listen 0
      [{| lc_socket := Ret 3; lc_reuseaddr := Ret 0;
          lc_bind := Fail (Eother 98); lc_listen := Ret 0;
          lc_close := Ret 0 |};
       {| lc_socket := Ret 3; lc_reuseaddr := Ret 0; lc_bind := Ret 0;
          lc_listen := Ret 0; lc_close := Ret 0 |}]
      example_pi_heap (Some example_ctx) 1 EINVAL
    = Some (3, errno', calls)
    /\ opened 3 calls = 2%nat /\ closed 3 calls = 1%nat.
Proof.
  destruct (tcp_pi_listen_leaves_no_socket_open 0
              [{| lc_socket := Ret 3; lc_reuseaddr := Ret 0;
                  lc_bind := Fail (Eother 98); lc_listen := Ret 0;
                  lc_close := Ret 0 |};
               {| lc_socket := Ret 3; lc_reuseaddr := Ret 0; lc_bind := Ret 0;
                  lc_listen := Ret 0; lc_close := Ret 0 |}]
              example_pi_heap example_ctx 1 EINVAL
              {| pi_t_id := 0; node := "plc.example"; service := "1502" |}
              eq_refl)
    as (rc & errno' & calls & E & _).
  vm_compute in E. injection E as <- <- <-.
  eexists _, _. split; [reflexivity|]. split; reflexivity.
Defined.

(** X20: for a context [modbus_new_tcp_pi] has built, the name/service
    connect and listen resolve the node and the service given to the
    constructor: the replacements [modbus_tcp_pi_listen] has for an empty
    node (any address) and an empty service ("502") are never used, since
    the constructor rejects empty strings. *)
Theorem tcp_pi_resolves_constructor_strings (hl cl mx : Z) (nl sl : nat)
  (init : modbus_t) (h h1 : gmap loc backend_data_t) (ctx : modbus_t)
  (host port_name : string) (gai : Z) (ai_list : list candidate)
  (lai_list : list listen_candidate) (nb_connection : Z) (errno : errno_t) :
  modbus_new_tcp_pi hl cl mx nl sl init h host port_name = (h1, inl ctx) ->
  (exists ctx' rc errno' calls,
     _modbus_tcp_pi_connect gai ai_list h1 ctx errno
     = Some (ctx', rc, errno',
             sys_getaddrinfo (Some host) port_name false :: calls))
  /\ (exists rc errno' calls,
        modbus_tcp_pi_listen gai lai_list h1 (Some ctx) nb_connection errno
        = Some (rc, errno',
                sys_getaddrinfo (Some host) port_name true :: calls)).
Proof.
  intros H. unfold modbus_new_tcp_pi in H.
  destruct (strlcpy host nl) as [node_copy ret_size] eqn:Enode.
  destruct (Nat.eqb_spec ret_size 0) as [|Hn0]; [discriminate|].
  destruct (Nat.leb_spec nl ret_size) as [|Hnl]; [discriminate|].
  destruct (strlcpy port_name sl) as [service_copy ret_size'] eqn:Eservice.
  destruct (Nat.eqb_spec ret_size' 0) as [|Hs0]; [discriminate|].
  destruct (Nat.leb_spec sl ret_size') as [|Hsl]; [discriminate|].
  injection H as <- <-.
  unfold strlcpy in Enode, Eservice.
  injection Enode as Enode <-. injection Eservice as Eservice <-.
  rewrite substring_all in Enode by lia.
  rewrite substring_all in Eservice by lia. subst node_copy service_copy.
  assert (Hnode : String.eqb host "" = false).
  { apply String.eqb_neq. intros ->. apply Hn0. reflexivity. }
  assert (Hservice : String.eqb port_name "" = false).
  { apply String.eqb_neq. intros ->. apply Hs0. reflexivity. }
  split.
  - unfold _modbus_tcp_pi_connect. cbn [set_backend_data backend_data].
    rewrite lookup_insert_eq. cbn [node service].
    destruct (negb (gai =? 0)); [eexists _, _, _, _; reflexivity|].
    destruct (pi_connect_loop ai_list 0 _ errno) as [[c e] cs].
    destruct (s c <? 0); eexists _, _, _, _; reflexivity.
  - unfold modbus_tcp_pi_listen. cbn [set_backend_data backend_data].
    rewrite lookup_insert_eq. cbn [node service].
    rewrite Hnode, Hservice.
    destruct (negb (gai =? 0)); [eexists _, _, _; reflexivity|].
    destruct (pi_listen_loop lai_list 0 nb_connection errno) as [[n e] cs].
    destruct (n <? 0); eexists _, _, _; reflexivity.
Qed.

Lemma tcp_pi_resolves_constructor_strings_witness :
  exists h1 ctx rc errno' calls,
    modbus_new_tcp_pi 7 0 260 1025 32 example_init ∅ "plc.example" "1502"
      = (h1, inl ctx)
    /\ modbus_tcp_pi_listen 0 [] h1 (Some ctx) 1 EINVAL
       = Some (rc, errno',
               sys_getaddrinfo (Some "plc.example"%string) "1502" true
               :: calls).
Proof.
  destruct (modbus_new_tcp_pi 7 0 260 1025 32 example_init ∅ "plc.example"
              "1502") as [h1 [ctx|e]] eqn:E; [|vm_compute in E; discriminate].
  destruct (tcp_pi_resolves_constructor_strings 7 0 260 1025 32 example_init
              ∅ h1 ctx "plc.example" "1502" 0 [] [] 1 EINVAL E)
    as (_ & rc & errno' & calls & El).
  exists h1, ctx, rc, errno', calls. split; [reflexivity|exact El].
Defined.

(** X21: how an address-based connect reports a connection that does not
    complete at once ([connect] failing with EINPROGRESS on a socket that
    was created and tuned).  When the wait for writability times out, the
    result is -1 with [errno] still EINPROGRESS, not ETIMEDOUT; when the
    socket becomes writable with a pending error, -1 with ECONNREFUSED; in
    both cases the socket is closed and the context holds -1.  With no
    pending error the result is 0 and the context holds the socket.  In all
    three cases the response timeout of the context is afterwards what
    [select] left in it. *)
Theorem tcp_connect_in_progress_outcomes (h : gmap loc backend_data_t)
  (ctx : modbus_t) (errno : errno_t) (d : modbus_tcp_t) (fd n optval : Z)
  (left : timeval) :
  h !! backend_data ctx = Some (tcp_data d) ->
  fd <> -1 ->
  0 < n ->
  optval <> 0 ->
  let env select_ret pending :=
    {| te_socket := Ret fd;
       te_options := {| oe_nodelay := Ret 0; oe_tos := Ret 0 |};
       te_connect := {| ce_connect := Fail EINPROGRESS;
                        ce_select := select_ret; ce_timeleft := left;
                        ce_getsockopt := Ret 0; ce_optval := pending |};
       te_close := Ret 0 |} in
  let addr := sockaddr_in (port d mod 65536) (inet_addr (ip d)) in
  let tuned := [sys_socket fd; sys_setsockopt fd TCP_NODELAY;
                sys_setsockopt fd IP_TOS; sys_connect fd addr;
                sys_select_write fd (response_timeout ctx)] in
  _modbus_tcp_connect (env (Ret 0) optval) h ctx errno
  = Some (set_s (-1) (set_response_timeout left ctx), -1, EINPROGRESS,
          tuned ++ [sys_close fd])
  /\ _modbus_tcp_connect (env (Ret n) optval) h ctx errno
     = Some (set_s (-1) (set_response_timeout left ctx), -1, ECONNREFUSED,
             tuned ++ [sys_getsockopt fd; sys_close fd])
  /\ _modbus_tcp_connect (env (Ret n) 0) h ctx errno
     = Some (set_s fd (set_response_timeout left ctx), 0, EINPROGRESS,
             tuned ++ [sys_getsockopt fd]).
Proof.
  intros Hd Hfd Hn Hopt env addr tuned.
  unfold _modbus_tcp_connect, env. rewrite Hd.
  cbn [te_socket te_options te_connect te_close rc_of errno_after set_s s
       response_timeout].
  destruct (Z.eqb_spec fd (-1)) as [|_]; [contradiction|].
  unfold _modbus_tcp_set_ipv4_options, _connect.
  cbn [oe_nodelay oe_tos ce_connect ce_select ce_getsockopt ce_optval rc_of
       ce_timeleft errno_after].
  change (0 =? -1) with false. change (-1 =? -1) with true.
  rewrite bool_decide_eq_true_2 by reflexivity.
  cbn [andb]. change (0 <=? 0) with true. change (0 =? 0) with true.
  destruct (Z.leb_spec n 0) as [|_]; [lia|].
  destruct (Z.eqb_spec optval 0) as [|_]; [contradiction|].
  cbn [andb]. change (-1 =? -1) with true. change (0 =? -1) with false.
  repeat split.
Qed.

Lemma tcp_connect_in_progress_outcomes_witness :
  _modbus_tcp_connect
    {| te_socket := Ret 5;
       te_options := {| oe_nodelay := Ret 0; oe_tos := Ret 0 |};
       te_connect := {| ce_connect := Fail EINPROGRESS; ce_select := Ret 0;
                        ce_timeleft := {| tv_sec := 0; tv_usec := 0 |};
                        ce_getsockopt := Ret 0; ce_optval := 111 |};
       te_close := Ret 0 |}
    example_heap example_ctx EINVAL
  = Some (set_s (-1) (set_response_timeout {| tv_sec := 0; tv_usec := 0 |}
                                           example_ctx),
          -1, EINPROGRESS,
          [sys_socket 5; sys_setsockopt 5 TCP_NODELAY; sys_setsockopt 5 IP_TOS;
           sys_connect 5 (sockaddr_in 502 (inet_addr "127.0.0.1"));
           sys_select_write 5 (response_timeout example_ctx); sys_close 5]).
Proof.
  exact (proj1 (tcp_connect_in_progress_outcomes example_heap example_ctx
                  EINVAL {| t_id := 0; port := 502; ip := "127.0.0.1" |}
                  5 1 111 {| tv_sec := 0; tv_usec := 0 |}
                  eq_refl ltac:(lia) ltac:(lia) ltac:(lia))).
Defined.
